(** * Synthetic log emitters of the alert engine: model and verification

    Two Python scripts fabricate log records for a fixed catalog of alert
    patterns:

    - [deployments/mock/mock_log_generator.py], class [MockLogGenerator],
      prints one JSON object per line on standard output;
    - [local_e2e/setup/mock_log_forwarder.py], class [MockLogForwarder],
      publishes each record to a Kafka topic.

    The scripts are embedded as functions over an explicit world state
    (pending random draws, pending clock readings, the [running] flag, the
    broker connection, and the ordered trace of observable events).  Python
    exceptions are a second kind of result that keeps the world reached so
    far.  Python [str] values are Rocq strings, one character per code point
    below 256; dictionaries are association lists in insertion order.

    Left out: signals and [KeyboardInterrupt] (nothing here clears the
    [running] flag from outside) and the filtering of the [logging]
    module (a call to the logger is an event whatever the level).  The
    one [float] the scripts read is carried as the text it prints as and
    the length [time.sleep] makes of it; the pauses written in the code
    are whole milliseconds.  A loop that never ends is cut by a fuel and
    then answers [Looping]. *)

From Stdlib Require Import String Ascii ZArith NArith List Lia Bool Arith.
From Stdlib Require Import DecimalString.
Import ListNotations.

Set Warnings "-register-all".

Open Scope string_scope.
Open Scope Z_scope.

(* ================================================================== *)
(** ** Python text primitives *)
(* ================================================================== *)

Module Py.

Definition dquote : ascii := "034"%char.
Definition backslash : ascii := "092"%char.

Definition chr (c : ascii) : string := String c EmptyString.

(** [k in s] for two [str] values. *)
Fixpoint contains (k s : string) : bool :=
  String.prefix k s
  || match s with
     | EmptyString => false
     | String _ s' => contains k s'
     end.

(** [c in s] for a one-character needle. *)
Fixpoint has_char (c : ascii) (s : string) : bool :=
  match s with
  | EmptyString => false
  | String a s' => Ascii.eqb a c || has_char c s'
  end.

(** [s.split(c)[0]]: the text before the first occurrence of [c]. *)
Fixpoint split_head (c : ascii) (s : string) : string :=
  match s with
  | EmptyString => EmptyString
  | String a s' => if Ascii.eqb a c then EmptyString
                   else String a (split_head c s')
  end.

(** [str(n)] and [f"{n}"] for an [int]. *)
Definition str_of_int (n : Z) : string :=
  NilZero.string_of_int (Z.to_int n).

(** [s[:n]]. *)
Definition take (n : nat) (s : string) : string := String.substring 0 n s.

(** [str.lower] on code points below 256: the ASCII capitals and the
    Latin-1 capitals (0xC0-0xDE without the multiplication sign). *)
Definition lower_char (c : ascii) : ascii :=
  let n := N_of_ascii c in
  if ((65 <=? n) && (n <=? 90))%N then ascii_of_N (n + 32)
  else if ((192 <=? n) && (n <=? 222) && negb (n =? 215))%N
       then ascii_of_N (n + 32)
  else c.

Fixpoint lower (s : string) : string :=
  match s with
  | EmptyString => EmptyString
  | String c s' => String (lower_char c) (lower s')
  end.

(** [str.upper] as far as ASCII goes: a character outside ASCII is left
    as it is.  Its real image is never an ASCII character, but for the
    sharp s, which becomes [SS]; the result is only compared with names
    that have no [SS]. *)
Definition upper_char (c : ascii) : ascii :=
  let n := N_of_ascii c in
  if ((97 <=? n) && (n <=? 122))%N then ascii_of_N (n - 32) else c.

Fixpoint upper (s : string) : string :=
  match s with
  | EmptyString => EmptyString
  | String c s' => String (upper_char c) (upper s')
  end.

(** One lower-case hexadecimal digit. *)
Definition hex_digit (n : N) : ascii :=
  if (n <? 10)%N then ascii_of_N (48 + n) else ascii_of_N (87 + n).

(** Two hexadecimal digits of a byte value. *)
Definition hex_byte (n : N) : string :=
  String (hex_digit (n / 16)) (String (hex_digit (n mod 16)) EmptyString).

(** [int.to_bytes(n, 'little')]: the [n] low bytes, least significant
    first. *)
Fixpoint to_bytes_little (n : nat) (d : Z) : list N :=
  match n with
  | O => []
  | S n' => Z.to_N (d mod 256) :: to_bytes_little n' (d / 256)
  end.

(** [bytes.hex()]. *)
Fixpoint bytes_hex (bs : list N) : string :=
  match bs with
  | [] => EmptyString
  | b :: bs' => hex_byte b ++ bytes_hex bs'
  end.

End Py.

(* ================================================================== *)
(** ** Python values held by a log record, and dictionaries *)
(* ================================================================== *)

(** Every value the two scripts store in a record is a [str] or a nested
    [dict] with [str] keys. *)
Inductive pyval : Type :=
| PStr (s : string)
| PDict (items : list (string * pyval)).

Definition pydict : Type := list (string * pyval).

(** [d.get(k)]: the value under [k], if any. *)
Fixpoint dict_get (k : string) (d : pydict) : option pyval :=
  match d with
  | [] => None
  | (k', v) :: d' => if String.eqb k' k then Some v else dict_get k d'
  end.

(** [d[k] = v]: an existing key keeps its position, a new key goes last. *)
Fixpoint dict_set (k : string) (v : pyval) (d : pydict) : pydict :=
  match d with
  | [] => [(k, v)]
  | (k', v') :: d' => if String.eqb k' k then (k', v) :: d'
                      else (k', v') :: dict_set k v d'
  end.

Definition dict_keys (d : pydict) : list string := map fst d.

(** [repr(s)] of a [str]: single quotes unless the text has a single quote
    and no double quote; backslash, the chosen quote and the characters
    that are not printable are escaped. *)
Definition repr_char (q : ascii) (c : ascii) : string :=
  let n := N_of_ascii c in
  if Ascii.eqb c q || Ascii.eqb c Py.backslash then String Py.backslash (Py.chr c)
  else if (n =? 9)%N then String Py.backslash "t"
  else if (n =? 10)%N then String Py.backslash "n"
  else if (n =? 13)%N then String Py.backslash "r"
  else if ((n <? 32) || ((127 <=? n) && (n <=? 160)) || (n =? 173))%N
       then String Py.backslash ("x" ++ Py.hex_byte n)
  else Py.chr c.

Definition repr_str (s : string) : string :=
  let q := if Py.has_char "'" s && negb (Py.has_char Py.dquote s)
           then Py.dquote else "'"%char in
  String q ((fix body (t : string) : string :=
               match t with
               | EmptyString => EmptyString
               | String c t' => repr_char q c ++ body t'
               end) s ++ Py.chr q).

(** [repr(v)]. *)
Fixpoint py_repr (v : pyval) : string :=
  match v with
  | PStr s => repr_str s
  | PDict items =>
      "{" ++
      (fix members (l : list (string * pyval)) : string :=
         match l with
         | [] => EmptyString
         | (k, x) :: tl =>
             repr_str k ++ ": " ++ py_repr x ++
             match tl with
             | [] => EmptyString
             | _ :: _ => ", " ++ members tl
             end
         end) items
      ++ "}"
  end.

(** [str(v)] and [f"{v}"]: a [str] is itself, a [dict] is its [repr]. *)
Definition py_str (v : pyval) : string :=
  match v with
  | PStr s => s
  | PDict _ => py_repr v
  end.

(* ================================================================== *)
(** ** The [json] module on this fragment *)
(* ================================================================== *)

Module Json.

(** The encoder's string escaping with [ensure_ascii] left at its default:
    quote and backslash get a backslash, the five short escapes are used,
    the printable ASCII range is copied, everything else becomes
    [\u00XX]. *)
Definition escape_char (c : ascii) : string :=
  let n := N_of_ascii c in
  if Ascii.eqb c Py.dquote then String Py.backslash (Py.chr Py.dquote)
  else if Ascii.eqb c Py.backslash then String Py.backslash (Py.chr Py.backslash)
  else if (n =? 10)%N then String Py.backslash "n"
  else if (n =? 13)%N then String Py.backslash "r"
  else if (n =? 9)%N then String Py.backslash "t"
  else if (n =? 8)%N then String Py.backslash "b"
  else if (n =? 12)%N then String Py.backslash "f"
  else if ((32 <=? n) && (n <=? 126))%N then Py.chr c
  else String Py.backslash ("u00" ++ Py.hex_byte n).

Fixpoint escape (s : string) : string :=
  match s with
  | EmptyString => EmptyString
  | String c s' => escape_char c ++ escape s'
  end.

Definition quote (s : string) : string :=
  String Py.dquote (escape s ++ Py.chr Py.dquote).

(** [json.dumps(v, separators=(item_sep, key_sep))]; keys are written in
    insertion order. *)
Fixpoint dumps_with (item_sep key_sep : string) (v : pyval) : string :=
  match v with
  | PStr s => quote s
  | PDict items =>
      "{" ++
      (fix members (l : list (string * pyval)) : string :=
         match l with
         | [] => EmptyString
         | (k, x) :: tl =>
             quote k ++ key_sep ++ dumps_with item_sep key_sep x ++
             match tl with
             | [] => EmptyString
             | _ :: _ => item_sep ++ members tl
             end
         end) items
      ++ "}"
  end.

(** [json.dumps(v)]. *)
Definition dumps (v : pyval) : string := dumps_with ", " ": " v.

(** [json.dumps(v, separators=(',', ':'))]. *)
Definition dumps_compact (v : pyval) : string := dumps_with "," ":" v.

(** *** Decoder *)

Definition is_ws (c : ascii) : bool :=
  let n := N_of_ascii c in
  ((n =? 32) || (n =? 9) || (n =? 10) || (n =? 13))%N.

Fixpoint skip_ws (s : string) : string :=
  match s with
  | EmptyString => EmptyString
  | String c s' => if is_ws c then skip_ws s' else s
  end.

Definition hex_val (c : ascii) : option N :=
  let n := N_of_ascii c in
  if ((48 <=? n) && (n <=? 57))%N then Some (n - 48)%N
  else if ((97 <=? n) && (n <=? 102))%N then Some (n - 87)%N
  else if ((65 <=? n) && (n <=? 70))%N then Some (n - 55)%N
  else None.

Definition hex4 (a b c d : ascii) : option N :=
  match hex_val a, hex_val b, hex_val c, hex_val d with
  | Some x, Some y, Some z, Some t =>
      Some (((x * 16 + y) * 16 + z) * 16 + t)%N
  | _, _, _, _ => None
  end.

(** The character a one-letter escape stands for. *)
Definition short_escape (e : ascii) : option ascii :=
  let n := N_of_ascii e in
  if Ascii.eqb e Py.dquote then Some Py.dquote
  else if Ascii.eqb e Py.backslash then Some Py.backslash
  else if (n =? 47)%N then Some "/"%char
  else if (n =? 98)%N then Some "008"%char
  else if (n =? 102)%N then Some "012"%char
  else if (n =? 110)%N then Some "010"%char
  else if (n =? 114)%N then Some "013"%char
  else if (n =? 116)%N then Some "009"%char
  else None.

Definition cons_char (c : ascii) (r : option (string * string))
  : option (string * string) :=
  match r with
  | Some (s, rest) => Some (String c s, rest)
  | None => None
  end.

(** The strict string scanner, started after the opening quote: returns
    the decoded text and the input left after the closing quote.  A
    [\uXXXX] escape of a code point above 255 has no value in this model
    of [str] and is refused. *)
Fixpoint scanstring (s : string) : option (string * string) :=
  match s with
  | EmptyString => None
  | String c r =>
      if Ascii.eqb c Py.dquote then Some (EmptyString, r)
      else if Ascii.eqb c Py.backslash then
        match r with
        | EmptyString => None
        | String e r' =>
            if Ascii.eqb e "u"%char then
              match r' with
              | String h1 (String h2 (String h3 (String h4 r''))) =>
                  match hex4 h1 h2 h3 h4 with
                  | Some n =>
                      if (n <? 256)%N
                      then cons_char (ascii_of_N n) (scanstring r'')
                      else None
                  | None => None
                  end
              | _ => None
              end
            else
              match short_escape e with
              | Some x => cons_char x (scanstring r')
              | None => None
              end
        end
      else if (N_of_ascii c <? 32)%N then None
      else cons_char c (scanstring r)
  end.

(** The member loop of an object, positioned on the opening quote of a
    key; [pv] decodes one value (skipping the white space before it). *)
Fixpoint parse_members (pv : string -> option (pyval * string))
         (n : nat) (acc : pydict) (s : string) : option (pyval * string) :=
  match n with
  | O => None
  | S n' =>
      match s with
      | EmptyString => None
      | String c r =>
          if negb (Ascii.eqb c Py.dquote) then None else
          match scanstring r with
          | None => None
          | Some (k, r1) =>
              match skip_ws r1 with
              | String ":" r2 =>
                  match pv r2 with
                  | None => None
                  | Some (v, r3) =>
                      match skip_ws r3 with
                      | String "," r4 =>
                          parse_members pv n' (dict_set k v acc) (skip_ws r4)
                      | String "}" r4 => Some (PDict (dict_set k v acc), r4)
                      | _ => None
                      end
                  end
              | _ => None
              end
          end
      end
  end.

(** One value: a string or an object (the only kinds the scripts write).
    The fuel bounds the nesting depth. *)
Fixpoint parse_value (fuel : nat) (s : string) : option (pyval * string) :=
  match fuel with
  | O => None
  | S fuel' =>
      match skip_ws s with
      | EmptyString => None
      | String c r =>
          if Ascii.eqb c Py.dquote then
            match scanstring r with
            | Some (str, r') => Some (PStr str, r')
            | None => None
            end
          else if Ascii.eqb c "{"%char then
            match skip_ws r with
            | String "}" r' => Some (PDict [], r')
            | r1 => parse_members (parse_value fuel') (String.length r1) [] r1
            end
          else None
      end
  end.

(** [json.loads(s)]: one value, then only white space. *)
Definition loads (s : string) : option pyval :=
  match parse_value (S (String.length s)) s with
  | Some (v, rest) =>
      match skip_ws rest with
      | EmptyString => Some v
      | String _ _ => None
      end
  | None => None
  end.

End Json.

(* ================================================================== *)
(** ** The world the scripts run in *)
(* ================================================================== *)

(** The exceptions (all subclasses of [Exception]) that the modelled
    operations raise, with the text [str(e)] gives. *)
Inductive exc : Type :=
| IndexError (msg : string)
| KeyError (key : string)
| ZeroDivisionError (msg : string)
| ValueError (msg : string)
| AttributeError (msg : string)
| TypeError (msg : string)
| OverflowError (msg : string)
| NoBrokersAvailable.

Definition exc_str (e : exc) : string :=
  match e with
  | IndexError m => m
  | KeyError k => "'" ++ k ++ "'"
  | ZeroDivisionError m => m
  | ValueError m => m
  | AttributeError m => m
  | TypeError m => m
  | OverflowError m => m
  | NoBrokersAvailable => "NoBrokersAvailable"
  end.

(** What an observer of the process sees, in order. *)
Inductive event : Type :=
| Stdout (line : string)                       (* print(line) *)
| Sleep (ms : Z)                               (* time.sleep, whole ms *)
| LogInfo (msg : string)                       (* self.logger.info *)
| LogError (msg : string)                      (* self.logger.error *)
| LogDebug (msg : string)                      (* self.logger.debug *)
| KafkaSend (topic key : string) (value : pyval) (* producer.send *)
| KafkaFlush                                   (* producer.flush *)
| KafkaClose.                                  (* producer.close *)

(** - [rnd]: the values the random generator will return, one per
      underlying call (0 once the list is used up);
    - [clock]: the formatted readings [datetime.utcnow()] will give;
    - [str_hash]: the hash that orders the iteration of a [set] of [str];
    - [running]: the attribute [self.running];
    - [producer]: whether [self.producer] holds a connected producer
      (it is [None] otherwise);
    - [broker_up]: whether the broker answers a connection attempt;
    - [trace]: the events so far, oldest first. *)
Record world : Type := World {
  rnd : list Z;
  clock : list string;
  str_hash : string -> Z;
  running : bool;
  producer : bool;
  broker_up : bool;
  trace : list event
}.

Inductive result (A : Type) : Type :=
| Ok (a : A) (w : world)
| Raise (e : exc) (w : world).
Arguments Ok {A} a w.
Arguments Raise {A} e w.

Definition M (A : Type) : Type := world -> result A.

Definition ret {A} (a : A) : M A := fun w => Ok a w.

Definition bind {A B} (m : M A) (f : A -> M B) : M B :=
  fun w => match m w with
           | Ok a w' => f a w'
           | Raise e w' => Raise e w'
           end.

Definition raise {A} (e : exc) : M A := fun w => Raise e w.

(** [try: m  except Exception as e: h e]. *)
Definition try_except {A} (m : M A) (h : exc -> M A) : M A :=
  fun w => match m w with
           | Ok a w' => Ok a w'
           | Raise e w' => h e w'
           end.

(** [try: m  finally: f]: [f] runs on both exits; an exception of [m]
    goes on after it. *)
Definition try_finally {A} (m : M A) (f : M unit) : M A :=
  fun w => match m w with
           | Ok a w' => match f w' with
                        | Ok _ w'' => Ok a w''
                        | Raise e w'' => Raise e w''
                        end
           | Raise e w' => match f w' with
                           | Ok _ w'' => Raise e w''
                           | Raise e' w'' => Raise e' w''
                           end
           end.

Declare Scope monad_scope.
Delimit Scope monad_scope with monad.
Notation "x <- c ;; k" := (bind c (fun x => k))
  (at level 61, c at next level, right associativity) : monad_scope.
Notation "c ;;; k" := (bind c (fun _ => k))
  (at level 61, right associativity) : monad_scope.
Open Scope monad_scope.

Definition emit (e : event) : M unit :=
  fun w => Ok tt (World (rnd w) (clock w) (str_hash w) (running w)
                        (producer w) (broker_up w) (trace w ++ [e])).

Definition set_running (b : bool) : M unit :=
  fun w => Ok tt (World (rnd w) (clock w) (str_hash w) b
                        (producer w) (broker_up w) (trace w)).

Definition set_producer (b : bool) : M unit :=
  fun w => Ok tt (World (rnd w) (clock w) (str_hash w) (running w)
                        b (broker_up w) (trace w)).

Definition get_running : M bool := fun w => Ok (running w) w.
Definition get_producer : M bool := fun w => Ok (producer w) w.
Definition get_broker_up : M bool := fun w => Ok (broker_up w) w.
Definition get_str_hash : M (string -> Z) := fun w => Ok (str_hash w) w.

(** One call of the underlying random generator. *)
Definition draw : M Z :=
  fun w => Ok (hd 0 (rnd w))
              (World (tl (rnd w)) (clock w) (str_hash w) (running w)
                     (producer w) (broker_up w) (trace w)).

(** [random.randint(a, b)], used with literal bounds [a <= b] only. *)
Definition randint (a b : Z) : M Z :=
  d <- draw ;; ret (a + d mod (b - a + 1)).

(** [random.choice(seq)]: [IndexError] on an empty sequence. *)
Definition choice {A} (l : list A) : M A :=
  match l with
  | [] => raise (IndexError "Cannot choose from an empty sequence")
  | x :: _ =>
      d <- draw ;;
      ret (nth (Z.to_nat (d mod Z.of_nat (List.length l))) l x)
  end.

(** [random.randbytes(n)]: [getrandbits(8 * n).to_bytes(n, 'little')]. *)
Definition randbytes (n : nat) : M (list N) :=
  d <- draw ;; ret (Py.to_bytes_little n d).

(** [random.uniform(lo, hi)] for a sleep length, in whole milliseconds. *)
Definition uniform_ms (lo hi : Z) : M Z :=
  d <- draw ;; ret (lo + d mod (hi - lo + 1)).

(** [datetime.utcnow().strftime("%Y-%m-%dT%H:%M:%S.%fZ")]. *)
Definition utcnow_str : M string :=
  fun w => Ok (hd "1970-01-01T00:00:00.000000Z" (clock w))
              (World (rnd w) (tl (clock w)) (str_hash w) (running w)
                     (producer w) (broker_up w) (trace w)).

(** What [time.sleep] answers to a length of [ns] nanoseconds (CPython
    3.11 converts its argument to a signed 64-bit count of nanoseconds,
    rounding away from zero, before it looks at the sign): [OverflowError]
    outside the 64 bits, [ValueError] for a negative length, nothing for
    a length it accepts.  The range is compared on the [float], which lets
    exactly 2^63 through; the conversion then wraps it to a negative
    count.  Close below the limit the platform itself may refuse the
    pause, when the deadline it adds to its own clock no longer fits; a
    pause that is taken is stated only for lengths up to 10^8 seconds
    ([takes_pause]). *)
Definition sleep_error (ns : Z) : option exc :=
  if (ns <? - 9223372036854775808) || (9223372036854775808 <? ns)
  then Some (OverflowError "timestamp too large to convert to C _PyTime_t")
  else if (ns <? 0) || (ns =? 9223372036854775808)
       then Some (ValueError "sleep length must be non-negative")
       else None.

Definition sleep_ns (ns : Z) : M unit :=
  match sleep_error ns with
  | Some e => raise e
  | None => emit (Sleep (ns / 1000000))
  end.

(** [time.sleep(ms / 1000)] for a length written in whole milliseconds. *)
Definition sleep (ms : Z) : M unit := sleep_ns (ms * 1000000).

(** A [float]: the text [str] and an f-string show for it, and what
    [time.sleep] converts it to. *)
Inductive pytime : Type :=
| Nanos (ns : Z)     (* finite: whole nanoseconds, rounded away from zero *)
| Infinite           (* [inf] and [-inf] *)
| NotANumber.        (* [nan] *)

Record pyfloat : Type := PyFloat {
  shown : string;
  as_time : pytime
}.

(** [time.sleep(x)] for a [float]. *)
Definition sleep_float (x : pyfloat) : M unit :=
  match as_time x with
  | Nanos ns => sleep_ns ns
  | Infinite =>
      raise (OverflowError "timestamp too large to convert to C _PyTime_t")
  | NotANumber => raise (ValueError "Invalid value NaN (not a number)")
  end.

Definition log_info (msg : string) : M unit := emit (LogInfo msg).
Definition log_error (msg : string) : M unit := emit (LogError msg).
Definition log_debug (msg : string) : M unit := emit (LogDebug msg).

(** [for _ in range(n): body]. *)
Fixpoint repeat_n (n : nat) (body : M unit) : M unit :=
  match n with
  | O => ret tt
  | S n' => body ;;; repeat_n n' body
  end.

(** [for x in xs: body x]. *)
Fixpoint for_each {A} (xs : list A) (body : A -> M unit) : M unit :=
  match xs with
  | [] => ret tt
  | x :: xs' => body x ;;; for_each xs' body
  end.

(** A computation that loops for ever is cut by a fuel: [Looping] is the
    answer of a loop the fuel ran out on, still inside its body. *)
Inductive outcome (A : Type) : Type :=
| Done (a : A)
| Looping.
Arguments Done {A} a.
Arguments Looping {A}.

(* ================================================================== *)
(** ** The pattern catalog *)
(* ================================================================== *)

Module Catalog.

(** The [conditions] dict of a pattern; an absent key is [None]. *)
Record conditions : Type := Conditions {
  log_level : option string;
  service : option string;
  cond_keywords : option (list string);
  namespace : option string;
  threshold : option Z;
  time_window : option Z
}.

Record pattern : Type := Pattern {
  pat_conditions : conditions;
  keywords : list string;
  services : list string
}.

Definition cond (lvl svc : option string) (kw : option (list string))
           (ns : option string) (th tw : option Z) : conditions :=
  Conditions lvl svc kw ns th tw.

(** [self.services], the same list in both scripts. *)
Definition all_services : list string :=
  ["payment-service"; "user-service"; "database-service";
   "authentication-api"; "inventory-service"; "notification-service";
   "order-service"; "shipping-service"; "billing-service"; "audit-service";
   "checkout-service"; "email-service"; "redis-cache"; "message-queue"].

(** [self.patterns], the same table in both scripts, in source order. *)
Definition patterns : list (string * pattern) :=
  [ ("high_error_rate",
     Pattern (cond (Some "ERROR") None None None (Some 10) (Some 300))
       ["error"; "failed"; "exception"; "timeout"]
       ["payment-service"; "user-service"; "database-service"]);
    ("payment_failures",
     Pattern (cond None (Some "payment-service") (Some ["payment failed"])
                   None (Some 5) None)
       ["payment failed"; "transaction declined"; "payment timeout"]
       ["payment-service"]);
    ("database_errors",
     Pattern (cond (Some "ERROR") (Some "database-service") None None
                   (Some 3) None)
       ["connection refused"; "deadlock detected"; "query timeout"]
       ["database-service"]);
    ("authentication_failures",
     Pattern (cond None (Some "authentication-api")
                   (Some ["authentication failed"]) None (Some 10) None)
       ["authentication failed"; "invalid credentials"; "token expired"]
       ["authentication-api"]);
    ("service_timeouts",
     Pattern (cond None None (Some ["timeout"]) None (Some 5) (Some 300))
       ["timeout"; "connection timeout"; "request timeout"; "gateway timeout"]
       ["payment-service"; "user-service"; "inventory-service"]);
    ("critical_namespace_alerts",
     Pattern (cond (Some "CRITICAL") None None (Some "production")
                   (Some 1) None)
       ["critical"; "fatal"; "emergency"; "disaster"]
       ["order-service"; "payment-service"; "user-service"]);
    ("inventory_warnings",
     Pattern (cond (Some "WARN") (Some "inventory-service") None None
                   (Some 15) None)
       ["low stock"; "inventory warning"; "stock alert"; "out of stock"]
       ["inventory-service"]);
    ("notification_failures",
     Pattern (cond None (Some "notification-service")
                   (Some ["notification failed"]) None (Some 8) None)
       ["notification failed"; "email failed"; "sms failed";
        "push notification failed"]
       ["notification-service"]);
    ("high_warn_rate",
     Pattern (cond (Some "WARN") None None None (Some 25) (Some 600))
       ["warning"; "deprecated"; "slow response"; "performance"]
       ["order-service"; "shipping-service"; "billing-service"]);
    ("audit_issues",
     Pattern (cond None (Some "audit-service") (Some ["audit"]) None
                   (Some 5) None)
       ["audit trail"; "security audit"; "access violation";
        "unauthorized access"]
       ["audit-service"]);
    ("checkout_payment_failed",
     Pattern (cond None (Some "checkout-service") (Some ["payment failed"])
                   None (Some 1) None)
       ["payment failed"; "payment declined"; "checkout failed"]
       ["checkout-service"]);
    ("inventory_stock_unavailable",
     Pattern (cond None (Some "inventory-service")
                   (Some ["stock unavailable"]) None (Some 1) None)
       ["stock unavailable"; "out of stock"; "inventory depleted"]
       ["inventory-service"]);
    ("email_smtp_failed",
     Pattern (cond None (Some "email-service")
                   (Some ["SMTP connection failed"]) None (Some 1) None)
       ["SMTP connection failed"; "email server down"; "mail delivery failed"]
       ["email-service"]);
    ("redis_connection_refused",
     Pattern (cond None (Some "redis-cache") (Some ["connection refused"])
                   None (Some 1) None)
       ["connection refused"; "redis unavailable"; "cache connection failed"]
       ["redis-cache"]);
    ("message_queue_full",
     Pattern (cond None (Some "message-queue") (Some ["queue full"]) None
                   (Some 1) None)
       ["queue full"; "message queue overflow"; "queue capacity exceeded"]
       ["message-queue"]);
    ("timeout_any_service",
     Pattern (cond None None (Some ["timeout"]) None (Some 1) None)
       ["timeout"; "request timeout"; "connection timeout"]
       ["payment-service"; "user-service"; "inventory-service";
        "order-service"]);
    ("slow_query",
     Pattern (cond None None (Some ["slow query"]) None (Some 1) None)
       ["slow query"; "query timeout"; "database performance"]
       ["database-service"; "order-service"; "user-service"]);
    ("deadlock_detected",
     Pattern (cond None None (Some ["deadlock detected"]) None (Some 1) None)
       ["deadlock detected"; "database deadlock"; "transaction deadlock"]
       ["database-service"]);
    ("cross_service_errors",
     Pattern (cond None None (Some ["service unavailable"]) None (Some 3)
                   (Some 180))
       ["service unavailable"; "dependency failed"; "circuit breaker";
        "upstream error"]
       ["payment-service"; "user-service"; "inventory-service";
        "order-service"])
  ].

(** [patterns[name]]: [KeyError] on an unknown name. *)
Fixpoint lookup (name : string) (ps : list (string * pattern))
  : option pattern :=
  match ps with
  | [] => None
  | (n, p) :: ps' => if String.eqb n name then Some p else lookup name ps'
  end.

(** [conditions.get("threshold", 5)]. *)
Definition threshold_or_5 (p : pattern) : Z :=
  match threshold (pat_conditions p) with
  | Some t => t
  | None => 5
  end.

End Catalog.

(** [messages.get(name, default)] on a dict of [str]. *)
Fixpoint get_or (name : string) (d : list (string * string)) (default : string)
  : string :=
  match d with
  | [] => default
  | (k, v) :: d' => if String.eqb k name then v else get_or name d' default
  end.

(** [name in d] for the keys of a dict. *)
Definition has_key {A} (name : string) (d : list (string * A)) : bool :=
  existsb (fun kv => String.eqb (fst kv) name) d.

(** [set(xs)] iterated: the distinct elements, ordered by their hash. *)
Fixpoint insert_by (h : string -> Z) (x : string) (l : list string)
  : list string :=
  match l with
  | [] => [x]
  | y :: l' => if h x <=? h y then x :: l else y :: insert_by h x l'
  end.

Fixpoint set_iter (h : string -> Z) (xs : list string) : list string :=
  match xs with
  | [] => []
  | x :: xs' =>
      let rest := set_iter h xs' in
      if existsb (String.eqb x) rest then rest else insert_by h x rest
  end.

(** [d[k]] on a record: [KeyError] on a missing key. *)
Definition getitem (k : string) (d : pydict) : M pyval :=
  match dict_get k d with
  | Some v => ret v
  | None => raise (KeyError k)
  end.

(** [a % b] on [int]: [ZeroDivisionError] when [b] is 0. *)
Definition py_mod (a b : Z) : M Z :=
  if b =? 0 then raise (ZeroDivisionError "integer modulo by zero")
  else ret (a mod b).

(* ================================================================== *)
(** ** [mock_log_generator.py]: class [MockLogGenerator] *)
(* ================================================================== *)

Module Generator.

(** What [float(text)] or [int(text)] makes of the text of a variable:
    a value, or [ValueError] for a text it cannot convert. *)
Inductive converted (A : Type) : Type :=
| Converted (a : A)
| Refused (text : string).
Arguments Converted {A} a.
Arguments Refused {A} text.

(** The environment variables [__init__] reads ([None] for a variable
    that is not set), the two numbers as their conversion leaves them. *)
Record environ : Type := Environ {
  LOG_MODE : option string;
  LOG_LEVEL : option string;
  LOG_GENERATION_INTERVAL : option (converted pyfloat);
  BURST_INTERVAL : option (converted Z);
  POD_NAMESPACE : option string;
  POD_NAME : option string;
  NODE_NAME : option string
}.

(** The attributes of the object that stay fixed once [start] runs;
    [self.running] lives in the world. *)
Record MockLogGenerator : Type := Self {
  mode : string;
  log_level : string;
  generation_interval : pyfloat;
  burst_interval : Z;
  namespace : string;
  pod_name : string;
  node_name : string;
  services : list string;
  patterns : list (string * Catalog.pattern)
}.

Definition getenv {A} (v : option A) (default : A) : A :=
  match v with Some x => x | None => default end.

(** [float('1.0')], the default of [LOG_GENERATION_INTERVAL]. *)
Definition one_second : pyfloat := PyFloat "1.0" (Nanos 1000000000).

Definition number {A} (v : option (converted A)) (default : A) : A :=
  match v with
  | Some (Converted a) => a
  | Some (Refused _) | None => default
  end.

(** [setup_logging]: [getattr(logging, self.log_level.upper(),
    logging.INFO)] finds, besides the names of the levels, the two
    attributes of the module that are no level, and [logging.basicConfig]
    raises on them. *)
Definition setup_logging_error (log_level : string) : option exc :=
  let name := Py.upper log_level in
  if String.eqb name "BASIC_FORMAT"
  then Some (ValueError
               "Unknown level: '%(levelname)s:%(name)s:%(message)s'")
  else if String.eqb name "_STYLES"
  then Some (TypeError
               "Level not an integer or a valid string: {'%': (<class 'logging.PercentStyle'>, '%(levelname)s:%(name)s:%(message)s'), '{': (<class 'logging.StrFormatStyle'>, '{levelname}:{name}:{message}'), '$': (<class 'logging.StringTemplateStyle'>, '${levelname}:${name}:${message}')}")
  else None.

(** The exception [__init__] raises, if it raises one: from [float()],
    from [int()] or from [setup_logging], in the order of the code. *)
Definition init_error (env : environ) : option exc :=
  match LOG_GENERATION_INTERVAL env with
  | Some (Refused text) =>
      Some (ValueError ("could not convert string to float: "
                          ++ repr_str text))
  | _ =>
      match BURST_INTERVAL env with
      | Some (Refused text) =>
          Some (ValueError ("invalid literal for int() with base 10: "
                              ++ repr_str text))
      | _ => setup_logging_error (getenv (LOG_LEVEL env) "INFO")
      end
  end.

(** The object [__init__] leaves when it returns ([init_error] tells
    when it does not). *)
Definition init (env : environ) : MockLogGenerator :=
  Self (getenv (LOG_MODE env) "continuous")
       (getenv (LOG_LEVEL env) "INFO")
       (number (LOG_GENERATION_INTERVAL env) one_second)
       (number (BURST_INTERVAL env) 10)
       (getenv (POD_NAMESPACE env) "mock-logs")
       (getenv (POD_NAME env) "mock-log-generator")
       (getenv (NODE_NAME env) "unknown-node")
       Catalog.all_services
       Catalog.patterns.

(** [generator.mode = m]. *)
Definition with_mode (m : string) (self : MockLogGenerator)
  : MockLogGenerator :=
  Self m (log_level self) (generation_interval self) (burst_interval self)
       (namespace self) (pod_name self) (node_name self)
       (services self) (patterns self).

(** [generate_base_log]: the draws are taken in the order Python
    evaluates the statements and the dict display. *)
Definition generate_base_log (self : MockLogGenerator)
           (service level : string) : M pydict :=
  ns <- choice [namespace self; "production"; "staging"; "development"] ;;
  pod_n <- randint 10000 99999 ;;
  pod_s <- choice ["abc"; "def"; "xyz"] ;;
  let pod_id := service ++ "-" ++ Py.str_of_int pod_n ++ "-" ++ pod_s in
  cid <- randbytes 32 ;;
  let container_id := "cri-o://" ++ Py.take 12 (Py.bytes_hex cid) in
  ts <- utcnow_str ;;
  ats <- utcnow_str ;;
  v1 <- randint 1 3 ;;
  v2 <- randint 0 9 ;;
  v3 <- randint 0 9 ;;
  rev <- randint 1 10 ;;
  ip1 <- randint 128 255 ;;
  ip2 <- randint 1 254 ;;
  ip3 <- randint 1 254 ;;
  owner <- randbytes 4 ;;
  ret [ ("timestamp", PStr ts);
        ("@timestamp", PStr ats);
        ("level", PStr level);
        ("service", PStr service);
        ("namespace", PStr ns);
        ("host", PStr (node_name self));
        ("hostname", PStr (node_name self));
        ("log_source", PStr "application");
        ("log_type", PStr "structured");
        ("kubernetes", PDict
           [ ("namespace", PStr ns);
             ("namespace_name", PStr ns);
             ("pod", PStr pod_id);
             ("pod_name", PStr pod_id);
             ("container", PStr service);
             ("container_name", PStr service);
             ("labels", PDict
                [ ("app", PStr service);
                  ("version", PStr ("v" ++ Py.str_of_int v1 ++ "."
                                        ++ Py.str_of_int v2 ++ "."
                                        ++ Py.str_of_int v3));
                  ("environment", PStr ns);
                  ("component",
                   PStr (if Py.has_char "-" service
                         then Py.split_head "-" service else service));
                  ("generated-by", PStr "mock-log-generator") ]);
             ("annotations", PDict
                [ ("deployment.kubernetes.io/revision",
                   PStr (Py.str_of_int rev));
                  ("kubectl.kubernetes.io/last-applied-configuration",
                   PStr "{...}");
                  ("openshift.io/generated-by", PStr "OpenShiftNewApp") ]);
             ("container_id", PStr container_id);
             ("pod_ip", PStr ("10." ++ Py.str_of_int ip1 ++ "."
                                    ++ Py.str_of_int ip2 ++ "."
                                    ++ Py.str_of_int ip3));
             ("pod_owner", PStr ("ReplicaSet/" ++ service ++ "-"
                                               ++ Py.bytes_hex owner)) ]) ].

(** The table [e2e_overrides] of [generate_pattern_log]. *)
Definition e2e_overrides : list (string * list (string * string)) :=
  [ ("high_error_rate", [("level", "ERROR"); ("service", "payment-service")]);
    ("high_warn_rate", [("level", "WARN"); ("service", "user-service")]);
    ("database_errors", [("level", "FATAL"); ("service", "database-service")]);
    ("authentication_failures",
     [("level", "ERROR"); ("service", "authentication-api")]) ].

Fixpoint assoc {A} (k : string) (d : list (string * A)) : option A :=
  match d with
  | [] => None
  | (k', v) :: d' => if String.eqb k' k then Some v else assoc k d'
  end.

(** The test-mode branch that replaces level and service. *)
Definition apply_overrides (self : MockLogGenerator) (pattern_name : string)
           (level service : string) : string * string :=
  if String.eqb (mode self) "test" then
    match assoc pattern_name e2e_overrides with
    | Some override =>
        let level' := match assoc "level" override with
                      | Some l => l
                      | None => level
                      end in
        let service' := match assoc "service" override with
                        | Some s => s
                        | None => service
                        end in
        (level', service')
    | None => (level, service)
    end
  else (level, service).

(** The dict [messages] of test mode. *)
Definition test_messages (keyword : string) : M (list (string * string)) :=
  u1 <- randint 1000 9999 ;;
  u2 <- randint 1000 9999 ;;
  o1 <- randint 10000 99999 ;;
  k1 <- randint 1000 9999 ;;
  ret [ ("high_error_rate",
         "Payment service error: " ++ keyword
           ++ " - transaction processing failed for user "
           ++ Py.str_of_int u1);
        ("high_warn_rate",
         "User service warning: " ++ keyword
           ++ " - memory usage approaching limits");
        ("database_errors",
         "Database fatal error: " ++ keyword
           ++ " - connection lost to primary database");
        ("authentication_failures",
         "Authentication API error: " ++ keyword
           ++ " - invalid token for user " ++ Py.str_of_int u2);
        ("checkout_payment_failed",
         "Checkout process: " ++ keyword ++ " for order #"
           ++ Py.str_of_int o1);
        ("inventory_stock_unavailable",
         "Inventory alert: " ++ keyword ++ " for item SKU-"
           ++ Py.str_of_int k1);
        ("email_smtp_failed",
         "Email service: " ++ keyword ++ " while connecting to mail server");
        ("redis_connection_refused",
         "Redis cache: " ++ keyword ++ " - unable to establish connection");
        ("message_queue_full",
         "Message queue: " ++ keyword ++ " - broker capacity exceeded");
        ("timeout_any_service",
         "Service operation: " ++ keyword
           ++ " after 30 seconds waiting for response");
        ("slow_query",
         "Database query: " ++ keyword
           ++ " detected - execution time 2.5 seconds");
        ("deadlock_detected",
         "Database transaction: " ++ keyword ++ " between user operations") ].

(** The dict [messages] of the other modes. *)
Definition production_messages (service keyword : string)
  : M (list (string * string)) :=
  t1 <- randint 10000 99999 ;;
  u1 <- randint 1000 9999 ;;
  k1 <- randint 1000 9999 ;;
  u2 <- randint 1000 9999 ;;
  o1 <- randint 10000 99999 ;;
  k2 <- randint 1000 9999 ;;
  ret [ ("high_error_rate",
         "Service " ++ service ++ " encountered an error: " ++ keyword
           ++ " during request processing");
        ("payment_failures",
         "Payment processing failed: " ++ keyword ++ " for transaction ID "
           ++ Py.str_of_int t1);
        ("database_errors",
         "Database operation failed: " ++ keyword ++ " on table users_table");
        ("authentication_failures",
         "User authentication failed: " ++ keyword ++ " for user ID "
           ++ Py.str_of_int u1);
        ("service_timeouts",
         "Service request timeout: " ++ keyword
           ++ " after 30 seconds waiting for response");
        ("critical_namespace_alerts",
         "Critical system failure: " ++ keyword
           ++ " - immediate attention required");
        ("inventory_warnings",
         "Inventory alert: " ++ keyword ++ " for product SKU-"
           ++ Py.str_of_int k1);
        ("notification_failures",
         "Notification delivery failed: " ++ keyword ++ " to user "
           ++ Py.str_of_int u2);
        ("high_warn_rate",
         "Performance warning: " ++ keyword
           ++ " detected in service operation");
        ("audit_issues",
         "Security audit issue: " ++ keyword ++ " detected in user action");
        ("cross_service_errors",
         "Service communication error: " ++ keyword
           ++ " when calling downstream service");
        ("checkout_payment_failed",
         "Checkout process failed: " ++ keyword ++ " for order #"
           ++ Py.str_of_int o1);
        ("inventory_stock_unavailable",
         "Inventory management: " ++ keyword ++ " for item SKU-"
           ++ Py.str_of_int k2);
        ("email_smtp_failed",
         "Email service error: " ++ keyword ++ " while sending notification");
        ("redis_connection_refused",
         "Cache service error: " ++ keyword ++ " - unable to connect to Redis");
        ("message_queue_full",
         "Message broker alert: " ++ keyword ++ " - unable to enqueue message");
        ("timeout_any_service",
         "Service operation: " ++ keyword ++ " after waiting 30 seconds");
        ("slow_query",
         "Database performance: " ++ keyword
           ++ " detected - execution time exceeded threshold");
        ("deadlock_detected",
         "Database concurrency issue: " ++ keyword
           ++ " in transaction processing") ].

(** The four-key dict [raw_log] and its compact encoding, stored under
    ["raw"]. *)
Definition add_raw (log : pydict) : M pydict :=
  ts <- getitem "timestamp" log ;;
  lv <- getitem "level" log ;;
  msg <- getitem "message" log ;;
  sv <- getitem "service" log ;;
  let raw_log := [ ("timestamp", ts); ("level", lv);
                   ("message", msg); ("service", sv) ] in
  ret (dict_set "raw" (PStr (Json.dumps_compact (PDict raw_log))) log).

(** [generate_pattern_log]. *)
Definition generate_pattern_log (self : MockLogGenerator)
           (pattern_name : string) (pattern_config : Catalog.pattern)
  : M pydict :=
  service <- choice (Catalog.services pattern_config) ;;
  level <- match Catalog.log_level (Catalog.pat_conditions pattern_config) with
           | Some l => ret l
           | None => choice ["ERROR"; "WARN"; "INFO"; "FATAL"]
           end ;;
  let (level, service) := apply_overrides self pattern_name level service in
  log <- generate_base_log self service level ;;
  keyword <- choice (Catalog.keywords pattern_config) ;;
  messages <- (if String.eqb (mode self) "test"
               then test_messages keyword
               else production_messages service keyword) ;;
  let log := dict_set "message"
               (PStr (get_or pattern_name messages
                             ("Service log: " ++ keyword))) log in
  add_raw log.

(** The ten benign templates of [generate_normal_log]. *)
Definition normal_messages (service : string) : M (list string) :=
  u1 <- randint 1000 9999 ;;
  ms <- randint 10 500 ;;
  u2 <- randint 1000 9999 ;;
  n <- randint 10 100 ;;
  u3 <- randint 1000 9999 ;;
  ret [ "Request processed successfully for user " ++ Py.str_of_int u1;
        "Service " ++ service ++ " started successfully";
        "Database query completed in " ++ Py.str_of_int ms ++ "ms";
        "Cache hit for key user:" ++ Py.str_of_int u2;
        "Health check passed for " ++ service;
        "Processing batch job with " ++ Py.str_of_int n ++ " items";
        "User session created for user " ++ Py.str_of_int u3;
        "Configuration loaded successfully";
        "Metrics published to monitoring system";
        "Background task completed successfully" ].

(** [generate_normal_log]. *)
Definition generate_normal_log (self : MockLogGenerator) : M pydict :=
  service <- choice (services self) ;;
  level <- choice ["INFO"; "DEBUG"] ;;
  log <- generate_base_log self service level ;;
  msgs <- normal_messages service ;;
  msg <- choice msgs ;;
  let log := dict_set "message" (PStr msg) log in
  add_raw log.

(** [output_log]: one JSON line on standard output. *)
Definition output_log (log_entry : pydict) : M unit :=
  try_except
    (emit (Stdout (Json.dumps (PDict log_entry))))
    (fun e => log_error ("Failed to output log: " ++ exc_str e)).

(** [generate_pattern_burst]; [count] is [None] when the caller leaves it
    out. *)
Definition generate_pattern_burst (self : MockLogGenerator)
           (pattern_name : string) (count : option Z) : M unit :=
  pattern_config <- match Catalog.lookup pattern_name (patterns self) with
                    | Some p => ret p
                    | None => raise (KeyError pattern_name)
                    end ;;
  count <- match count with
           | Some c => ret c
           | None =>
               if String.eqb (mode self) "test" then ret 2
               else
                 let threshold := Catalog.threshold_or_5 pattern_config in
                 r <- randint 1 3 ;;
                 ret (threshold + r)
           end ;;
  log_info ("Generating " ++ Py.str_of_int count ++ " logs for pattern: "
                          ++ pattern_name) ;;;
  repeat_n (Z.to_nat count)
    (log <- generate_pattern_log self pattern_name pattern_config ;;
     output_log log ;;;
     sleep 100).

(** The inner [for _ in range(5)] of a cycle, with its [break]. *)
Fixpoint normal_logs (n : nat) (self : MockLogGenerator) : M unit :=
  match n with
  | O => ret tt
  | S n' =>
      r <- get_running ;;
      if negb r then ret tt
      else
        log <- generate_normal_log self ;;
        output_log log ;;;
        sleep_float (generation_interval self) ;;;
        normal_logs n' self
  end.

(** The rest of a cycle once the counter is incremented. *)
Definition burst_check (self : MockLogGenerator) (cycle_counter : Z)
  : M unit :=
  m <- py_mod cycle_counter (burst_interval self) ;;
  if m =? 0 then
    pattern_name <- choice (map fst (patterns self)) ;;
    generate_pattern_burst self pattern_name None ;;;
    sleep 5000
  else ret tt.

(** The clause [except Exception as e] of the cycle. *)
Definition on_cycle_error (e : exc) : M unit :=
  log_error ("Error in continuous generation: " ++ exc_str e) ;;;
  sleep 10000.

(** The [while self.running] loop.  The [try] block is the normal logs,
    the increment of the counter and the burst check; an exception in
    the first part skips the rest of the block, and both parts share the
    handler. *)
Fixpoint continuous_loop (fuel : nat) (self : MockLogGenerator)
         (cycle_counter : Z) : M (outcome unit) :=
  match fuel with
  | O => ret Looping
  | S fuel' =>
      r <- get_running ;;
      if negb r then ret (Done tt)
      else
        first_ok <- try_except (normal_logs 5 self ;;; ret true)
                      (fun e => on_cycle_error e ;;; ret false) ;;
        if first_ok : bool then
          let cycle_counter := cycle_counter + 1 in
          try_except (burst_check self cycle_counter) on_cycle_error ;;;
          continuous_loop fuel' self cycle_counter
        else continuous_loop fuel' self cycle_counter
  end.

(** [continuous_generation]. *)
Definition continuous_generation (fuel : nat) (self : MockLogGenerator)
  : M (outcome unit) :=
  log_info ("Starting continuous log generation (interval: "
              ++ shown (generation_interval self)
              ++ "s, burst_interval: "
              ++ Py.str_of_int (burst_interval self) ++ ")") ;;;
  continuous_loop fuel self 0.

Definition e2e_test_patterns : list string :=
  [ "high_error_rate"; "high_warn_rate"; "database_errors";
    "authentication_failures"; "checkout_payment_failed";
    "inventory_stock_unavailable"; "email_smtp_failed";
    "redis_connection_refused"; "message_queue_full";
    "timeout_any_service"; "slow_query"; "deadlock_detected" ].

(** [test_all_patterns]. *)
Definition test_all_patterns (self : MockLogGenerator) : M unit :=
  log_info ("Testing all "
              ++ Py.str_of_int (Z.of_nat (List.length (patterns self)))
              ++ " alert patterns...") ;;;
  for_each e2e_test_patterns
    (fun pattern_name =>
       if has_key pattern_name (patterns self) then
         log_info ("Testing e2e pattern: " ++ pattern_name) ;;;
         generate_pattern_burst self pattern_name None ;;;
         sleep 1000
       else ret tt) ;;;
  h <- get_str_hash ;;
  let remaining_patterns :=
    set_iter h (filter (fun k => negb (existsb (String.eqb k)
                                               e2e_test_patterns))
                       (map fst (patterns self))) in
  for_each remaining_patterns
    (fun pattern_name =>
       log_info ("Testing additional pattern: " ++ pattern_name) ;;;
       generate_pattern_burst self pattern_name None ;;;
       sleep 1000) ;;;
  log_info "All pattern tests completed".

(** [stop]. *)
Definition stop : M unit :=
  log_info "Stopping MockLogGenerator..." ;;;
  set_running false.

(** The [try] block of [start]: [Done true] when it falls through to the
    final [return True], [Done false] for its own [return False]. *)
Definition start_body (fuel : nat) (self : MockLogGenerator)
  : M (outcome bool) :=
  if String.eqb (mode self) "test" then
    test_all_patterns self ;;; ret (Done true)
  else if String.eqb (mode self) "continuous" then
    r <- continuous_generation fuel self ;;
    match r with
    | Done _ => ret (Done true)
    | Looping => ret Looping
    end
  else
    log_error ("Unknown mode: " ++ mode self) ;;;
    ret (Done false).

(** [start].  Every exception of the block is caught by
    [except Exception]; the [finally] clause runs [stop] whenever the
    block is left. *)
Definition start (fuel : nat) (self : MockLogGenerator)
  : M (outcome bool) :=
  log_info ("MockLogGenerator starting in " ++ mode self ++ " mode") ;;;
  log_info "Outputting logs to stdout for Vector/ClusterLogForwarder collection" ;;;
  log_info ("Namespace: " ++ namespace self) ;;;
  log_info ("Pod Name: " ++ pod_name self) ;;;
  (if String.eqb (mode self) "test" then
     log_info "E2E Test Mode: Optimized for e2e test pattern matching" ;;;
     log_info "- Using threshold=1 + small buffer for all patterns" ;;;
     log_info "- Generating specific log levels and services for e2e compatibility" ;;;
     log_info "- Prioritizing 11 key e2e test patterns"
   else
     log_info "Continuous Mode: Using production-style thresholds and rotation") ;;;
  set_running true ;;;
  r <- try_except (start_body fuel self)
         (fun e => log_error ("Unexpected error: " ++ exc_str e) ;;;
                   ret (Done false)) ;;
  match r with
  | Looping => ret Looping
  | Done b => stop ;;; ret (Done b)
  end.

(** [MockLogGenerator()] followed by [generator.start()], [adjust]
    standing for what the script does to the object in between.  The
    answer is the exit status; an exception that leaves [__init__] or
    [start] ends the process with status 1. *)
Definition run (fuel : nat) (env : environ)
           (adjust : MockLogGenerator -> MockLogGenerator)
  : world -> outcome Z * world :=
  fun w =>
    match init_error env with
    | Some _ => (Done 1, w)
    | None =>
        match start fuel (adjust (init env)) w with
        | Ok (Done true) w' => (Done 0, w')
        | Ok (Done false) w' => (Done 1, w')
        | Ok Looping w' => (Looping, w')
        | Raise _ w' => (Done 1, w')
        end
    end.

(** The script body: [--mode] is restricted to the two choices by the
    argument parser (exit status 2 otherwise, before any object is made)
    and, when given, replaces the mode read from the environment. *)
Definition main (fuel : nat) (env : environ) (args_mode : option string)
  : world -> outcome Z * world :=
  fun w =>
    match args_mode with
    | Some m =>
        if negb (String.eqb m "continuous" || String.eqb m "test")
        then (Done 2, w)
        else run fuel env (with_mode m) w
    | None => run fuel env (fun generator => generator) w
    end.

End Generator.

(* ================================================================== *)
(** ** [mock_log_forwarder.py]: class [MockLogForwarder] *)
(* ================================================================== *)

Module Forwarder.

(** The attributes fixed by [__init__]; [self.producer] and
    [self.running] live in the world. *)
Record MockLogForwarder : Type := Self {
  kafka_broker : string;
  topic : string;
  services : list string;
  patterns : list (string * Catalog.pattern)
}.

(** [__init__]. *)
Definition init (kafka_broker topic : string) : MockLogForwarder :=
  Self kafka_broker topic Catalog.all_services Catalog.patterns.

(** [connect_kafka]: the constructor of the producer raises when no
    broker answers. *)
Definition connect_kafka (self : MockLogForwarder) : M bool :=
  try_except
    (up <- get_broker_up ;;
     (if up : bool then set_producer true else raise NoBrokersAvailable) ;;;
     log_info ("Connected to Kafka at " ++ kafka_broker self) ;;;
     ret true)
    (fun e =>
       log_error ("Failed to connect to Kafka: " ++ exc_str e) ;;;
       ret false).

(** [generate_base_log]. *)
Definition generate_base_log (self : MockLogForwarder)
           (service level : string) : M pydict :=
  ns <- choice ["production"; "staging"; "development"] ;;
  pod_n <- randint 10000 99999 ;;
  pod_s <- choice ["abc"; "def"; "xyz"] ;;
  let pod_id := service ++ "-" ++ Py.str_of_int pod_n ++ "-" ++ pod_s in
  ts <- utcnow_str ;;
  ats <- utcnow_str ;;
  node <- randint 1 3 ;;
  thread <- randint 1 20 ;;
  trace_n <- randint 100000 999999 ;;
  v1 <- randint 1 3 ;;
  v2 <- randint 0 9 ;;
  v3 <- randint 0 9 ;;
  ret [ ("timestamp", PStr ts);
        ("@timestamp", PStr ats);
        ("level", PStr level);
        ("service", PStr service);
        ("namespace", PStr ns);
        ("host", PStr ("worker-node-" ++ Py.str_of_int node));
        ("thread_id", PStr ("thread-" ++ Py.str_of_int thread));
        ("trace_id", PStr ("trace-" ++ Py.str_of_int trace_n));
        ("kubernetes", PDict
           [ ("namespace", PStr ns);
             ("pod", PStr pod_id);
             ("container", PStr service);
             ("labels", PDict
                [ ("app", PStr service);
                  ("version", PStr ("v" ++ Py.str_of_int v1 ++ "."
                                        ++ Py.str_of_int v2 ++ "."
                                        ++ Py.str_of_int v3));
                  ("environment", PStr ns);
                  ("component",
                   PStr (if Py.has_char "-" service
                         then Py.split_head "-" service else service)) ]) ]) ].

(** The dict [messages] of [generate_pattern_log]. *)
Definition messages (service keyword : string)
  : M (list (string * string)) :=
  t1 <- randint 10000 99999 ;;
  u1 <- randint 1000 9999 ;;
  k1 <- randint 1000 9999 ;;
  u2 <- randint 1000 9999 ;;
  o1 <- randint 10000 99999 ;;
  k2 <- randint 1000 9999 ;;
  ret [ ("high_error_rate",
         "Service " ++ service ++ " encountered an error: " ++ keyword
           ++ " during request processing");
        ("payment_failures",
         "Payment processing failed: " ++ keyword ++ " for transaction ID "
           ++ Py.str_of_int t1);
        ("database_errors",
         "Database operation failed: " ++ keyword ++ " on table users_table");
        ("authentication_failures",
         "User authentication failed: " ++ keyword ++ " for user ID "
           ++ Py.str_of_int u1);
        ("service_timeouts",
         "Service request timeout: " ++ keyword
           ++ " after 30 seconds waiting for response");
        ("critical_namespace_alerts",
         "Critical system failure: " ++ keyword
           ++ " - immediate attention required");
        ("inventory_warnings",
         "Inventory alert: " ++ keyword ++ " for product SKU-"
           ++ Py.str_of_int k1);
        ("notification_failures",
         "Notification delivery failed: " ++ keyword ++ " to user "
           ++ Py.str_of_int u2);
        ("high_warn_rate",
         "Performance warning: " ++ keyword
           ++ " detected in service operation");
        ("audit_issues",
         "Security audit issue: " ++ keyword ++ " detected in user action");
        ("cross_service_errors",
         "Service communication error: " ++ keyword
           ++ " when calling downstream service");
        ("checkout_payment_failed",
         "Checkout process failed: " ++ keyword ++ " for order #"
           ++ Py.str_of_int o1);
        ("inventory_stock_unavailable",
         "Inventory management: " ++ keyword ++ " for item SKU-"
           ++ Py.str_of_int k2);
        ("email_smtp_failed",
         "Email service error: " ++ keyword ++ " while sending notification");
        ("redis_connection_refused",
         "Cache service error: " ++ keyword ++ " - unable to connect to Redis");
        ("message_queue_full",
         "Message broker alert: " ++ keyword ++ " - unable to enqueue message");
        ("timeout_any_service",
         "Service operation: " ++ keyword ++ " after waiting 30 seconds");
        ("slow_query",
         "Database performance: " ++ keyword
           ++ " detected - execution time exceeded threshold");
        ("deadlock_detected",
         "Database concurrency issue: " ++ keyword
           ++ " in transaction processing") ].

(** [log["kubernetes"]["namespace_name"] = log["kubernetes"]["namespace"]],
    done when the record has the key ["kubernetes"]. *)
Definition copy_namespace_name (log : pydict) : M pydict :=
  match dict_get "kubernetes" log with
  | None => ret log
  | Some (PDict k8s) =>
      ns <- getitem "namespace" k8s ;;
      ret (dict_set "kubernetes" (PDict (dict_set "namespace_name" ns k8s)) log)
  | Some (PStr _) =>
      raise (TypeError "string indices must be integers")
  end.

(** [generate_pattern_log]. *)
Definition generate_pattern_log (self : MockLogForwarder)
           (pattern_name : string) (pattern_config : Catalog.pattern)
  : M pydict :=
  service <- choice (Catalog.services pattern_config) ;;
  level <- match Catalog.log_level (Catalog.pat_conditions pattern_config) with
           | Some l => ret l
           | None => choice ["ERROR"; "WARN"; "INFO"; "FATAL"]
           end ;;
  log <- generate_base_log self service level ;;
  keyword <- choice (Catalog.keywords pattern_config) ;;
  msgs <- messages service keyword ;;
  let log := dict_set "message"
               (PStr (get_or pattern_name msgs ("Service log: " ++ keyword)))
               log in
  rq <- randint 100000 999999 ;;
  let log := dict_set "request_id" (PStr ("req-" ++ Py.str_of_int rq)) log in
  us <- randint 1000 9999 ;;
  let log := dict_set "user_id" (PStr ("user-" ++ Py.str_of_int us)) log in
  se <- randint 100000 999999 ;;
  let log := dict_set "session_id" (PStr ("session-" ++ Py.str_of_int se)) log in
  copy_namespace_name log.

(** The ten benign templates of [generate_normal_log]. *)
Definition normal_messages (service : string) : M (list string) :=
  u1 <- randint 1000 9999 ;;
  ms <- randint 10 500 ;;
  u2 <- randint 1000 9999 ;;
  n <- randint 10 100 ;;
  u3 <- randint 1000 9999 ;;
  ret [ "Request processed successfully for user " ++ Py.str_of_int u1;
        "Service " ++ service ++ " started successfully";
        "Database query completed in " ++ Py.str_of_int ms ++ "ms";
        "Cache hit for key user:" ++ Py.str_of_int u2;
        "Health check passed for " ++ service;
        "Processing batch job with " ++ Py.str_of_int n ++ " items";
        "User session created for user " ++ Py.str_of_int u3;
        "Configuration loaded successfully";
        "Metrics published to monitoring system";
        "Background task completed successfully" ].

(** [generate_normal_log]. *)
Definition generate_normal_log (self : MockLogForwarder) : M pydict :=
  service <- choice (services self) ;;
  level <- choice ["INFO"; "DEBUG"] ;;
  log <- generate_base_log self service level ;;
  msgs <- normal_messages service ;;
  msg <- choice msgs ;;
  let log := dict_set "message" (PStr msg) log in
  rq <- randint 100000 999999 ;;
  ret (dict_set "request_id" (PStr ("req-" ++ Py.str_of_int rq)) log).

(** [d.get(k, default)]. *)
Definition get_default (k : string) (d : pydict) (default : pyval) : pyval :=
  match dict_get k d with
  | Some v => v
  | None => default
  end.

(** [v.lower()]: only a [str] has the method. *)
Definition lower_of (v : pyval) : M string :=
  match v with
  | PStr s => ret (Py.lower s)
  | PDict _ => raise (AttributeError "'dict' object has no attribute 'lower'")
  end.

(** [v[:100]]: a [dict] cannot be sliced. *)
Definition first_100 (v : pyval) : M string :=
  match v with
  | PStr s => ret (Py.take 100 s)
  | PDict _ => raise (TypeError "unhashable type: 'slice'")
  end.

(** [self.producer.send(topic, key=key, value=value)]: an attribute
    error while [self.producer] is [None]. *)
Definition producer_send (topic key : string) (value : pyval) : M unit :=
  p <- get_producer ;;
  if p : bool then emit (KafkaSend topic key value)
  else raise (AttributeError "'NoneType' object has no attribute 'send'").

(** The value [send_log] builds for a record; the default of
    ["@timestamp"] is computed whether it is used or not. *)
Definition transformed_log (log_entry : pydict) : M pydict :=
  now <- utcnow_str ;;
  level <- lower_of (get_default "level" log_entry (PStr "INFO")) ;;
  ret [ ("message", PStr (Json.dumps (PDict log_entry)));
        ("@timestamp", get_default "@timestamp" log_entry (PStr now));
        ("level", PStr level);
        ("kubernetes", get_default "kubernetes" log_entry (PDict []));
        ("host", get_default "host" log_entry (PStr "unknown"));
        ("stream", PStr "stdout");
        ("tag", PStr "kubernetes.var.log.containers");
        ("source_type", PStr "kubernetes_logs") ].

(** [send_log]. *)
Definition send_log (self : MockLogForwarder) (log_entry : pydict)
  : M unit :=
  try_except
    (value <- transformed_log log_entry ;;
     service <- getitem "service" log_entry ;;
     level <- getitem "level" log_entry ;;
     let key := py_str service ++ "-" ++ py_str level in
     producer_send (topic self) key (PDict value) ;;;
     service <- getitem "service" log_entry ;;
     level <- getitem "level" log_entry ;;
     message <- getitem "message" log_entry ;;
     head <- first_100 message ;;
     log_debug ("Sent transformed log: " ++ py_str service ++ " - "
                  ++ py_str level ++ " - " ++ head ++ "..."))
    (fun e => log_error ("Failed to send log to Kafka: " ++ exc_str e)).

(** [generate_pattern_burst]: the count is a required argument. *)
Definition generate_pattern_burst (self : MockLogForwarder)
           (pattern_name : string) (count : Z) : M unit :=
  pattern_config <- match Catalog.lookup pattern_name (patterns self) with
                    | Some p => ret p
                    | None => raise (KeyError pattern_name)
                    end ;;
  log_info ("Generating " ++ Py.str_of_int count ++ " logs for pattern: "
                          ++ pattern_name) ;;;
  repeat_n (Z.to_nat count)
    (log <- generate_pattern_log self pattern_name pattern_config ;;
     send_log self log ;;;
     sleep 100).

(** The inner [for _ in range(5)] of a cycle, with its [break]. *)
Fixpoint normal_logs (n : nat) (self : MockLogForwarder) : M unit :=
  match n with
  | O => ret tt
  | S n' =>
      r <- get_running ;;
      if negb r then ret tt
      else
        log <- generate_normal_log self ;;
        send_log self log ;;;
        pause <- uniform_ms 500 2000 ;;
        sleep pause ;;;
        normal_logs n' self
  end.

(** The burst of every tenth cycle. *)
Definition continuous_burst (self : MockLogForwarder) : M unit :=
  pattern_name <- choice (map fst (patterns self)) ;;
  pattern_config <- match Catalog.lookup pattern_name (patterns self) with
                    | Some p => ret p
                    | None => raise (KeyError pattern_name)
                    end ;;
  let threshold := Catalog.threshold_or_5 pattern_config in
  r <- randint 1 5 ;;
  let burst_count := threshold + r in
  generate_pattern_burst self pattern_name burst_count ;;;
  sleep 5000.

(** The [while self.running] loop; nothing in it catches an exception. *)
Fixpoint continuous_loop (fuel : nat) (self : MockLogForwarder)
         (burst_counter : Z) : M (outcome unit) :=
  match fuel with
  | O => ret Looping
  | S fuel' =>
      r <- get_running ;;
      if negb r then ret (Done tt)
      else
        normal_logs 5 self ;;;
        let burst_counter := burst_counter + 1 in
        (if burst_counter mod 10 =? 0 then continuous_burst self
         else ret tt) ;;;
        continuous_loop fuel' self burst_counter
  end.

(** [continuous_generation]. *)
Definition continuous_generation (fuel : nat) (self : MockLogForwarder)
  : M (outcome unit) :=
  log_info "Starting continuous log generation..." ;;;
  continuous_loop fuel self 0.

(** [test_all_patterns]. *)
Definition test_all_patterns (self : MockLogForwarder) : M unit :=
  log_info "Testing all 11 alert patterns..." ;;;
  for_each (patterns self)
    (fun item =>
       let (pattern_name, pattern_config) := item : string * Catalog.pattern in
       let threshold := Catalog.threshold_or_5 pattern_config in
       let burst_count := threshold + 2 in
       log_info ("Testing " ++ pattern_name ++ ": generating "
                   ++ Py.str_of_int burst_count ++ " logs") ;;;
       generate_pattern_burst self pattern_name burst_count ;;;
       sleep 2000) ;;;
  log_info "All pattern tests completed".

(** [stop]. *)
Definition stop : M unit :=
  set_running false ;;;
  p <- get_producer ;;
  if p : bool then
    emit KafkaFlush ;;;
    emit KafkaClose ;;;
    log_info "Kafka producer closed"
  else ret tt.

(** [start(mode)]. *)
Definition start (fuel : nat) (self : MockLogForwarder) (mode : string)
  : M (outcome bool) :=
  connected <- connect_kafka self ;;
  if negb connected then ret (Done false)
  else
    set_running true ;;;
    r <- (if String.eqb mode "test" then
            test_all_patterns self ;;; ret (Done tt)
          else if String.eqb mode "continuous" then
            continuous_generation fuel self
          else ret (Done tt)) ;;
    match r with
    | Looping => ret Looping
    | Done _ => stop ;;; ret (Done true)
    end.

(** The script body: [--mode] defaults to ["continuous"] and is
    restricted to the two choices by the argument parser (exit status 2
    otherwise).  The answer is the exit status; an exception that
    leaves [start] ends the process with status 1. *)
Definition main (fuel : nat) (args_kafka_broker args_topic : option string)
           (args_mode : option string) : world -> outcome Z * world :=
  fun w =>
    let broker := match args_kafka_broker with
                  | Some b => b | None => "localhost:9094" end in
    let tpc := match args_topic with
               | Some t => t | None => "application-logs" end in
    let mode := match args_mode with
                | Some m => m | None => "continuous" end in
    if negb (String.eqb mode "continuous" || String.eqb mode "test")
    then (Done 2, w)
    else
      let forwarder := init broker tpc in
      match
        (emit (Stdout "Starting Mock Log Forwarder...") ;;;
         emit (Stdout ("Kafka Broker: " ++ broker)) ;;;
         emit (Stdout ("Topic: " ++ tpc)) ;;;
         emit (Stdout ("Mode: " ++ mode)) ;;;
         emit (Stdout ("Supported Patterns: "
                         ++ Py.str_of_int
                              (Z.of_nat (List.length (patterns forwarder))))) ;;;
         (if String.eqb mode "test"
          then emit (Stdout "Running pattern tests...")
          else emit (Stdout "Running in continuous mode. Press Ctrl+C to stop.")) ;;;
         start fuel forwarder mode) w
      with
      | Ok (Done true) w' => (Done 0, w')
      | Ok (Done false) w' => (Done 1, w')
      | Ok Looping w' => (Looping, w')
      | Raise _ w' => (Done 1, w')
      end.

End Forwarder.

(* ================================================================== *)
(** ** Reading a trace *)
(* ================================================================== *)

(** The lines printed on standard output, oldest first. *)
Fixpoint stdout_lines (tr : list event) : list string :=
  match tr with
  | [] => []
  | Stdout l :: tr' => l :: stdout_lines tr'
  | _ :: tr' => stdout_lines tr'
  end.

(** The messages handed to the producer, oldest first. *)
Fixpoint published (tr : list event) : list (string * string * pyval) :=
  match tr with
  | [] => []
  | KafkaSend t k v :: tr' => (t, k, v) :: published tr'
  | _ :: tr' => published tr'
  end.

(** The world a computation stops in, whichever way it ends. *)
Definition world_of {A} (r : result A) : world :=
  match r with
  | Ok _ w => w
  | Raise _ w => w
  end.

(** Two worlds that differ in the pending draws and clock readings only. *)
Definition frame (w w' : world) : Prop :=
  str_hash w' = str_hash w /\ running w' = running w /\
  producer w' = producer w /\ broker_up w' = broker_up w /\
  trace w' = trace w.

(** [gen m P]: [m] always returns, touches nothing but the pending draws
    and clock readings, and its value satisfies [P]. *)
Definition gen {A} (m : M A) (P : A -> Prop) : Prop :=
  forall w, exists a w', m w = Ok a w' /\ frame w w' /\ P a.

(** [keeps m]: [m] leaves [running] as it found it, however it ends. *)
Definition keeps {A} (m : M A) : Prop :=
  forall w, running (world_of (m w)) = running w.

(** Every keyword of a list is absent from a text. *)
Definition none_in (ks : list string) (s : string) : bool :=
  forallb (fun k => negb (Py.contains k s)) ks.

Definition is_digit (c : ascii) : bool :=
  let n := N_of_ascii c in ((48 <=? n) && (n <=? 57))%N.

Fixpoint all_digits (s : string) : bool :=
  match s with
  | EmptyString => true
  | String c s' => is_digit c && all_digits s'
  end.

Fixpoint digit_free (s : string) : bool :=
  match s with
  | EmptyString => true
  | String c s' => negb (is_digit c) && digit_free s'
  end.

(** The candidate phrases of all patterns, and the keywords their
    conditions match on. *)
Definition catalog_keywords : list string :=
  flat_map (fun np => Catalog.keywords (snd np)) Catalog.patterns.

Definition condition_keywords : list string :=
  flat_map (fun np =>
              match Catalog.cond_keywords (Catalog.pat_conditions (snd np)) with
              | Some ks => ks
              | None => []
              end) Catalog.patterns.

(** The object [raw_log] of the stdout generator. *)
Definition raw_object (ts lv msg sv : string) : pyval :=
  PDict [ ("timestamp", PStr ts); ("level", PStr lv);
          ("message", PStr msg); ("service", PStr sv) ].

(** The level [generate_pattern_log] settles on before any override: the
    level of the conditions, else one of the four drawn ones. *)
Definition level_choice (cfg : Catalog.pattern) (level : string) : Prop :=
  match Catalog.log_level (Catalog.pat_conditions cfg) with
  | Some l => level = l
  | None => In level ["ERROR"; "WARN"; "INFO"; "FATAL"]
  end.

(** The ten texts of [normal_messages] for a service and five fillers. *)
Definition normal_texts (service : string) (u1 ms u2 n u3 : Z) : list string :=
  [ "Request processed successfully for user " ++ Py.str_of_int u1;
    "Service " ++ service ++ " started successfully";
    "Database query completed in " ++ Py.str_of_int ms ++ "ms";
    "Cache hit for key user:" ++ Py.str_of_int u2;
    "Health check passed for " ++ service;
    "Processing batch job with " ++ Py.str_of_int n ++ " items";
    "User session created for user " ++ Py.str_of_int u3;
    "Configuration loaded successfully";
    "Metrics published to monitoring system";
    "Background task completed successfully" ].

(** Sample inputs: an empty environment, the two objects it gives, and a
    world with no draws or clock readings left (every draw is 0). *)
Definition env0 : Generator.environ :=
  Generator.Environ None None None None None None None.

Definition generator0 : Generator.MockLogGenerator := Generator.init env0.

Definition test_generator0 : Generator.MockLogGenerator :=
  Generator.with_mode "test" generator0.

Definition forwarder0 : Forwarder.MockLogForwarder :=
  Forwarder.init "localhost:9094" "application-logs".

Definition world0 : world :=
  World [] [] (fun _ => 0) true true true [].

(** The pattern [name] of the catalog (an empty pattern for a name the
    catalog does not have). *)
Definition catalog_pattern (name : string) : Catalog.pattern :=
  match Catalog.lookup name Catalog.patterns with
  | Some p => p
  | None => Catalog.Pattern (Catalog.cond None None None None None None) [] []
  end.

(** Events that are a record leaving through a sink. *)
Definition is_stdout (e : event) : bool :=
  match e with Stdout _ => true | _ => false end.

Definition is_send (e : event) : bool :=
  match e with KafkaSend _ _ _ => true | _ => false end.

Definition count_of (sel : event -> bool) (tr : list event) : nat :=
  List.length (filter sel tr).

(** [adds sel inv m n]: from a world whose producer flag satisfies [inv],
    [m] returns, keeps the flag in [inv], and adds exactly [n] events
    selected by [sel] to the trace. *)
Definition adds (sel : event -> bool) (inv : bool -> Prop)
           (m : M unit) (n : nat) : Prop :=
  forall w, inv (producer w) ->
    exists w', m w = Ok tt w' /\ inv (producer w') /\
               count_of sel (trace w') = (count_of sel (trace w) + n)%nat.

Definition any_flag (b : bool) : Prop := True.
Definition connected (b : bool) : Prop := b = true.

(** A world of the sample kind with given draws. *)
Definition world_with (draws : list Z) : world :=
  World draws [] (fun _ => 0) true true true [].

(** The world after the handler of a cycle of the stdout generator ran
    on the exception [e]: the error is logged, then ten seconds pass. *)
Definition backed_off (e : exc) (w : world) : world :=
  World (rnd w) (clock w) (str_hash w) (running w) (producer w) (broker_up w)
        (trace w ++ [ LogError ("Error in continuous generation: "
                                  ++ exc_str e);
                      Sleep 10000 ]).

(** A forwarder object whose list of services was emptied. *)
Definition forwarder_without_services : Forwarder.MockLogForwarder :=
  Forwarder.Self "localhost:9094" "application-logs" [] Catalog.patterns.

(** The fixed pieces of the ten normal texts, the two texts that embed a
    service being taken for each service of the scripts. *)
Definition normal_pieces : list string :=
  ([ "Request processed successfully for user ";
     "Database query completed in "; "ms";
     "Cache hit for key user:";
     "Processing batch job with "; " items";
     "User session created for user ";
     "Configuration loaded successfully";
     "Metrics published to monitoring system";
     "Background task completed successfully" ]
   ++ map (fun s => ("Service " ++ s ++ " started successfully")%string)
          Catalog.all_services
   ++ map (fun s => ("Health check passed for " ++ s)%string)
          Catalog.all_services)%list.

(** A phrase that is not empty, has no digit and occurs in none of the
    fixed pieces. *)
Definition clear_of_pieces (k : string) : bool :=
  negb (String.eqb k EmptyString) && digit_free k
  && none_in [k] EmptyString
  && forallb (fun t => negb (Py.contains k t)) normal_pieces.

(** A generator object in continuous mode whose list of services was
    emptied, and one made from an environment that sets [BURST_INTERVAL]
    to 0. *)
Definition generator_without_services : Generator.MockLogGenerator :=
  Generator.Self "continuous" "INFO" Generator.one_second 10 "mock-logs"
                 "mock-log-generator" "unknown-node" [] Catalog.patterns.

Definition generator_zero_interval : Generator.MockLogGenerator :=
  Generator.init
    (Generator.Environ None None None (Some (Generator.Converted 0))
                       None None None).

(** An environment that selects a mode the scripts do not know. *)
Definition env_unknown_mode : Generator.environ :=
  Generator.Environ (Some "demo") None None None None None None.

(** A world in which no broker answers. *)
Definition world_broker_down : world :=
  World [] [] (fun _ => 0) false false false [].

(** [safe m]: [m] always returns and leaves [running] as it found it. *)
Definition safe {A} (m : M A) : Prop :=
  forall w, exists a w', m w = Ok a w' /\ running w' = running w.

(** The nesting depth of a value. *)
Fixpoint depth (v : pyval) : nat :=
  match v with
  | PStr _ => O
  | PDict items =>
      S ((fix deepest (l : list (string * pyval)) : nat :=
            match l with
            | [] => O
            | (_, x) :: tl => Nat.max (depth x) (deepest tl)
            end) items)
  end.

(** No string twice in a list. *)
Fixpoint distinct (ks : list string) : bool :=
  match ks with
  | [] => true
  | k :: ks' => negb (existsb (String.eqb k) ks') && distinct ks'
  end.

(** A value a Python program can hold: no dict has a key twice, at any
    depth. *)
Fixpoint well_keyed (v : pyval) : bool :=
  match v with
  | PStr _ => true
  | PDict items =>
      distinct (map fst items)
      && (fix each (l : list (string * pyval)) : bool :=
            match l with
            | [] => true
            | (_, x) :: tl => well_keyed x && each tl
            end) items
  end.

(** The text between the braces of an encoded dict. *)
Fixpoint members_text (item_sep key_sep : string)
         (l : list (string * pyval)) : string :=
  match l with
  | [] => EmptyString
  | (k, x) :: tl =>
      Json.quote k ++ key_sep ++ Json.dumps_with item_sep key_sep x ++
      match tl with
      | [] => EmptyString
      | _ :: _ => item_sep ++ members_text item_sep key_sep tl
      end
  end.

(** A run of white space. *)
Fixpoint all_ws (s : string) : bool :=
  match s with
  | EmptyString => true
  | String c s' => Json.is_ws c && all_ws s'
  end.

(** The [component] label: [service.split('-')[0] if '-' in service else
    service]. *)
Definition component_of (service : string) : string :=
  if Py.has_char "-" service then Py.split_head "-" service else service.

(** The record [generate_base_log] of the stdout generator returns, as a
    function of what it drew. *)
Definition generator_base (self : Generator.MockLogGenerator)
           (service level ns : string) (pod_n : Z) (pod_s : string)
           (cid : list N) (ts ats : string)
           (v1 v2 v3 rev ip1 ip2 ip3 : Z) (owner : list N) : pydict :=
  [ ("timestamp", PStr ts);
    ("@timestamp", PStr ats);
    ("level", PStr level);
    ("service", PStr service);
    ("namespace", PStr ns);
    ("host", PStr (Generator.node_name self));
    ("hostname", PStr (Generator.node_name self));
    ("log_source", PStr "application");
    ("log_type", PStr "structured");
    ("kubernetes", PDict
       [ ("namespace", PStr ns);
         ("namespace_name", PStr ns);
         ("pod", PStr (service ++ "-" ++ Py.str_of_int pod_n ++ "-" ++ pod_s));
         ("pod_name",
          PStr (service ++ "-" ++ Py.str_of_int pod_n ++ "-" ++ pod_s));
         ("container", PStr service);
         ("container_name", PStr service);
         ("labels", PDict
            [ ("app", PStr service);
              ("version", PStr ("v" ++ Py.str_of_int v1 ++ "."
                                    ++ Py.str_of_int v2 ++ "."
                                    ++ Py.str_of_int v3));
              ("environment", PStr ns);
              ("component", PStr (component_of service));
              ("generated-by", PStr "mock-log-generator") ]);
         ("annotations", PDict
            [ ("deployment.kubernetes.io/revision", PStr (Py.str_of_int rev));
              ("kubectl.kubernetes.io/last-applied-configuration",
               PStr "{...}");
              ("openshift.io/generated-by", PStr "OpenShiftNewApp") ]);
         ("container_id",
          PStr ("cri-o://" ++ Py.take 12 (Py.bytes_hex cid)));
         ("pod_ip", PStr ("10." ++ Py.str_of_int ip1 ++ "."
                                ++ Py.str_of_int ip2 ++ "."
                                ++ Py.str_of_int ip3));
         ("pod_owner", PStr ("ReplicaSet/" ++ service ++ "-"
                                           ++ Py.bytes_hex owner)) ]) ].

(** A finished record of the stdout generator: the base record, then the
    message, then the raw text. *)
Definition generator_record (base : pydict) (ts level msg service : string)
  : pydict :=
  (base ++ [ ("message", PStr msg);
             ("raw", PStr (Json.dumps_compact
                             (raw_object ts level msg service))) ])%list.

(** The record [generate_base_log] of the broker forwarder returns. *)
Definition forwarder_base (service level ns : string) (pod_n : Z)
           (pod_s ts ats : string) (node thread trace_n v1 v2 v3 : Z)
  : pydict :=
  [ ("timestamp", PStr ts);
    ("@timestamp", PStr ats);
    ("level", PStr level);
    ("service", PStr service);
    ("namespace", PStr ns);
    ("host", PStr ("worker-node-" ++ Py.str_of_int node));
    ("thread_id", PStr ("thread-" ++ Py.str_of_int thread));
    ("trace_id", PStr ("trace-" ++ Py.str_of_int trace_n));
    ("kubernetes", PDict
       [ ("namespace", PStr ns);
         ("pod", PStr (service ++ "-" ++ Py.str_of_int pod_n ++ "-" ++ pod_s));
         ("container", PStr service);
         ("labels", PDict
            [ ("app", PStr service);
              ("version", PStr ("v" ++ Py.str_of_int v1 ++ "."
                                    ++ Py.str_of_int v2 ++ "."
                                    ++ Py.str_of_int v3));
              ("environment", PStr ns);
              ("component", PStr (component_of service)) ]) ]) ].

(** A finished pattern record of the broker forwarder. *)
Definition forwarder_pattern_record (service level ns : string) (pod_n : Z)
           (pod_s ts ats : string) (node thread trace_n v1 v2 v3 : Z)
           (msg : string) (rq us se : Z) : pydict :=
  [ ("timestamp", PStr ts);
    ("@timestamp", PStr ats);
    ("level", PStr level);
    ("service", PStr service);
    ("namespace", PStr ns);
    ("host", PStr ("worker-node-" ++ Py.str_of_int node));
    ("thread_id", PStr ("thread-" ++ Py.str_of_int thread));
    ("trace_id", PStr ("trace-" ++ Py.str_of_int trace_n));
    ("kubernetes", PDict
       [ ("namespace", PStr ns);
         ("pod", PStr (service ++ "-" ++ Py.str_of_int pod_n ++ "-" ++ pod_s));
         ("container", PStr service);
         ("labels", PDict
            [ ("app", PStr service);
              ("version", PStr ("v" ++ Py.str_of_int v1 ++ "."
                                    ++ Py.str_of_int v2 ++ "."
                                    ++ Py.str_of_int v3));
              ("environment", PStr ns);
              ("component", PStr (component_of service)) ]);
         ("namespace_name", PStr ns) ]);
    ("message", PStr msg);
    ("request_id", PStr ("req-" ++ Py.str_of_int rq));
    ("user_id", PStr ("user-" ++ Py.str_of_int us));
    ("session_id", PStr ("session-" ++ Py.str_of_int se)) ].

(** A finished normal record of the broker forwarder. *)
Definition forwarder_normal_record (base : pydict) (msg : string) (rq : Z)
  : pydict :=
  (base ++ [ ("message", PStr msg);
             ("request_id", PStr ("req-" ++ Py.str_of_int rq)) ])%list.

(** The names that have a text of their own in each [messages] dict. *)
Definition test_template_names : list string :=
  [ "high_error_rate"; "high_warn_rate"; "database_errors";
    "authentication_failures"; "checkout_payment_failed";
    "inventory_stock_unavailable"; "email_smtp_failed";
    "redis_connection_refused"; "message_queue_full";
    "timeout_any_service"; "slow_query"; "deadlock_detected" ].

Definition production_template_names : list string :=
  [ "high_error_rate"; "payment_failures"; "database_errors";
    "authentication_failures"; "service_timeouts";
    "critical_namespace_alerts"; "inventory_warnings";
    "notification_failures"; "high_warn_rate"; "audit_issues";
    "cross_service_errors"; "checkout_payment_failed";
    "inventory_stock_unavailable"; "email_smtp_failed";
    "redis_connection_refused"; "message_queue_full";
    "timeout_any_service"; "slow_query"; "deadlock_detected" ].

(** The names of the [messages] dict the stdout generator builds in the
    mode of [self]. *)
Definition template_names (self : Generator.MockLogGenerator) : list string :=
  if String.eqb (Generator.mode self) "test" then test_template_names
  else production_template_names.

(** The [kubernetes] block of a record repeats the namespace and the
    service of its top level under [namespace], [container] and the
    labels [app] and [environment].  [namespace_alias] tells whether the
    block has the second name [namespace_name] too, [other_aliases]
    whether it has [container_name] and [pod_name]. *)
Definition kubernetes_agrees (namespace_alias other_aliases : bool)
           (log : pydict) : Prop :=
  exists ns service kube labels,
    dict_get "namespace" log = Some (PStr ns) /\
    dict_get "service" log = Some (PStr service) /\
    dict_get "kubernetes" log = Some (PDict kube) /\
    dict_get "namespace" kube = Some (PStr ns) /\
    dict_get "container" kube = Some (PStr service) /\
    dict_get "labels" kube = Some (PDict labels) /\
    dict_get "app" labels = Some (PStr service) /\
    dict_get "environment" labels = Some (PStr ns) /\
    dict_get "namespace_name" kube
    = (if namespace_alias then Some (PStr ns) else None) /\
    dict_get "container_name" kube
    = (if other_aliases then Some (PStr service) else None) /\
    dict_get "pod_name" kube
    = (if other_aliases then dict_get "pod" kube else None) /\
    dict_get "pod" kube <> None.

(** The label [component] of a record: a prefix of the service that stops
    before its first dash. *)
Definition component_label (log : pydict) : Prop :=
  exists service kube labels c,
    dict_get "service" log = Some (PStr service) /\
    dict_get "kubernetes" log = Some (PDict kube) /\
    dict_get "labels" kube = Some (PDict labels) /\
    dict_get "component" labels = Some (PStr c) /\
    Py.has_char "-" c = false /\
    String.prefix c service = true /\
    (Py.has_char "-" service = false -> c = service) /\
    (Py.has_char "-" service = true ->
     String.prefix (c ++ "-") service = true).

(** The world [output_log] leaves: one more line on standard output. *)
Definition printed (line : string) (w : world) : world :=
  World (rnd w) (clock w) (str_hash w) (running w) (producer w) (broker_up w)
        (trace w ++ [Stdout line]).

(** The envelope [send_log] builds around a record that has a text level
    and the three fields with a default. *)
Definition envelope_of (log : pydict) (level : string) (ats kube host : pyval)
  : pydict :=
  [ ("message", PStr (Json.dumps (PDict log)));
    ("@timestamp", ats);
    ("level", PStr (Py.lower level));
    ("kubernetes", kube);
    ("host", host);
    ("stream", PStr "stdout");
    ("tag", PStr "kubernetes.var.log.containers");
    ("source_type", PStr "kubernetes_logs") ].

(** The world after [events] were added and one clock reading was used. *)
Definition after_reading (events : list event) (w : world) : world :=
  World (rnd w) (tl (clock w)) (str_hash w) (running w) (producer w)
        (broker_up w) (trace w ++ events).

(** A record whose level, service and namespace are among the known
    ones. *)
Definition in_domains (levels services namespaces : list string)
           (log : pydict) : Prop :=
  exists level service ns,
    dict_get "level" log = Some (PStr level) /\
    dict_get "service" log = Some (PStr service) /\
    dict_get "namespace" log = Some (PStr ns) /\
    In level levels /\ In service services /\ In ns namespaces.

(** A record whose service, at the top level and under the label [app],
    is [s]. *)
Definition service_is (s : string) (log : pydict) : Prop :=
  exists kube labels,
    dict_get "service" log = Some (PStr s) /\
    dict_get "kubernetes" log = Some (PDict kube) /\
    dict_get "container" kube = Some (PStr s) /\
    dict_get "labels" kube = Some (PDict labels) /\
    dict_get "app" labels = Some (PStr s).

(** A record whose message is the fallback text on one of the keywords. *)
Definition fallback_text (keywords : list string) (log : pydict) : Prop :=
  exists keyword,
    In keyword keywords /\
    dict_get "message" log = Some (PStr ("Service log: " ++ keyword)).

(** The levels a pattern record can carry. *)
Definition pattern_levels : list string :=
  ["ERROR"; "WARN"; "INFO"; "FATAL"; "CRITICAL"].

(** An environment whose [LOG_LEVEL] names an attribute of [logging]
    that is no level. *)
Definition env_bad_level : Generator.environ :=
  Generator.Environ None (Some "basic_format") None None None None None.

(** A pause the platform takes for sure: a length from 0 to 10^8
    seconds. *)
Definition takes_pause (x : pyfloat) : bool :=
  match as_time x with
  | Nanos ns => (0 <=? ns) && (ns <=? 100000000000000000)
  | Infinite | NotANumber => false
  end.

(** What [time.sleep] raises for a negative length of [ns] nanoseconds. *)
Definition negative_pause_error (ns : Z) : exc :=
  if ns <? - 9223372036854775808
  then OverflowError "timestamp too large to convert to C _PyTime_t"
  else ValueError "sleep length must be non-negative".

(** An environment that sets a negative [LOG_GENERATION_INTERVAL]. *)
Definition env_negative_interval : Generator.environ :=
  Generator.Environ None None
    (Some (Generator.Converted (PyFloat "-0.5" (Nanos (-500000000)))))
    None None None None.

(** The world after [events] were added to the trace. *)
Definition logged (events : list event) (w : world) : world :=
  World (rnd w) (clock w) (str_hash w) (running w) (producer w) (broker_up w)
        (trace w ++ events).

(** The headline a burst logs before its first record. *)
Definition burst_headline (count : Z) (name : string) : event :=
  LogInfo ("Generating " ++ Py.str_of_int count ++ " logs for pattern: "
                         ++ name).

(** What [send_log] logs when it gives up. *)
Definition send_failure (e : exc) : event :=
  LogError ("Failed to send log to Kafka: " ++ exc_str e).

(** The environment [env] with [LOG_MODE] set to [m]. *)
Definition with_log_mode (m : string) (env : Generator.environ)
  : Generator.environ :=
  Generator.Environ (Some m) (Generator.LOG_LEVEL env)
                    (Generator.LOG_GENERATION_INTERVAL env)
                    (Generator.BURST_INTERVAL env)
                    (Generator.POD_NAMESPACE env)
                    (Generator.POD_NAME env)
                    (Generator.NODE_NAME env).

(** What [stop] of the broker forwarder leaves at the end of the trace
    when the producer is connected. *)
Definition producer_shutdown : list event :=
  [ KafkaFlush; KafkaClose; LogInfo "Kafka producer closed" ].

(** An optional command-line argument with its default. *)
Definition arg_or (a : option string) (default : string) : string :=
  match a with Some x => x | None => default end.

(** The lines the script of the broker forwarder prints before [start]. *)
Definition forwarder_banner (kafka_broker topic mode : string) : list event :=
  [ Stdout "Starting Mock Log Forwarder...";
    Stdout ("Kafka Broker: " ++ kafka_broker);
    Stdout ("Topic: " ++ topic);
    Stdout ("Mode: " ++ mode);
    Stdout "Supported Patterns: 19";
    Stdout (if String.eqb mode "test" then "Running pattern tests..."
            else "Running in continuous mode. Press Ctrl+C to stop.") ].

(** The headlines of bursts among the events of a trace. *)
Definition is_headline (e : event) : bool :=
  match e with
  | LogInfo s => String.prefix "Generating " s
  | _ => false
  end.

(** [says sel m l]: [m] returns, leaves the order of set iteration as it
    found it, and the events selected by [sel] that it adds to the trace
    are exactly [l], in that order. *)
Definition says (sel : event -> bool) (m : M unit) (l : list event) : Prop :=
  forall w, exists w',
    m w = Ok tt w' /\ str_hash w' = str_hash w /\
    filter sel (trace w') = (filter sel (trace w) ++ l)%list.

(** The catalog names the test pass of the stdout generator leaves for
    its second loop. *)
Definition remaining_patterns : list string :=
  filter (fun k => negb (existsb (String.eqb k) Generator.e2e_test_patterns))
         (map fst Catalog.patterns).

(** The headline of the burst the test pass of the broker forwarder asks
    for a pattern. *)
Definition forwarder_test_headline (item : string * Catalog.pattern) : event :=
  burst_headline (Catalog.threshold_or_5 (snd item) + 2) (fst item).

(* ================================================================== *)
(** ** Facts about text *)
(* ================================================================== *)

Section Text.

Lemma prefix_app (k s : string) : String.prefix k (k ++ s) = true.
Proof.
  induction k as [|c k IH]; simpl.
  - destruct s; reflexivity.
  - destruct (ascii_dec c c) as [_|ne]; [exact IH | contradiction].
Qed.

Lemma contains_here (k s : string) : Py.contains k (k ++ s) = true.
Proof.
  destruct k as [|c k].
  - destruct s; reflexivity.
  - change (String.prefix (String c k) (String c k ++ s)
            || Py.contains (String c k) (k ++ s) = true).
    rewrite prefix_app. reflexivity.
Qed.

Lemma contains_self (k : string) : Py.contains k k = true.
Proof.
  destruct k as [|c k]; [reflexivity|].
  simpl. destruct (ascii_dec c c) as [_|ne]; [|contradiction].
  pose proof (prefix_app k EmptyString) as H.
  assert (E : k ++ EmptyString = k) by (clear; induction k; simpl; congruence).
  rewrite E in H. rewrite H. reflexivity.
Qed.

Lemma contains_cons (k : string) (c : ascii) (s : string) :
  Py.contains k s = true -> Py.contains k (String c s) = true.
Proof.
  intros H. simpl. rewrite H. apply orb_true_r.
Qed.

Lemma contains_app_r (k p s : string) :
  Py.contains k s = true -> Py.contains k (p ++ s) = true.
Proof.
  intros H. induction p as [|c p IH]; simpl append.
  - exact H.
  - apply contains_cons, IH.
Qed.

Lemma prefix_nil (s : string) : String.prefix EmptyString s = true.
Proof. destruct s; reflexivity. Qed.

Lemma contains_nil (s : string) : Py.contains EmptyString s = true.
Proof. destruct s; reflexivity. Qed.

Lemma prefix_cons (a b : ascii) (k s : string) :
  String.prefix (String a k) (String b s) = true ->
  a = b /\ String.prefix k s = true.
Proof.
  simpl. destruct (ascii_dec a b); [auto | discriminate].
Qed.

(** A text without digits that starts a text whose continuation begins
    with a digit ends before that digit. *)
Lemma prefix_before_digit (k pre : string) (d : ascii) (rest : string) :
  digit_free k = true -> is_digit d = true ->
  String.prefix k (pre ++ String d rest) = true ->
  String.prefix k pre = true.
Proof.
  revert k. induction pre as [|c pre IH]; intros k Hk Hd H.
  - destruct k as [|a k]; [reflexivity|].
    simpl append in H. apply prefix_cons in H. destruct H as [-> _].
    simpl in Hk. rewrite Hd in Hk. discriminate.
  - destruct k as [|a k]; [reflexivity|].
    simpl append in H. apply prefix_cons in H. destruct H as [-> H].
    simpl in Hk. apply andb_true_iff in Hk. destruct Hk as [_ Hk].
    simpl. destruct (ascii_dec c c); [|contradiction].
    eapply IH; eauto.
Qed.

(** A phrase without digits found in a text that starts with digits is
    found after them. *)
Lemma contains_after_digits (k ds suf : string) :
  k <> EmptyString -> digit_free k = true -> all_digits ds = true ->
  Py.contains k (ds ++ suf) = true -> Py.contains k suf = true.
Proof.
  intros Hne Hk. induction ds as [|d ds IH]; intros Hds H.
  - exact H.
  - simpl in Hds. apply andb_true_iff in Hds. destruct Hds as [Hd Hds].
    simpl append in H. simpl in H. apply orb_true_iff in H.
    destruct H as [H|H]; [|auto].
    destruct k as [|a k]; [contradiction|].
    destruct (ascii_dec a d) as [->|ne]; [|discriminate].
    simpl in Hk. rewrite Hd in Hk. discriminate.
Qed.

(** A phrase without digits found in [pre ++ ds ++ suf], where [ds] is a
    run of at least one digit, lies inside [pre] or inside [suf]. *)
Lemma contains_around_digits (k pre ds suf : string) :
  k <> EmptyString -> digit_free k = true ->
  all_digits ds = true -> ds <> EmptyString ->
  Py.contains k (pre ++ ds ++ suf) = true ->
  Py.contains k pre = true \/ Py.contains k suf = true.
Proof.
  intros Hne Hk Hds Hd. induction pre as [|c pre IH]; intros H.
  - right. eapply contains_after_digits; eauto.
  - simpl append in H. simpl in H. apply orb_true_iff in H.
    destruct H as [H|H].
    + left. destruct ds as [|d ds]; [contradiction|].
      simpl in Hds. apply andb_true_iff in Hds. destruct Hds as [Hd1 _].
      assert (Hp : String.prefix k (String c pre) = true).
      { apply (prefix_before_digit k (String c pre) d (ds ++ suf)); auto. }
      simpl. simpl in Hp. rewrite Hp. reflexivity.
    + destruct (IH H) as [H1|H1]; [left | right; exact H1].
      apply contains_cons. exact H1.
Qed.

Lemma all_digits_uint (d : Decimal.uint) :
  all_digits (NilEmpty.string_of_uint d) = true.
Proof. induction d; simpl; auto. Qed.

Lemma uint_nonempty (d : Decimal.uint) :
  d <> Decimal.Nil -> NilEmpty.string_of_uint d <> EmptyString.
Proof. destruct d; simpl; congruence. Qed.

Lemma to_little_uint_not_nil (p : positive) :
  Pos.to_little_uint p <> Decimal.Nil.
Proof.
  induction p as [p IH|p IH|]; simpl; try discriminate;
    destruct (Pos.to_little_uint p); simpl; try congruence; discriminate.
Qed.

(** The decimal rendering of a natural number: digits, at least one. *)
Lemma str_of_int_digits (n : Z) :
  0 <= n ->
  all_digits (Py.str_of_int n) = true /\ Py.str_of_int n <> EmptyString.
Proof.
  intros Hn. unfold Py.str_of_int. destruct n as [|p|p]; [| |lia].
  - split; [reflexivity | discriminate].
  - simpl. unfold NilZero.string_of_uint.
    destruct (Pos.to_uint p) eqn:E.
    + split; [reflexivity | discriminate].
    + rewrite <- E. split; [apply all_digits_uint|]. rewrite E. discriminate.
    + rewrite <- E. split; [apply all_digits_uint|]. rewrite E. discriminate.
    + rewrite <- E. split; [apply all_digits_uint|]. rewrite E. discriminate.
    + rewrite <- E. split; [apply all_digits_uint|]. rewrite E. discriminate.
    + rewrite <- E. split; [apply all_digits_uint|]. rewrite E. discriminate.
    + rewrite <- E. split; [apply all_digits_uint|]. rewrite E. discriminate.
    + rewrite <- E. split; [apply all_digits_uint|]. rewrite E. discriminate.
    + rewrite <- E. split; [apply all_digits_uint|]. rewrite E. discriminate.
    + rewrite <- E. split; [apply all_digits_uint|]. rewrite E. discriminate.
    + rewrite <- E. split; [apply all_digits_uint|]. rewrite E. discriminate.
Qed.

End Text.

(* ================================================================== *)
(** ** Rules for computations that only sample *)
(* ================================================================== *)

Section Sampling.

Lemma frame_refl (w : world) : frame w w.
Proof. unfold frame; auto. Qed.

Lemma frame_trans (w1 w2 w3 : world) :
  frame w1 w2 -> frame w2 w3 -> frame w1 w3.
Proof.
  unfold frame. intros (a & b & c & d & e) (a' & b' & c' & d' & e').
  repeat split; congruence.
Qed.

Lemma gen_ret {A} (a : A) (P : A -> Prop) : P a -> gen (ret a) P.
Proof. intros H w. exists a, w. auto using frame_refl. Qed.

Lemma gen_bind {A B} (m : M A) (f : A -> M B) (P : A -> Prop)
      (Q : B -> Prop) :
  gen m P -> (forall a, P a -> gen (f a) Q) -> gen (bind m f) Q.
Proof.
  intros Hm Hf w. destruct (Hm w) as (a & w1 & E1 & F1 & Pa).
  destruct (Hf a Pa w1) as (b & w2 & E2 & F2 & Qb).
  exists b, w2. unfold bind. rewrite E1.
  eauto using frame_trans.
Qed.

Lemma gen_weaken {A} (m : M A) (P Q : A -> Prop) :
  gen m P -> (forall a, P a -> Q a) -> gen m Q.
Proof.
  intros Hm HPQ w. destruct (Hm w) as (a & w1 & E & F & Pa).
  exists a, w1. auto.
Qed.

Lemma gen_draw : gen draw (fun _ => True).
Proof.
  intros w. eexists _, _. split; [reflexivity|].
  split; [|exact I]. unfold frame; simpl; auto.
Qed.

Lemma gen_randint (a b : Z) :
  a <= b -> gen (randint a b) (fun n => a <= n <= b).
Proof.
  intros Hab. unfold randint. eapply gen_bind; [apply gen_draw|].
  intros d _. apply gen_ret.
  pose proof (Z.mod_pos_bound d (b - a + 1)). lia.
Qed.

Lemma gen_uniform_ms (a b : Z) :
  a <= b -> gen (uniform_ms a b) (fun n => a <= n <= b).
Proof.
  intros Hab. unfold uniform_ms. eapply gen_bind; [apply gen_draw|].
  intros d _. apply gen_ret.
  pose proof (Z.mod_pos_bound d (b - a + 1)). lia.
Qed.

Lemma gen_choice {A} (l : list A) :
  l <> [] -> gen (choice l) (fun x => In x l).
Proof.
  intros Hl. destruct l as [|x l]; [contradiction|].
  unfold choice. eapply gen_bind; [apply gen_draw|].
  intros d _. apply gen_ret.
  apply nth_In.
  pose proof (Z.mod_pos_bound d (Z.of_nat (List.length (x :: l)))) as Hb.
  simpl List.length in *. lia.
Qed.

Lemma gen_randbytes (n : nat) : gen (randbytes n) (fun _ => True).
Proof.
  unfold randbytes. eapply gen_bind; [apply gen_draw|].
  intros d _. apply gen_ret. exact I.
Qed.

Lemma gen_utcnow : gen utcnow_str (fun _ => True).
Proof.
  intros w. eexists _, _. split; [reflexivity|].
  split; [|exact I]. unfold frame; simpl; auto.
Qed.

(** The value of a sampler that returned is one its rule allows. *)
Lemma gen_sound {A} (m : M A) (P : A -> Prop) (w w' : world) (a : A) :
  gen m P -> m w = Ok a w' -> frame w w' /\ P a.
Proof.
  intros Hm E. destruct (Hm w) as (a0 & w0 & E0 & F & Pa).
  rewrite E in E0. injection E0 as -> ->. auto.
Qed.

End Sampling.

(** One step of a sampler: take the rule of the first action, name its
    value. *)
Ltac gen_any := first
  [ apply gen_utcnow
  | apply gen_randbytes
  | apply gen_draw
  | eapply gen_weaken; [apply gen_randint; lia | intros; exact I]
  | eapply gen_weaken; [apply gen_choice; discriminate | intros; exact I] ].

Ltac gen_skip := eapply gen_bind; [gen_any | intros ? _].

(* ================================================================== *)
(** ** Rules for computations that leave [running] alone *)
(* ================================================================== *)

Section Keeps.

Lemma keeps_ret {A} (a : A) : keeps (ret a).
Proof. intros w. reflexivity. Qed.

Lemma keeps_raise {A} (e : exc) : keeps (@raise A e).
Proof. intros w. reflexivity. Qed.

Lemma keeps_bind {A B} (m : M A) (f : A -> M B) :
  keeps m -> (forall a, keeps (f a)) -> keeps (bind m f).
Proof.
  intros Hm Hf w. unfold bind. specialize (Hm w).
  destruct (m w) as [a w1|e w1]; simpl in *.
  - rewrite Hf. exact Hm.
  - exact Hm.
Qed.

Lemma keeps_try_except {A} (m : M A) (h : exc -> M A) :
  keeps m -> (forall e, keeps (h e)) -> keeps (try_except m h).
Proof.
  intros Hm Hh w. unfold try_except. specialize (Hm w).
  destruct (m w) as [a w1|e w1]; simpl in *.
  - exact Hm.
  - rewrite Hh. exact Hm.
Qed.

Lemma keeps_emit (e : event) : keeps (emit e).
Proof. intros w. reflexivity. Qed.

Lemma keeps_draw : keeps draw.
Proof. intros w. reflexivity. Qed.

Lemma keeps_utcnow : keeps utcnow_str.
Proof. intros w. reflexivity. Qed.

Lemma keeps_get_running : keeps get_running.
Proof. intros w. reflexivity. Qed.

Lemma keeps_get_producer : keeps get_producer.
Proof. intros w. reflexivity. Qed.

Lemma keeps_randint (a b : Z) : keeps (randint a b).
Proof.
  unfold randint. apply keeps_bind; [apply keeps_draw|].
  intros. apply keeps_ret.
Qed.

Lemma keeps_uniform_ms (a b : Z) : keeps (uniform_ms a b).
Proof.
  unfold uniform_ms. apply keeps_bind; [apply keeps_draw|].
  intros. apply keeps_ret.
Qed.

Lemma keeps_randbytes (n : nat) : keeps (randbytes n).
Proof.
  unfold randbytes. apply keeps_bind; [apply keeps_draw|].
  intros. apply keeps_ret.
Qed.

Lemma keeps_choice {A} (l : list A) : keeps (choice l).
Proof.
  destruct l; simpl; [apply keeps_raise|].
  apply keeps_bind; [apply keeps_draw|]. intros. apply keeps_ret.
Qed.

Lemma keeps_sleep_ns (ns : Z) : keeps (sleep_ns ns).
Proof.
  unfold sleep_ns. destruct (sleep_error ns);
    [apply keeps_raise | apply keeps_emit].
Qed.

Lemma keeps_sleep (ms : Z) : keeps (sleep ms).
Proof. apply keeps_sleep_ns. Qed.

Lemma keeps_sleep_float (x : pyfloat) : keeps (sleep_float x).
Proof.
  unfold sleep_float. destruct (as_time x);
    [apply keeps_sleep_ns | apply keeps_raise | apply keeps_raise].
Qed.

(** A pause of whole milliseconds within the range is taken. *)
Lemma sleep_accepts (ms : Z) :
  0 <= ms <= 9223372036854 -> sleep ms = emit (Sleep ms).
Proof.
  intros H. unfold sleep, sleep_ns, sleep_error.
  replace (ms * 1000000 <? - 9223372036854775808) with false
    by (symmetry; apply Z.ltb_ge; lia).
  replace (9223372036854775808 <? ms * 1000000) with false
    by (symmetry; apply Z.ltb_ge; lia).
  replace (ms * 1000000 <? 0) with false
    by (symmetry; apply Z.ltb_ge; lia).
  replace (ms * 1000000 =? 9223372036854775808) with false
    by (symmetry; apply Z.eqb_neq; lia).
  cbn [orb]. rewrite Z.div_mul by lia. reflexivity.
Qed.

Lemma keeps_log_info (s : string) : keeps (log_info s).
Proof. apply keeps_emit. Qed.

Lemma keeps_log_error (s : string) : keeps (log_error s).
Proof. apply keeps_emit. Qed.

Lemma keeps_log_debug (s : string) : keeps (log_debug s).
Proof. apply keeps_emit. Qed.

Lemma keeps_getitem (k : string) (d : pydict) : keeps (getitem k d).
Proof.
  unfold getitem. destruct (dict_get k d); [apply keeps_ret | apply keeps_raise].
Qed.

Lemma keeps_py_mod (a b : Z) : keeps (py_mod a b).
Proof.
  unfold py_mod. destruct (b =? 0); [apply keeps_raise | apply keeps_ret].
Qed.

Lemma keeps_repeat_n (n : nat) (body : M unit) :
  keeps body -> keeps (repeat_n n body).
Proof.
  intros Hb. induction n; simpl; [apply keeps_ret|].
  apply keeps_bind; auto.
Qed.

Lemma keeps_for_each {A} (xs : list A) (body : A -> M unit) :
  (forall x, keeps (body x)) -> keeps (for_each xs body).
Proof.
  intros Hb. induction xs; simpl; [apply keeps_ret|].
  apply keeps_bind; auto.
Qed.

End Keeps.

Create HintDb keeps.
#[export] Hint Resolve keeps_ret keeps_raise keeps_emit keeps_draw keeps_utcnow
  keeps_get_running keeps_get_producer keeps_randint keeps_uniform_ms
  keeps_randbytes keeps_choice keeps_sleep keeps_sleep_float keeps_log_info
  keeps_log_error
  keeps_log_debug keeps_getitem keeps_py_mod : keeps.

(** Walks a computation built from the actions above. *)
Ltac keeps_walk :=
  repeat first
    [ progress auto with keeps
    | apply keeps_bind; [|intros]
    | apply keeps_try_except; [|intros]
    | apply keeps_repeat_n
    | apply keeps_for_each; intros
    | match goal with
      | |- keeps (match ?x with _ => _ end) => destruct x
      | |- keeps (if ?b then _ else _) => destruct b
      | |- keeps (let (_, _) := ?x in _) => destruct x
      end ].

(* ================================================================== *)
(** ** Dictionaries *)
(* ================================================================== *)

Section Dicts.

Lemma dict_get_set_same (k : string) (v : pyval) (d : pydict) :
  dict_get k (dict_set k v d) = Some v.
Proof.
  induction d as [|[k' v'] d IH]; simpl.
  - rewrite String.eqb_refl. reflexivity.
  - destruct (String.eqb k' k) eqn:E; simpl; rewrite E; auto.
Qed.

Lemma dict_get_set_other (k k' : string) (v : pyval) (d : pydict) :
  k <> k' -> dict_get k (dict_set k' v d) = dict_get k d.
Proof.
  intros Hne. induction d as [|[k0 v0] d IH]; simpl.
  - destruct (String.eqb k' k) eqn:E; [|reflexivity].
    apply String.eqb_eq in E. congruence.
  - destruct (String.eqb k0 k') eqn:E; simpl.
    + apply String.eqb_eq in E. subst k0.
      destruct (String.eqb k' k) eqn:E'; [|reflexivity].
      apply String.eqb_eq in E'. congruence.
    + rewrite IH. reflexivity.
Qed.

Lemma get_or_Forall (P : string -> Prop) (name : string)
      (d : list (string * string)) (default : string) :
  Forall (fun kv => P (snd kv)) d -> P default -> P (get_or name d default).
Proof.
  intros Hd Hdef. induction Hd as [|[k v] d Hv _ IH]; simpl; [exact Hdef|].
  destruct (String.eqb k name); [exact Hv | exact IH].
Qed.

Lemma stdout_lines_app (a b : list event) :
  stdout_lines (a ++ b) = (stdout_lines a ++ stdout_lines b)%list.
Proof.
  induction a as [|e a IH]; simpl; [reflexivity|].
  destruct e; simpl; rewrite ?IH; reflexivity.
Qed.

Lemma published_app (a b : list event) :
  published (a ++ b) = (published a ++ published b)%list.
Proof.
  induction a as [|e a IH]; simpl; [reflexivity|].
  destruct e; simpl; rewrite ?IH; reflexivity.
Qed.

End Dicts.

(** A text built by appending pieces contains a piece that occurs in it. *)
Ltac find_piece :=
  repeat first [ apply contains_here | apply contains_self
               | apply contains_app_r ].

(* ================================================================== *)
(** ** What the stdout generator makes *)
(* ================================================================== *)

Section GeneratorRecords.

Import Generator.

Variable self : MockLogGenerator.

(** The base record holds the level and the service it was given, a
    timestamp, and neither message nor raw text yet. *)
Lemma generator_base_log_shape (service level : string) :
  gen (generate_base_log self service level)
      (fun log => exists ts rest,
           log = ("timestamp", PStr ts) :: rest /\
           dict_get "level" rest = Some (PStr level) /\
           dict_get "service" rest = Some (PStr service) /\
           dict_get "message" rest = None /\
           dict_get "raw" rest = None /\
           dict_get "timestamp" rest = None).
Proof.
  unfold generate_base_log.
  do 4 gen_skip.
  eapply gen_bind; [apply gen_utcnow | intros ts _].
  do 9 gen_skip.
  apply gen_ret. eexists ts, _. split; [reflexivity|].
  repeat split; reflexivity.
Qed.

Lemma test_messages_keyword (keyword : string) :
  gen (test_messages keyword)
      (Forall (fun kv => Py.contains keyword (snd kv) = true)).
Proof.
  unfold test_messages. do 4 gen_skip. apply gen_ret.
  repeat constructor; cbv beta iota delta [snd]; find_piece.
Qed.

Lemma production_messages_keyword (service keyword : string) :
  gen (production_messages service keyword)
      (Forall (fun kv => Py.contains keyword (snd kv) = true)).
Proof.
  unfold production_messages. do 6 gen_skip. apply gen_ret.
  repeat constructor; cbv beta iota delta [snd]; find_piece.
Qed.

(** The raw text is the compact encoding of the four fields as they
    stand in the record. *)
Lemma add_raw_spec (ts lv msg sv : string) (rest : pydict) :
  dict_get "level" rest = Some (PStr lv) ->
  dict_get "service" rest = Some (PStr sv) ->
  dict_get "message" rest = Some (PStr msg) ->
  gen (add_raw (("timestamp", PStr ts) :: rest))
      (fun log =>
         dict_get "timestamp" log = Some (PStr ts) /\
         dict_get "level" log = Some (PStr lv) /\
         dict_get "message" log = Some (PStr msg) /\
         dict_get "service" log = Some (PStr sv) /\
         dict_get "raw" log
         = Some (PStr (Json.dumps_compact (raw_object ts lv msg sv)))).
Proof.
  intros Hl Hs Hm. unfold add_raw, getitem.
  change (dict_get "timestamp" (("timestamp", PStr ts) :: rest))
    with (Some (PStr ts)).
  change (dict_get "level" (("timestamp", PStr ts) :: rest))
    with (dict_get "level" rest).
  change (dict_get "message" (("timestamp", PStr ts) :: rest))
    with (dict_get "message" rest).
  change (dict_get "service" (("timestamp", PStr ts) :: rest))
    with (dict_get "service" rest).
  rewrite Hl, Hs, Hm.
  apply gen_ret.
  rewrite dict_get_set_same.
  rewrite !dict_get_set_other by discriminate.
  change (dict_get "timestamp" (("timestamp", PStr ts) :: rest))
    with (Some (PStr ts)).
  change (dict_get "level" (("timestamp", PStr ts) :: rest))
    with (dict_get "level" rest).
  change (dict_get "message" (("timestamp", PStr ts) :: rest))
    with (dict_get "message" rest).
  change (dict_get "service" (("timestamp", PStr ts) :: rest))
    with (dict_get "service" rest).
  rewrite Hl, Hs, Hm. repeat split; reflexivity.
Qed.

(** Everything the later results need about a pattern record. *)
Lemma generator_pattern_log_spec (name : string) (cfg : Catalog.pattern) :
  Catalog.services cfg <> [] -> Catalog.keywords cfg <> [] ->
  gen (generate_pattern_log self name cfg)
      (fun log => exists service0 level0 keyword ts msg,
           In service0 (Catalog.services cfg) /\
           level_choice cfg level0 /\
           In keyword (Catalog.keywords cfg) /\
           Py.contains keyword msg = true /\
           let lv := fst (apply_overrides self name level0 service0) in
           let sv := snd (apply_overrides self name level0 service0) in
           dict_get "timestamp" log = Some (PStr ts) /\
           dict_get "level" log = Some (PStr lv) /\
           dict_get "message" log = Some (PStr msg) /\
           dict_get "service" log = Some (PStr sv) /\
           dict_get "raw" log
           = Some (PStr (Json.dumps_compact (raw_object ts lv msg sv)))).
Proof.
  intros Hs Hk. unfold generate_pattern_log.
  eapply gen_bind; [apply gen_choice; exact Hs | intros service0 Hs0].
  eapply gen_bind with (P := level_choice cfg).
  { unfold level_choice.
    destruct (Catalog.log_level (Catalog.pat_conditions cfg)).
    - apply gen_ret. reflexivity.
    - apply gen_choice. discriminate. }
  intros level0 Hl0.
  destruct (apply_overrides self name level0 service0) as [lv sv] eqn:Eo.
  eapply gen_bind; [apply generator_base_log_shape|].
  intros log0 (ts & rest & -> & Hl & Hsv & Hm & Hr & Ht).
  eapply gen_bind; [apply gen_choice; exact Hk | intros keyword Hkw].
  eapply gen_bind with
    (P := Forall (fun kv => Py.contains keyword (snd kv) = true)).
  { destruct (String.eqb (mode self) "test").
    - apply test_messages_keyword.
    - apply production_messages_keyword. }
  intros messages Hmsgs.
  set (msg := get_or name messages ("Service log: " ++ keyword)).
  assert (Hin : Py.contains keyword msg = true).
  { unfold msg.
    apply (get_or_Forall (fun s => Py.contains keyword s = true));
      [exact Hmsgs | find_piece]. }
  change (dict_set "message" (PStr msg) (("timestamp", PStr ts) :: rest))
    with (("timestamp", PStr ts) :: dict_set "message" (PStr msg) rest).
  eapply gen_weaken.
  { apply (add_raw_spec ts lv msg sv).
    - rewrite dict_get_set_other by discriminate. exact Hl.
    - rewrite dict_get_set_other by discriminate. exact Hsv.
    - apply dict_get_set_same. }
  intros log (H1 & H2 & H3 & H4 & H5).
  exists service0, level0, keyword, ts, msg.
  cbv zeta. rewrite Eo. cbv beta iota delta [fst snd].
  repeat split; assumption.
Qed.

(** The texts a normal record can carry. *)
Lemma generator_normal_messages_spec (service : string) :
  gen (normal_messages service)
      (fun msgs => exists u1 ms u2 n u3,
           0 <= u1 /\ 0 <= ms /\ 0 <= u2 /\ 0 <= n /\ 0 <= u3 /\
           msgs = normal_texts service u1 ms u2 n u3).
Proof.
  unfold normal_messages.
  eapply gen_bind; [apply gen_randint; lia | intros u1 H1].
  eapply gen_bind; [apply gen_randint; lia | intros ms H2].
  eapply gen_bind; [apply gen_randint; lia | intros u2 H3].
  eapply gen_bind; [apply gen_randint; lia | intros n H4].
  eapply gen_bind; [apply gen_randint; lia | intros u3 H5].
  apply gen_ret. exists u1, ms, u2, n, u3.
  cbv beta in *. repeat split; lia.
Qed.

Lemma generator_normal_log_spec :
  services self <> [] ->
  gen (generate_normal_log self)
      (fun log => exists service level ts msg u1 ms u2 n u3,
           In service (services self) /\
           In level ["INFO"; "DEBUG"] /\
           0 <= u1 /\ 0 <= ms /\ 0 <= u2 /\ 0 <= n /\ 0 <= u3 /\
           In msg (normal_texts service u1 ms u2 n u3) /\
           dict_get "timestamp" log = Some (PStr ts) /\
           dict_get "level" log = Some (PStr level) /\
           dict_get "message" log = Some (PStr msg) /\
           dict_get "service" log = Some (PStr service) /\
           dict_get "raw" log
           = Some (PStr (Json.dumps_compact
                           (raw_object ts level msg service)))).
Proof.
  intros Hs. unfold generate_normal_log.
  eapply gen_bind; [apply gen_choice; exact Hs | intros service Hsv].
  eapply gen_bind; [apply gen_choice; discriminate | intros level Hlv].
  eapply gen_bind; [apply generator_base_log_shape|].
  intros log0 (ts & rest & -> & Hl & Hsv' & Hm & Hr & Ht).
  eapply gen_bind; [apply generator_normal_messages_spec|].
  intros msgs (u1 & ms & u2 & n & u3 & G1 & G2 & G3 & G4 & G5 & ->).
  eapply gen_bind; [apply gen_choice; discriminate | intros msg Hmsg].
  change (dict_set "message" (PStr msg) (("timestamp", PStr ts) :: rest))
    with (("timestamp", PStr ts) :: dict_set "message" (PStr msg) rest).
  eapply gen_weaken.
  { apply (add_raw_spec ts level msg service).
    - rewrite dict_get_set_other by discriminate. exact Hl.
    - rewrite dict_get_set_other by discriminate. exact Hsv'.
    - apply dict_get_set_same. }
  intros log (H1 & H2 & H3 & H4 & H5).
  exists service, level, ts, msg, u1, ms, u2, n, u3.
  repeat split; assumption.
Qed.

End GeneratorRecords.

(* ================================================================== *)
(** ** What the broker forwarder makes *)
(* ================================================================== *)

Section ForwarderRecords.

Import Forwarder.

Variable self : MockLogForwarder.

(** The base record, entry by entry. *)
Lemma forwarder_base_log_shape (service level : string) :
  gen (generate_base_log self service level)
      (fun log => exists ts ats ns hs th tr pod labels,
           log = [ ("timestamp", PStr ts);
                   ("@timestamp", PStr ats);
                   ("level", PStr level);
                   ("service", PStr service);
                   ("namespace", PStr ns);
                   ("host", PStr hs);
                   ("thread_id", PStr th);
                   ("trace_id", PStr tr);
                   ("kubernetes", PDict
                      [ ("namespace", PStr ns);
                        ("pod", PStr pod);
                        ("container", PStr service);
                        ("labels", PDict labels) ]) ]).
Proof.
  unfold generate_base_log.
  eapply gen_bind; [gen_any | intros ns _].
  do 2 gen_skip.
  eapply gen_bind; [apply gen_utcnow | intros ts _].
  eapply gen_bind; [apply gen_utcnow | intros ats _].
  do 6 gen_skip.
  apply gen_ret. repeat eexists.
Qed.

Lemma forwarder_messages_keyword (service keyword : string) :
  gen (messages service keyword)
      (Forall (fun kv => Py.contains keyword (snd kv) = true)).
Proof.
  unfold messages. do 6 gen_skip. apply gen_ret.
  repeat constructor; cbv beta iota delta [snd]; find_piece.
Qed.

(** Everything the later results need about a pattern record; it has no
    raw text. *)
Lemma forwarder_pattern_log_spec (name : string) (cfg : Catalog.pattern) :
  Catalog.services cfg <> [] -> Catalog.keywords cfg <> [] ->
  gen (generate_pattern_log self name cfg)
      (fun log => exists service level keyword msg,
           In service (Catalog.services cfg) /\
           level_choice cfg level /\
           In keyword (Catalog.keywords cfg) /\
           Py.contains keyword msg = true /\
           dict_get "level" log = Some (PStr level) /\
           dict_get "message" log = Some (PStr msg) /\
           dict_get "service" log = Some (PStr service) /\
           dict_get "raw" log = None).
Proof.
  intros Hs Hk. unfold generate_pattern_log.
  eapply gen_bind; [apply gen_choice; exact Hs | intros service Hs0].
  eapply gen_bind with (P := level_choice cfg).
  { unfold level_choice.
    destruct (Catalog.log_level (Catalog.pat_conditions cfg)).
    - apply gen_ret. reflexivity.
    - apply gen_choice. discriminate. }
  intros level Hl0.
  eapply gen_bind; [apply forwarder_base_log_shape|].
  intros log0 (ts & ats & ns & hs & th & tr & pod & labels & ->).
  eapply gen_bind; [apply gen_choice; exact Hk | intros keyword Hkw].
  eapply gen_bind; [apply forwarder_messages_keyword|].
  intros msgs Hmsgs.
  set (msg := get_or name msgs ("Service log: " ++ keyword)).
  assert (Hin : Py.contains keyword msg = true).
  { unfold msg.
    apply (get_or_Forall (fun s => Py.contains keyword s = true));
      [exact Hmsgs | find_piece]. }
  clearbody msg.
  do 3 gen_skip.
  apply gen_ret.
  exists service, level, keyword, msg.
  repeat split; try assumption; reflexivity.
Qed.

Lemma forwarder_normal_messages_spec (service : string) :
  gen (normal_messages service)
      (fun msgs => exists u1 ms u2 n u3,
           0 <= u1 /\ 0 <= ms /\ 0 <= u2 /\ 0 <= n /\ 0 <= u3 /\
           msgs = normal_texts service u1 ms u2 n u3).
Proof.
  unfold normal_messages.
  eapply gen_bind; [apply gen_randint; lia | intros u1 H1].
  eapply gen_bind; [apply gen_randint; lia | intros ms H2].
  eapply gen_bind; [apply gen_randint; lia | intros u2 H3].
  eapply gen_bind; [apply gen_randint; lia | intros n H4].
  eapply gen_bind; [apply gen_randint; lia | intros u3 H5].
  apply gen_ret. exists u1, ms, u2, n, u3.
  cbv beta in *. repeat split; lia.
Qed.

Lemma forwarder_normal_log_spec :
  services self <> [] ->
  gen (generate_normal_log self)
      (fun log => exists service level msg u1 ms u2 n u3,
           In service (services self) /\
           In level ["INFO"; "DEBUG"] /\
           0 <= u1 /\ 0 <= ms /\ 0 <= u2 /\ 0 <= n /\ 0 <= u3 /\
           In msg (normal_texts service u1 ms u2 n u3) /\
           dict_get "level" log = Some (PStr level) /\
           dict_get "message" log = Some (PStr msg) /\
           dict_get "service" log = Some (PStr service) /\
           dict_get "raw" log = None).
Proof.
  intros Hs. unfold generate_normal_log.
  eapply gen_bind; [apply gen_choice; exact Hs | intros service Hsv].
  eapply gen_bind; [apply gen_choice; discriminate | intros level Hlv].
  eapply gen_bind; [apply forwarder_base_log_shape|].
  intros log0 (ts & ats & ns & hs & th & tr & pod & labels & ->).
  eapply gen_bind; [apply forwarder_normal_messages_spec|].
  intros msgs (u1 & ms & u2 & n & u3 & G1 & G2 & G3 & G4 & G5 & ->).
  eapply gen_bind; [apply gen_choice; discriminate | intros msg Hmsg].
  gen_skip.
  apply gen_ret.
  exists service, level, msg, u1, ms, u2, n, u3.
  repeat split; try assumption; reflexivity.
Qed.

End ForwarderRecords.

(* ================================================================== *)
(** ** Decoding what the encoder wrote *)
(* ================================================================== *)

Section JsonRoundTrip.

Import Json.

(** The scanner reads one escaped character back. *)
Lemma scanstring_escape_char (c : ascii) (rest : string) :
  scanstring (escape_char c ++ rest) = cons_char c (scanstring rest).
Proof.
  destruct c as [[] [] [] [] [] [] [] []]; reflexivity.
Qed.

Lemma append_assoc (a b c : string) : (a ++ b) ++ c = a ++ b ++ c.
Proof. induction a; simpl; congruence. Qed.

(** The scanner reads an escaped text back, up to the closing quote. *)
Lemma scanstring_escape (s rest : string) :
  scanstring (escape s ++ String Py.dquote rest) = Some (s, rest).
Proof.
  induction s as [|c s IH].
  - reflexivity.
  - simpl escape. rewrite append_assoc, scanstring_escape_char, IH.
    reflexivity.
Qed.

Lemma quote_app (s rest : string) :
  quote s ++ rest = String Py.dquote (escape s ++ String Py.dquote rest).
Proof.
  unfold quote. simpl. rewrite append_assoc. reflexivity.
Qed.

(** A quoted text decodes to the text. *)
Lemma parse_value_quote (fuel : nat) (s rest : string) :
  parse_value (S fuel) (quote s ++ rest) = Some (PStr s, rest).
Proof.
  rewrite quote_app.
  change (parse_value (S fuel)
            (String Py.dquote (escape s ++ String Py.dquote rest)))
    with (match scanstring (escape s ++ String Py.dquote rest) with
          | Some (str, r') => Some (PStr str, r')
          | None => None
          end).
  rewrite scanstring_escape. reflexivity.
Qed.

(** One member followed by a comma. *)
Lemma parse_members_comma (fuel n : nat) (acc : pydict)
      (k v rest : string) :
  parse_members (parse_value (S fuel)) (S n) acc
    (quote k ++ ":" ++ quote v ++ "," ++ rest)
  = parse_members (parse_value (S fuel)) n
      (dict_set k (PStr v) acc) (skip_ws rest).
Proof.
  rewrite quote_app.
  cbn [parse_members Ascii.eqb Bool.eqb Py.dquote negb].
  rewrite scanstring_escape.
  change (skip_ws (":" ++ quote v ++ "," ++ rest))
    with (String ":" (quote v ++ "," ++ rest)).
  cbv iota beta.
  rewrite parse_value_quote.
  reflexivity.
Qed.

(** The last member and the closing brace. *)
Lemma parse_members_close (fuel n : nat) (acc : pydict)
      (k v rest : string) :
  parse_members (parse_value (S fuel)) (S n) acc
    (quote k ++ ":" ++ quote v ++ "}" ++ rest)
  = Some (PDict (dict_set k (PStr v) acc), rest).
Proof.
  rewrite quote_app.
  cbn [parse_members Ascii.eqb Bool.eqb Py.dquote negb].
  rewrite scanstring_escape.
  change (skip_ws (":" ++ quote v ++ "}" ++ rest))
    with (String ":" (quote v ++ "}" ++ rest)).
  cbv iota beta.
  rewrite parse_value_quote.
  reflexivity.
Qed.

Lemma skip_ws_quote (s rest : string) :
  skip_ws (quote s ++ rest) = quote s ++ rest.
Proof. rewrite quote_app. reflexivity. Qed.

(** An object that is not empty: the member loop starts on the first
    key. *)
Lemma parse_value_object (fuel : nat) (r : string) :
  parse_value (S fuel) (String "{" (String Py.dquote r))
  = parse_members (parse_value fuel)
      (String.length (String Py.dquote r)) [] (String Py.dquote r).
Proof. reflexivity. Qed.

(** The raw text of a record decodes to its four fields. *)
Lemma loads_raw_object (ts lv msg sv : string) :
  loads (dumps_compact (raw_object ts lv msg sv))
  = Some (raw_object ts lv msg sv).
Proof.
  assert (E : dumps_compact (raw_object ts lv msg sv)
              = String "{"
                  (quote "timestamp" ++ ":" ++ quote ts ++ "," ++
                   quote "level" ++ ":" ++ quote lv ++ "," ++
                   quote "message" ++ ":" ++ quote msg ++ "," ++
                   quote "service" ++ ":" ++ quote sv ++ "}" ++ EmptyString)).
  { unfold dumps_compact, raw_object. cbn [dumps_with].
    change ("{" ++ ?x) with (String "{" x).
    f_equal.
    rewrite !append_assoc. reflexivity. }
  rewrite E. unfold loads.
  rewrite (quote_app "timestamp").
  set (r := escape "timestamp" ++
            String Py.dquote
              (":" ++ quote ts ++ "," ++
               quote "level" ++ ":" ++ quote lv ++ "," ++
               quote "message" ++ ":" ++ quote msg ++ "," ++
               quote "service" ++ ":" ++ quote sv ++ "}" ++ EmptyString)).
  assert (Hlen : exists m, String.length r = S (S (S m))).
  { unfold r. simpl. eauto. }
  destruct Hlen as [m Hm].
  rewrite parse_value_object.
  change (String.length (String "{" (String Py.dquote r)))
    with (S (S (String.length r))).
  change (String.length (String Py.dquote r)) with (S (String.length r)).
  rewrite Hm. unfold r. rewrite <- quote_app.
  rewrite parse_members_comma, skip_ws_quote.
  rewrite parse_members_comma, skip_ws_quote.
  rewrite parse_members_comma, skip_ws_quote.
  rewrite parse_members_close.
  reflexivity.
Qed.

End JsonRoundTrip.

(* ================================================================== *)
(** ** The catalog, entry by entry *)
(* ================================================================== *)

(** Splits a membership in a literal list into its cases. *)
Ltac in_cases H :=
  repeat (destruct H as [H|H]; [|]); [..| destruct H].

Section CatalogFacts.

Lemma catalog_lists_nonempty (name : string) (cfg : Catalog.pattern) :
  In (name, cfg) Catalog.patterns ->
  Catalog.services cfg <> [] /\ Catalog.keywords cfg <> [].
Proof.
  intros H. unfold Catalog.patterns in H. in_cases H;
    injection H as <- <-; split; discriminate.
Qed.

Lemma catalog_thresholds (name : string) (cfg : Catalog.pattern) :
  In (name, cfg) Catalog.patterns -> 1 <= Catalog.threshold_or_5 cfg.
Proof.
  intros H. unfold Catalog.patterns in H. in_cases H;
    injection H as <- <-; vm_compute; discriminate.
Qed.

Lemma catalog_lookup (name : string) (cfg : Catalog.pattern) :
  In (name, cfg) Catalog.patterns ->
  Catalog.lookup name Catalog.patterns = Some cfg.
Proof.
  intros H. unfold Catalog.patterns in H. in_cases H;
    injection H as <- <-; reflexivity.
Qed.

Lemma lookup_In (name : string) (cfg : Catalog.pattern)
      (ps : list (string * Catalog.pattern)) :
  Catalog.lookup name ps = Some cfg -> In (name, cfg) ps.
Proof.
  induction ps as [|[n p] ps IH]; simpl; [discriminate|].
  destruct (String.eqb n name) eqn:E.
  - apply String.eqb_eq in E. intros [= ->]. subst. auto.
  - auto.
Qed.

End CatalogFacts.

(* ================================================================== *)
(** ** C1: a pattern record names one of its keywords *)
(* ================================================================== *)

(** C1.  For every pattern with a service and a keyword to draw, in both
    scripts and whatever the mode, [generate_pattern_log] returns a record
    whose message contains, as a substring, one of the pattern's
    keywords. *)
Theorem C1_pattern_message_contains_keyword :
  forall (name : string) (cfg : Catalog.pattern),
    Catalog.services cfg <> [] -> Catalog.keywords cfg <> [] ->
    (forall (self : Generator.MockLogGenerator) (w : world),
        exists log w' msg keyword,
          Generator.generate_pattern_log self name cfg w = Ok log w' /\
          dict_get "message" log = Some (PStr msg) /\
          In keyword (Catalog.keywords cfg) /\
          Py.contains keyword msg = true) /\
    (forall (self : Forwarder.MockLogForwarder) (w : world),
        exists log w' msg keyword,
          Forwarder.generate_pattern_log self name cfg w = Ok log w' /\
          dict_get "message" log = Some (PStr msg) /\
          In keyword (Catalog.keywords cfg) /\
          Py.contains keyword msg = true).
Proof.
  intros name cfg Hs Hk. split; intros self w.
  - destruct (generator_pattern_log_spec self name cfg Hs Hk w)
      as (log & w' & E & _ & s0 & l0 & kw & ts & msg & _ & _ & Hkw & Hc &
          _ & _ & Hm & _).
    exists log, w', msg, kw. auto.
  - destruct (forwarder_pattern_log_spec self name cfg Hs Hk w)
      as (log & w' & E & _ & sv & lv & kw & msg & _ & _ & Hkw & Hc &
          _ & Hm & _).
    exists log, w', msg, kw. auto.
Qed.

Lemma C1_witness :
  Catalog.services (catalog_pattern "redis_connection_refused") <> [] /\
  Catalog.keywords (catalog_pattern "redis_connection_refused") <> [] /\
  (exists log w' msg keyword,
      Generator.generate_pattern_log test_generator0
        "redis_connection_refused"
        (catalog_pattern "redis_connection_refused") world0 = Ok log w' /\
      dict_get "message" log = Some (PStr msg) /\
      In keyword (Catalog.keywords (catalog_pattern "redis_connection_refused")) /\
      Py.contains keyword msg = true).
Proof.
  assert (Hs : Catalog.services (catalog_pattern "redis_connection_refused")
               <> []) by (vm_compute; discriminate).
  assert (Hk : Catalog.keywords (catalog_pattern "redis_connection_refused")
               <> []) by (vm_compute; discriminate).
  split; [exact Hs|]. split; [exact Hk|].
  exact (proj1 (C1_pattern_message_contains_keyword
                  "redis_connection_refused"
                  (catalog_pattern "redis_connection_refused") Hs Hk)
               test_generator0 world0).
Defined.

(* ================================================================== *)
(** ** C2: the level of a pattern record *)
(* ================================================================== *)

(** The test-mode override of the stdout generator turns the level of
    [database_errors], ERROR in its conditions, into FATAL. *)
Lemma C2_counterexample :
  exists log w',
    In ("database_errors", catalog_pattern "database_errors") Catalog.patterns /\
    Catalog.log_level (Catalog.pat_conditions (catalog_pattern "database_errors"))
    = Some "ERROR" /\
    Generator.generate_pattern_log test_generator0 "database_errors"
      (catalog_pattern "database_errors") world0 = Ok log w' /\
    dict_get "level" log = Some (PStr "FATAL") /\
    "FATAL" <> "ERROR".
Proof.
  eexists _, _. split; [do 2 right; left; reflexivity|].
  split; [reflexivity|]. split; [vm_compute; reflexivity|].
  split; [reflexivity | discriminate].
Qed.

(** C2, amended.  For every catalog pattern whose conditions define a
    level, a pattern record has that level in the broker forwarder and in
    the stdout generator, except that the stdout generator in test mode
    gives the records of [database_errors] the level FATAL of its
    override. *)
Theorem C2_level_follows_conditions :
  forall (name : string) (cfg : Catalog.pattern) (lvl : string),
    In (name, cfg) Catalog.patterns ->
    Catalog.log_level (Catalog.pat_conditions cfg) = Some lvl ->
    (forall (self : Generator.MockLogGenerator) (w : world),
        exists log w',
          Generator.generate_pattern_log self name cfg w = Ok log w' /\
          dict_get "level" log
          = Some (PStr (if String.eqb (Generator.mode self) "test"
                           && String.eqb name "database_errors"
                        then "FATAL" else lvl))) /\
    (forall (self : Forwarder.MockLogForwarder) (w : world),
        exists log w',
          Forwarder.generate_pattern_log self name cfg w = Ok log w' /\
          dict_get "level" log = Some (PStr lvl)).
Proof.
  intros name cfg lvl Hin Hlvl.
  destruct (catalog_lists_nonempty name cfg Hin) as [Hs Hk].
  split; intros self w.
  - destruct (generator_pattern_log_spec self name cfg Hs Hk w)
      as (log & w' & E & _ & s0 & l0 & kw & ts & msg & _ & Hl0 & _ & _ &
          _ & Hl & _).
    exists log, w'. split; [exact E|]. rewrite Hl. do 2 f_equal.
    unfold level_choice in Hl0. rewrite Hlvl in Hl0. subst l0.
    unfold Generator.apply_overrides.
    destruct (String.eqb (Generator.mode self) "test"); [|reflexivity].
    unfold Catalog.patterns in Hin. in_cases Hin;
      injection Hin as <- <-; first [discriminate Hlvl | idtac];
      injection Hlvl as <-; reflexivity.
  - destruct (forwarder_pattern_log_spec self name cfg Hs Hk w)
      as (log & w' & E & _ & sv & lv & kw & msg & _ & Hl0 & _ & _ &
          Hl & _).
    exists log, w'. split; [exact E|]. rewrite Hl.
    unfold level_choice in Hl0. rewrite Hlvl in Hl0. subst lv. reflexivity.
Qed.

Lemma C2_witness :
  In ("inventory_warnings", catalog_pattern "inventory_warnings")
     Catalog.patterns /\
  Catalog.log_level (Catalog.pat_conditions (catalog_pattern "inventory_warnings"))
  = Some "WARN" /\
  (exists log w',
      Generator.generate_pattern_log test_generator0 "inventory_warnings"
        (catalog_pattern "inventory_warnings") world0 = Ok log w' /\
      dict_get "level" log = Some (PStr "WARN")).
Proof.
  assert (Hin : In ("inventory_warnings", catalog_pattern "inventory_warnings")
                   Catalog.patterns)
    by (do 6 right; left; reflexivity).
  split; [exact Hin|]. split; [reflexivity|].
  exact (proj1 (C2_level_follows_conditions "inventory_warnings"
                  (catalog_pattern "inventory_warnings") "WARN" Hin eq_refl)
               test_generator0 world0).
Defined.

(* ================================================================== *)
(** ** C3: the service of a pattern record *)
(* ================================================================== *)

(** The test-mode override of the stdout generator gives the records of
    [high_warn_rate] the service [user-service], which the pattern does
    not list. *)
Lemma C3_counterexample :
  exists log w',
    In ("high_warn_rate", catalog_pattern "high_warn_rate") Catalog.patterns /\
    Generator.generate_pattern_log test_generator0 "high_warn_rate"
      (catalog_pattern "high_warn_rate") world0 = Ok log w' /\
    dict_get "service" log = Some (PStr "user-service") /\
    ~ In "user-service" (Catalog.services (catalog_pattern "high_warn_rate")).
Proof.
  eexists _, _. split; [do 8 right; left; reflexivity|].
  split; [vm_compute; reflexivity|]. split; [reflexivity|].
  intros H. vm_compute in H. in_cases H; discriminate H.
Qed.

(** C3, amended.  For every catalog pattern, the service of a pattern
    record is one of the pattern's services in the broker forwarder and in
    the stdout generator, except that the stdout generator in test mode
    gives the records of [high_warn_rate] the service [user-service] of
    its override. *)
Theorem C3_service_from_pattern :
  forall (name : string) (cfg : Catalog.pattern),
    In (name, cfg) Catalog.patterns ->
    (forall (self : Generator.MockLogGenerator) (w : world),
        exists log w' service,
          Generator.generate_pattern_log self name cfg w = Ok log w' /\
          dict_get "service" log = Some (PStr service) /\
          if String.eqb (Generator.mode self) "test"
             && String.eqb name "high_warn_rate"
          then service = "user-service"
          else In service (Catalog.services cfg)) /\
    (forall (self : Forwarder.MockLogForwarder) (w : world),
        exists log w' service,
          Forwarder.generate_pattern_log self name cfg w = Ok log w' /\
          dict_get "service" log = Some (PStr service) /\
          In service (Catalog.services cfg)).
Proof.
  intros name cfg Hin.
  destruct (catalog_lists_nonempty name cfg Hin) as [Hs Hk].
  split; intros self w.
  - destruct (generator_pattern_log_spec self name cfg Hs Hk w)
      as (log & w' & E & _ & s0 & l0 & kw & ts & msg & Hs0 & _ & _ & _ &
          _ & _ & _ & Hsv & _).
    exists log, w', (snd (Generator.apply_overrides self name l0 s0)).
    split; [exact E|]. split; [exact Hsv|].
    unfold Generator.apply_overrides.
    destruct (String.eqb (Generator.mode self) "test"); simpl andb;
      [|exact Hs0].
    unfold Catalog.patterns in Hin. in_cases Hin;
      injection Hin as <- <-; simpl; simpl in Hs0; auto.
  - destruct (forwarder_pattern_log_spec self name cfg Hs Hk w)
      as (log & w' & E & _ & sv & lv & kw & msg & Hs0 & _ & _ & _ &
          _ & _ & Hsv & _).
    exists log, w', sv. auto.
Qed.

Lemma C3_witness :
  In ("slow_query", catalog_pattern "slow_query") Catalog.patterns /\
  (exists log w' service,
      Forwarder.generate_pattern_log forwarder0 "slow_query"
        (catalog_pattern "slow_query") world0 = Ok log w' /\
      dict_get "service" log = Some (PStr service) /\
      In service (Catalog.services (catalog_pattern "slow_query"))).
Proof.
  assert (Hin : In ("slow_query", catalog_pattern "slow_query") Catalog.patterns)
    by (do 16 right; left; reflexivity).
  split; [exact Hin|].
  exact (proj2 (C3_service_from_pattern "slow_query"
                  (catalog_pattern "slow_query") Hin)
               forwarder0 world0).
Defined.

(* ================================================================== *)
(** ** C6: the raw text of a record *)
(* ================================================================== *)

(** The records of the broker forwarder have no key [raw]: neither
    [generate_pattern_log] nor [generate_normal_log] of that script adds
    one. *)
Lemma C6_counterexample :
  (exists log w',
      Forwarder.generate_pattern_log forwarder0 "redis_connection_refused"
        (catalog_pattern "redis_connection_refused") world0 = Ok log w' /\
      dict_get "raw" log = None) /\
  (exists log w',
      Forwarder.generate_normal_log forwarder0 world0 = Ok log w' /\
      dict_get "raw" log = None).
Proof.
  split; eexists _, _; (split; [vm_compute; reflexivity | reflexivity]).
Qed.

(** C6, amended.  Every record of the stdout generator, pattern-derived
    or normal, carries a raw text that decodes to an object with exactly
    the keys timestamp, level, message and service, in that order, each
    equal to the field of the same name of the record.  (The records of
    the broker forwarder carry no raw text.) *)
Theorem C6_raw_round_trips :
  forall (self : Generator.MockLogGenerator),
    (forall (name : string) (cfg : Catalog.pattern) (w : world),
        Catalog.services cfg <> [] -> Catalog.keywords cfg <> [] ->
        exists log w' raw ts lv msg sv,
          Generator.generate_pattern_log self name cfg w = Ok log w' /\
          dict_get "raw" log = Some (PStr raw) /\
          dict_get "timestamp" log = Some (PStr ts) /\
          dict_get "level" log = Some (PStr lv) /\
          dict_get "message" log = Some (PStr msg) /\
          dict_get "service" log = Some (PStr sv) /\
          Json.loads raw
          = Some (PDict [ ("timestamp", PStr ts); ("level", PStr lv);
                          ("message", PStr msg); ("service", PStr sv) ])) /\
    (forall (w : world),
        Generator.services self <> [] ->
        exists log w' raw ts lv msg sv,
          Generator.generate_normal_log self w = Ok log w' /\
          dict_get "raw" log = Some (PStr raw) /\
          dict_get "timestamp" log = Some (PStr ts) /\
          dict_get "level" log = Some (PStr lv) /\
          dict_get "message" log = Some (PStr msg) /\
          dict_get "service" log = Some (PStr sv) /\
          Json.loads raw
          = Some (PDict [ ("timestamp", PStr ts); ("level", PStr lv);
                          ("message", PStr msg); ("service", PStr sv) ])).
Proof.
  intros self. split.
  - intros name cfg w Hs Hk.
    destruct (generator_pattern_log_spec self name cfg Hs Hk w)
      as (log & w' & E & _ & s0 & l0 & kw & ts & msg & _ & _ & _ & _ &
          Ht & Hl & Hm & Hsv & Hr).
    cbv zeta in Hr.
    eexists log, w', _, ts, _, msg, _.
    repeat (split; [eassumption|]).
    apply loads_raw_object.
  - intros w Hs.
    destruct (generator_normal_log_spec self Hs w)
      as (log & w' & E & _ & sv & lv & ts & msg & u1 & ms & u2 & n & u3 &
          _ & _ & _ & _ & _ & _ & _ & _ & Ht & Hl & Hm & Hsv & Hr).
    eexists log, w', _, ts, lv, msg, sv.
    repeat (split; [eassumption|]).
    apply loads_raw_object.
Qed.

Lemma C6_witness :
  Catalog.services (catalog_pattern "slow_query") <> [] /\
  Catalog.keywords (catalog_pattern "slow_query") <> [] /\
  Generator.services generator0 <> [] /\
  (exists log w' raw ts lv msg sv,
      Generator.generate_pattern_log generator0 "slow_query"
        (catalog_pattern "slow_query") world0 = Ok log w' /\
      dict_get "raw" log = Some (PStr raw) /\
      dict_get "timestamp" log = Some (PStr ts) /\
      dict_get "level" log = Some (PStr lv) /\
      dict_get "message" log = Some (PStr msg) /\
      dict_get "service" log = Some (PStr sv) /\
      Json.loads raw
      = Some (PDict [ ("timestamp", PStr ts); ("level", PStr lv);
                      ("message", PStr msg); ("service", PStr sv) ])) /\
  (exists log w' raw ts lv msg sv,
      Generator.generate_normal_log generator0 world0 = Ok log w' /\
      dict_get "raw" log = Some (PStr raw) /\
      dict_get "timestamp" log = Some (PStr ts) /\
      dict_get "level" log = Some (PStr lv) /\
      dict_get "message" log = Some (PStr msg) /\
      dict_get "service" log = Some (PStr sv) /\
      Json.loads raw
      = Some (PDict [ ("timestamp", PStr ts); ("level", PStr lv);
                      ("message", PStr msg); ("service", PStr sv) ])).
Proof.
  assert (Hs : Catalog.services (catalog_pattern "slow_query") <> [])
    by (vm_compute; discriminate).
  assert (Hk : Catalog.keywords (catalog_pattern "slow_query") <> [])
    by (vm_compute; discriminate).
  assert (Hg : Generator.services generator0 <> [])
    by (vm_compute; discriminate).
  split; [exact Hs|]. split; [exact Hk|]. split; [exact Hg|].
  split.
  - exact (proj1 (C6_raw_round_trips generator0) "slow_query"
                 (catalog_pattern "slow_query") world0 Hs Hk).
  - exact (proj2 (C6_raw_round_trips generator0) world0 Hg).
Defined.

(* ================================================================== *)
(** ** C7: what the broker sink publishes *)
(* ================================================================== *)

(** C7.  [send_log] always returns.  When the record has a service and a
    text level and the producer is connected, it hands the producer
    exactly one message: on the topic of the forwarder, under the key
    made of the service, a dash and the level as the record has them,
    with a value whose [message] is the JSON encoding of the whole record,
    whose [level] is the level of the record in lower case, and whose
    [stream], [tag] and [source_type] are the three fixed pipeline texts.
    In every other case it hands the producer nothing. *)
Theorem C7_published_envelope :
  forall (self : Forwarder.MockLogForwarder) (log_entry : pydict) (w : world),
    exists w',
      Forwarder.send_log self log_entry w = Ok tt w' /\
      match dict_get "service" log_entry, dict_get "level" log_entry with
      | Some service, Some (PStr level) =>
          if producer w then
            exists envelope,
              published (trace w')
              = (published (trace w)
                 ++ [(Forwarder.topic self,
                      (py_str service ++ "-" ++ level)%string,
                      PDict envelope)])%list /\
              dict_get "message" envelope
              = Some (PStr (Json.dumps (PDict log_entry))) /\
              dict_get "level" envelope = Some (PStr (Py.lower level)) /\
              dict_get "stream" envelope = Some (PStr "stdout") /\
              dict_get "tag" envelope
              = Some (PStr "kubernetes.var.log.containers") /\
              dict_get "source_type" envelope = Some (PStr "kubernetes_logs")
          else published (trace w') = published (trace w)
      | _, _ => published (trace w') = published (trace w)
      end.
Proof.
  intros self log_entry w.
  unfold Forwarder.send_log, try_except, Forwarder.transformed_log,
    Forwarder.get_default, Forwarder.producer_send, getitem, bind,
    utcnow_str, get_producer, log_error, log_debug, emit.
  destruct (dict_get "level" log_entry) as [[level|d]|] eqn:El;
    destruct (dict_get "service" log_entry) as [service|] eqn:Es;
    cbn [Forwarder.lower_of ret raise producer trace rnd clock str_hash
         running broker_up];
    try (eexists; split; [reflexivity|];
         cbn [trace]; rewrite published_app; cbn [published];
         apply app_nil_r).
  destruct (producer w) eqn:Ep.
  - destruct (dict_get "message" log_entry) as [[m|dm]|] eqn:Em;
      cbn [Forwarder.first_100 ret raise trace];
      (eexists; split; [reflexivity|]);
      cbn [trace]; rewrite ?published_app; cbn [published];
      rewrite ?app_nil_r;
      (eexists; split; [reflexivity|]); repeat split; reflexivity.
  - eexists; split; [reflexivity|].
    cbn [trace]. rewrite published_app. cbn [published]. apply app_nil_r.
Qed.

(** A record of the forwarder on a connected producer: the message that
    goes out. *)
Example C7_published_sample :
  match (log <- Forwarder.generate_normal_log forwarder0 ;;
         Forwarder.send_log forwarder0 log) world0 with
  | Ok _ w' =>
      map (fun m => fst m) (published (trace w'))
      = [("application-logs", "payment-service-INFO")]
  | Raise _ _ => False
  end.
Proof. vm_compute. reflexivity. Qed.

(* ================================================================== *)
(** ** Counting the records that leave *)
(* ================================================================== *)

Section Counting.

Variable sel : event -> bool.
Variable inv : bool -> Prop.

Lemma count_of_app (a b : list event) :
  count_of sel (a ++ b) = (count_of sel a + count_of sel b)%nat.
Proof.
  unfold count_of. rewrite filter_app, length_app. reflexivity.
Qed.

Lemma adds_ret : adds sel inv (ret tt) 0.
Proof. intros w Hw. exists w. auto. Qed.

Lemma adds_seq (m k : M unit) (a b : nat) :
  adds sel inv m a -> adds sel inv k b ->
  adds sel inv (bind m (fun _ => k)) (a + b).
Proof.
  intros Hm Hk w Hw. destruct (Hm w Hw) as (w1 & E1 & I1 & C1).
  destruct (Hk w1 I1) as (w2 & E2 & I2 & C2).
  exists w2. unfold bind. rewrite E1. repeat split; auto. lia.
Qed.

Lemma adds_gen {A} (m : M A) (f : A -> M unit) (P : A -> Prop) (n : nat) :
  gen m P -> (forall a, P a -> adds sel inv (f a) n) ->
  adds sel inv (bind m f) n.
Proof.
  intros Hm Hf w Hw.
  destruct (Hm w) as (a & w1 & E1 & (_ & _ & Fp & _ & Ft) & Pa).
  assert (I1 : inv (producer w1)) by (rewrite Fp; exact Hw).
  destruct (Hf a Pa w1 I1) as (w2 & E2 & I2 & C2).
  exists w2. unfold bind. rewrite E1. repeat split; auto.
  rewrite C2, Ft. reflexivity.
Qed.

Lemma adds_emit (e : event) :
  adds sel inv (emit e) (if sel e then 1 else 0).
Proof.
  intros w Hw. eexists. split; [reflexivity|]. split; [exact Hw|].
  cbn [trace]. rewrite count_of_app. f_equal.
  unfold count_of. simpl filter. destruct (sel e); reflexivity.
Qed.

Lemma adds_sleep (ms : Z) :
  0 <= ms <= 9223372036854 -> sel (Sleep ms) = false ->
  adds sel inv (sleep ms) 0.
Proof.
  intros Hms Hsel. rewrite (sleep_accepts ms Hms).
  pose proof (adds_emit (Sleep ms)) as H. rewrite Hsel in H. exact H.
Qed.

Lemma adds_log_info (s : string) :
  sel (LogInfo s) = false -> adds sel inv (log_info s) 0.
Proof.
  intros Hsel. pose proof (adds_emit (LogInfo s)) as H.
  rewrite Hsel in H. exact H.
Qed.

Lemma adds_repeat_n (n a : nat) (body : M unit) :
  adds sel inv body a -> adds sel inv (repeat_n n body) (n * a).
Proof.
  intros Hb. induction n as [|n IH]; simpl.
  - apply adds_ret.
  - apply adds_seq; assumption.
Qed.

Lemma adds_for_each {A} (xs : list A) (body : A -> M unit) (a : nat) :
  (forall x, In x xs -> adds sel inv (body x) a) ->
  adds sel inv (for_each xs body) (List.length xs * a).
Proof.
  intros Hb. induction xs as [|x xs IH]; simpl.
  - apply adds_ret.
  - apply adds_seq.
    + apply Hb. left. reflexivity.
    + apply IH. intros y Hy. apply Hb. right. exact Hy.
Qed.

Lemma adds_eq (m : M unit) (a b : nat) :
  a = b -> adds sel inv m a -> adds sel inv m b.
Proof. intros <-. auto. Qed.

End Counting.

Lemma count_stdout_lines (tr : list event) :
  count_of is_stdout tr = List.length (stdout_lines tr).
Proof.
  unfold count_of. induction tr as [|e tr IH]; [reflexivity|].
  destruct e; simpl; auto.
Qed.

Lemma count_published (tr : list event) :
  count_of is_send tr = List.length (published tr).
Proof.
  unfold count_of. induction tr as [|e tr IH]; [reflexivity|].
  destruct e; simpl; auto.
Qed.

(* ================================================================== *)
(** ** Bursts of the stdout generator *)
(* ================================================================== *)

Section GeneratorBursts.

Import Generator.

Variable self : MockLogGenerator.

Lemma output_log_adds (log : pydict) :
  adds is_stdout any_flag (output_log log) 1.
Proof.
  intros w _. eexists. split; [reflexivity|]. split; [exact I|].
  cbn [trace]. rewrite count_of_app. reflexivity.
Qed.

(** One turn of the loop of a burst: one line and the pause. *)
Lemma generator_burst_turn (name : string) (cfg : Catalog.pattern) :
  Catalog.services cfg <> [] -> Catalog.keywords cfg <> [] ->
  adds is_stdout any_flag
       (log <- generate_pattern_log self name cfg ;;
        output_log log ;;; sleep 100) 1.
Proof.
  intros Hs Hk.
  eapply adds_gen; [apply (generator_pattern_log_spec self name cfg Hs Hk)|].
  intros log _.
  apply (adds_seq _ _ _ _ 1 0); [apply output_log_adds|].
  apply adds_sleep; [lia | reflexivity].
Qed.

(** A burst with a count that was worked out emits that many lines. *)
Lemma generator_burst_loop (name : string) (cfg : Catalog.pattern)
      (count : Z) :
  Catalog.services cfg <> [] -> Catalog.keywords cfg <> [] ->
  adds is_stdout any_flag
       (log_info ("Generating " ++ Py.str_of_int count
                    ++ " logs for pattern: " ++ name) ;;;
        repeat_n (Z.to_nat count)
          (log <- generate_pattern_log self name cfg ;;
           output_log log ;;; sleep 100))
       (Z.to_nat count).
Proof.
  intros Hs Hk.
  eapply adds_eq; [|apply (adds_seq _ _ _ _ 0 (Z.to_nat count * 1))].
  - lia.
  - apply adds_log_info. reflexivity.
  - apply adds_repeat_n. apply generator_burst_turn; assumption.
Qed.

(** A burst without a count in test mode: two lines. *)
Lemma generator_test_burst (name : string) (cfg : Catalog.pattern) :
  mode self = "test" ->
  Catalog.lookup name (patterns self) = Some cfg ->
  Catalog.services cfg <> [] -> Catalog.keywords cfg <> [] ->
  adds is_stdout any_flag (generate_pattern_burst self name None) 2.
Proof.
  intros Hmode Hl Hs Hk. unfold generate_pattern_burst.
  rewrite Hl, Hmode.
  change (String.eqb "test" "test") with true. cbv iota.
  eapply adds_gen; [apply (gen_ret cfg (fun c => c = cfg)); reflexivity|].
  intros c ->.
  eapply adds_gen; [apply (gen_ret 2 (fun c => c = 2)); reflexivity|].
  intros c ->.
  apply (generator_burst_loop name cfg 2 Hs Hk).
Qed.

(** A burst without a count in another mode: the threshold and one to
    three lines more. *)
Lemma generator_production_burst (name : string) (cfg : Catalog.pattern)
      (w : world) :
  String.eqb (mode self) "test" = false ->
  Catalog.lookup name (patterns self) = Some cfg ->
  Catalog.services cfg <> [] -> Catalog.keywords cfg <> [] ->
  0 <= Catalog.threshold_or_5 cfg ->
  exists w' r,
    generate_pattern_burst self name None w = Ok tt w' /\
    1 <= r <= 3 /\
    Z.of_nat (List.length (stdout_lines (trace w')))
    = Z.of_nat (List.length (stdout_lines (trace w)))
      + Catalog.threshold_or_5 cfg + r.
Proof.
  intros Hmode Hl Hs Hk Hth. unfold generate_pattern_burst.
  rewrite Hl, Hmode.
  unfold bind at 1. unfold ret at 1.
  unfold bind at 1.
  destruct (gen_randint 1 3 ltac:(lia) w) as (r & w1 & E1 & F1 & Hr).
  unfold bind at 1. rewrite E1. unfold ret at 1.
  destruct (generator_burst_loop name cfg (Catalog.threshold_or_5 cfg + r)
              Hs Hk w1 I) as (w2 & E2 & _ & C2).
  exists w2, r. split; [exact E2|]. split; [exact Hr|].
  rewrite !count_stdout_lines in C2.
  destruct F1 as (_ & _ & _ & _ & Ft). rewrite Ft in C2.
  rewrite C2. rewrite Nat2Z.inj_add, Z2Nat.id by lia. lia.
Qed.

End GeneratorBursts.

(* ================================================================== *)
(** ** Iterating a set *)
(* ================================================================== *)

Section SetIteration.

Variable h : string -> Z.

Lemma insert_by_In (x y : string) (l : list string) :
  In y (insert_by h x l) <-> y = x \/ In y l.
Proof.
  induction l as [|z l IH]; simpl.
  - intuition.
  - destruct (h x <=? h z); simpl; intuition.
Qed.

Lemma insert_by_length (x : string) (l : list string) :
  List.length (insert_by h x l) = S (List.length l).
Proof.
  induction l as [|z l IH]; simpl; [reflexivity|].
  destruct (h x <=? h z); simpl; auto.
Qed.

Lemma set_iter_In (y : string) (xs : list string) :
  In y (set_iter h xs) -> In y xs.
Proof.
  induction xs as [|x xs IH]; simpl; [auto|].
  destruct (existsb (String.eqb x) (set_iter h xs)).
  - auto.
  - rewrite insert_by_In. intuition.
Qed.

(** A list without repetition keeps all its elements. *)
Lemma set_iter_length (xs : list string) :
  NoDup xs -> List.length (set_iter h xs) = List.length xs.
Proof.
  induction 1 as [|x xs Hx Hnd IH]; simpl; [reflexivity|].
  destruct (existsb (String.eqb x) (set_iter h xs)) eqn:E.
  - apply existsb_exists in E. destruct E as (y & Hy & Exy).
    apply String.eqb_eq in Exy. subst y.
    apply set_iter_In in Hy. contradiction.
  - rewrite insert_by_length, IH. reflexivity.
Qed.

End SetIteration.

(* ================================================================== *)
(** ** The test driver of the stdout generator *)
(* ================================================================== *)

Section GeneratorTestDriver.

Import Generator.

Variable self : MockLogGenerator.
Hypothesis mode_test : mode self = "test".
Hypothesis real_catalog : patterns self = Catalog.patterns.

Lemma generator_test_burst_catalog (name : string) (cfg : Catalog.pattern) :
  In (name, cfg) Catalog.patterns ->
  adds is_stdout any_flag (generate_pattern_burst self name None) 2.
Proof.
  intros Hin. destruct (catalog_lists_nonempty name cfg Hin) as [Hs Hk].
  apply (generator_test_burst self name cfg mode_test); auto.
  rewrite real_catalog. apply catalog_lookup. exact Hin.
Qed.

Lemma name_in_catalog (name : string) :
  In name (map fst Catalog.patterns) ->
  exists cfg, In (name, cfg) Catalog.patterns.
Proof.
  intros H. apply in_map_iff in H. destruct H as ([n cfg] & <- & H).
  exists cfg. exact H.
Qed.

Lemma generator_test_burst_named (name : string) :
  In name (map fst Catalog.patterns) ->
  adds is_stdout any_flag (generate_pattern_burst self name None) 2.
Proof.
  intros H. destruct (name_in_catalog name H) as [cfg Hin].
  apply (generator_test_burst_catalog name cfg Hin).
Qed.

Lemma gen_get_str_hash : gen get_str_hash (fun _ => True).
Proof.
  intros w. exists (str_hash w), w. split; [reflexivity|].
  split; [apply frame_refl | exact I].
Qed.

(** The whole pass: two lines for each of the nineteen patterns, in
    whatever order the set of the remaining names is iterated. *)
Lemma generator_test_driver :
  adds is_stdout any_flag (test_all_patterns self) 38.
Proof.
  unfold test_all_patterns. rewrite real_catalog.
  apply (adds_seq _ _ _ _ 0 38); [apply adds_log_info; reflexivity|].
  apply (adds_seq _ _ _ _ 24 14).
  - apply (adds_for_each _ _ e2e_test_patterns _ 2).
    intros x Hx.
    assert (Hin : In x (map fst Catalog.patterns)).
    { unfold e2e_test_patterns in Hx. in_cases Hx; subst x;
        vm_compute; auto 30. }
    assert (Hk : has_key x Catalog.patterns = true).
    { unfold e2e_test_patterns in Hx. in_cases Hx; subst x; reflexivity. }
    rewrite Hk.
    apply (adds_seq _ _ _ _ 0 2); [apply adds_log_info; reflexivity|].
    apply (adds_seq _ _ _ _ 2 0);
      [apply generator_test_burst_named; exact Hin|].
    apply adds_sleep; [lia | reflexivity].
  - eapply adds_gen; [apply gen_get_str_hash|]. intros h _.
    apply (adds_seq _ _ _ _ 14 0); [|apply adds_log_info; reflexivity].
    set (rest := filter (fun k => negb (existsb (String.eqb k) e2e_test_patterns))
                        (map fst Catalog.patterns)).
    assert (Hrest : rest = [ "payment_failures"; "service_timeouts";
                             "critical_namespace_alerts"; "inventory_warnings";
                             "notification_failures"; "audit_issues";
                             "cross_service_errors" ])
      by (vm_compute; reflexivity).
    assert (Hnd : NoDup rest).
    { rewrite Hrest. repeat constructor; simpl; intuition discriminate. }
    assert (Hlen : List.length (set_iter h rest) = 7%nat).
    { rewrite (set_iter_length h rest Hnd), Hrest. reflexivity. }
    eapply adds_eq;
      [|apply (adds_for_each _ _ (set_iter h rest) _ 2)].
    + rewrite Hlen. reflexivity.
    + intros x Hx. apply set_iter_In in Hx.
      assert (Hin : In x (map fst Catalog.patterns)).
      { rewrite Hrest in Hx. in_cases Hx; subst x; vm_compute; auto 30. }
      apply (adds_seq _ _ _ _ 0 2); [apply adds_log_info; reflexivity|].
      apply (adds_seq _ _ _ _ 2 0);
        [apply generator_test_burst_named; exact Hin|].
      apply adds_sleep; [lia | reflexivity].
Qed.

End GeneratorTestDriver.

(* ================================================================== *)
(** ** Bursts of the broker forwarder *)
(* ================================================================== *)

Section ForwarderBursts.

Import Forwarder.

Variable self : MockLogForwarder.

(** A record with a text service, level and message goes out as one
    message on a connected producer. *)
Lemma send_log_adds (log : pydict) (sv lv msg : string) :
  dict_get "service" log = Some (PStr sv) ->
  dict_get "level" log = Some (PStr lv) ->
  dict_get "message" log = Some (PStr msg) ->
  adds is_send connected (send_log self log) 1.
Proof.
  intros Hs Hl Hm w Hw. unfold connected in Hw.
  unfold send_log, try_except, transformed_log, get_default, producer_send,
    getitem, bind, utcnow_str, get_producer, log_error, log_debug, emit.
  rewrite Hs, Hl, Hm.
  cbn [lower_of first_100 ret raise producer trace].
  rewrite Hw.
  eexists. split; [reflexivity|]. split; [reflexivity|].
  cbn [trace]. rewrite !count_of_app. unfold count_of. simpl. lia.
Qed.

Lemma forwarder_burst_turn (name : string) (cfg : Catalog.pattern) :
  Catalog.services cfg <> [] -> Catalog.keywords cfg <> [] ->
  adds is_send connected
       (log <- generate_pattern_log self name cfg ;;
        send_log self log ;;; sleep 100) 1.
Proof.
  intros Hs Hk.
  eapply adds_gen; [apply (forwarder_pattern_log_spec self name cfg Hs Hk)|].
  intros log (sv & lv & kw & msg & _ & _ & _ & _ & Hl & Hm & Hsv & _).
  apply (adds_seq _ _ _ _ 1 0); [apply (send_log_adds log sv lv msg); auto|].
  apply adds_sleep; [lia | reflexivity].
Qed.

(** A burst publishes as many messages as the count it is given. *)
Lemma forwarder_burst (name : string) (cfg : Catalog.pattern) (count : Z) :
  Catalog.lookup name (patterns self) = Some cfg ->
  Catalog.services cfg <> [] -> Catalog.keywords cfg <> [] ->
  adds is_send connected (generate_pattern_burst self name count)
       (Z.to_nat count).
Proof.
  intros Hl Hs Hk. unfold generate_pattern_burst. rewrite Hl.
  eapply adds_gen; [apply (gen_ret cfg (fun c => c = cfg)); reflexivity|].
  intros c ->.
  eapply adds_eq; [|apply (adds_seq _ _ _ _ 0 (Z.to_nat count * 1))].
  - lia.
  - apply adds_log_info. reflexivity.
  - apply adds_repeat_n. apply forwarder_burst_turn; assumption.
Qed.

Lemma adds_for_each_sum {A} (sel : event -> bool) (inv : bool -> Prop)
      (xs : list A) (body : A -> M unit) (f : A -> nat) :
  (forall x, In x xs -> adds sel inv (body x) (f x)) ->
  adds sel inv (for_each xs body) (list_sum (map f xs)).
Proof.
  intros Hb. induction xs as [|x xs IH]; simpl.
  - apply adds_ret.
  - apply adds_seq.
    + apply Hb. left. reflexivity.
    + apply IH. intros y Hy. apply Hb. right. exact Hy.
Qed.

Hypothesis real_catalog : patterns self = Catalog.patterns.

(** The test pass: threshold + 2 messages for each pattern, 136 in all. *)
Lemma forwarder_test_driver :
  adds is_send connected (test_all_patterns self) 136.
Proof.
  unfold test_all_patterns. rewrite real_catalog.
  apply (adds_seq _ _ _ _ 0 136); [apply adds_log_info; reflexivity|].
  apply (adds_seq _ _ _ _ 136 0); [|apply adds_log_info; reflexivity].
  eapply adds_eq;
    [|apply (adds_for_each_sum _ _ Catalog.patterns _
               (fun item => Z.to_nat (Catalog.threshold_or_5 (snd item) + 2)))].
  - vm_compute. reflexivity.
  - intros [name cfg] Hin.
    destruct (catalog_lists_nonempty name cfg Hin) as [Hs Hk].
    cbn [snd].
    eapply adds_eq;
      [|apply (adds_seq _ _ _ _ 0
                 (Z.to_nat (Catalog.threshold_or_5 cfg + 2) + 0))].
    + lia.
    + apply adds_log_info. reflexivity.
    + apply adds_seq; [|apply adds_sleep; [lia | reflexivity]].
      apply (forwarder_burst name cfg); auto.
      rewrite real_catalog. apply catalog_lookup. exact Hin.
Qed.

End ForwarderBursts.

(* ================================================================== *)
(** ** C4: the size of a burst in test mode *)
(* ================================================================== *)

(** The test pass of the broker forwarder gives every burst the count
    threshold + 2: twelve messages for [high_error_rate], 136 for the
    nineteen patterns, where two per pattern would be 38. *)
Lemma C4_counterexample :
  Catalog.threshold_or_5 (catalog_pattern "high_error_rate") = 10 /\
  match Forwarder.generate_pattern_burst forwarder0 "high_error_rate"
          (Catalog.threshold_or_5 (catalog_pattern "high_error_rate") + 2)
          world0 with
  | Ok _ w' => List.length (published (trace w')) = 12%nat
  | Raise _ _ => False
  end /\
  match Forwarder.test_all_patterns forwarder0 world0 with
  | Ok _ w' =>
      List.length (published (trace w')) = 136%nat /\
      nth_error (trace w') 1
      = Some (LogInfo "Testing high_error_rate: generating 12 logs")
  | Raise _ _ => False
  end.
Proof.
  split; [reflexivity|]. split.
  - vm_compute. reflexivity.
  - vm_compute. split; reflexivity.
Qed.

(** C4, amended.  In test mode, a burst of the stdout generator for any
    catalog pattern with no explicit count emits exactly 2 records, and
    its test pass, whose bursts are all of that kind, emits 2 records for
    each of the 19 patterns.  The broker forwarder has no burst without a
    count: its test pass asks for threshold + 2 records per pattern
    (threshold defaulting to 5) and publishes that many, 136 in all, on a
    connected producer. *)
Theorem C4_test_burst_counts :
  (forall (self : Generator.MockLogGenerator),
      Generator.mode self = "test" ->
      Generator.patterns self = Catalog.patterns ->
      (forall (name : string) (cfg : Catalog.pattern) (w : world),
          In (name, cfg) Catalog.patterns ->
          exists w',
            Generator.generate_pattern_burst self name None w = Ok tt w' /\
            List.length (stdout_lines (trace w'))
            = (List.length (stdout_lines (trace w)) + 2)%nat) /\
      (forall (w : world),
          exists w',
            Generator.test_all_patterns self w = Ok tt w' /\
            List.length (stdout_lines (trace w'))
            = (List.length (stdout_lines (trace w))
               + 2 * List.length Catalog.patterns)%nat)) /\
  (forall (self : Forwarder.MockLogForwarder),
      Forwarder.patterns self = Catalog.patterns ->
      (forall (name : string) (cfg : Catalog.pattern) (w : world),
          In (name, cfg) Catalog.patterns -> producer w = true ->
          exists w',
            Forwarder.generate_pattern_burst self name
              (Catalog.threshold_or_5 cfg + 2) w = Ok tt w' /\
            Z.of_nat (List.length (published (trace w')))
            = Z.of_nat (List.length (published (trace w)))
              + Catalog.threshold_or_5 cfg + 2) /\
      (forall (w : world),
          producer w = true ->
          exists w',
            Forwarder.test_all_patterns self w = Ok tt w' /\
            List.length (published (trace w'))
            = (List.length (published (trace w)) + 136)%nat)).
Proof.
  split.
  - intros self Hmode Hcat. split.
    + intros name cfg w Hin.
      destruct (generator_test_burst_catalog self Hmode Hcat name cfg Hin w I)
        as (w' & E & _ & C).
      exists w'. split; [exact E|].
      rewrite !count_stdout_lines in C. exact C.
    + intros w.
      destruct (generator_test_driver self Hmode Hcat w I) as (w' & E & _ & C).
      exists w'. split; [exact E|].
      rewrite !count_stdout_lines in C. exact C.
  - intros self Hcat. split.
    + intros name cfg w Hin Hw.
      destruct (catalog_lists_nonempty name cfg Hin) as [Hs Hk].
      pose proof (catalog_thresholds name cfg Hin) as Hth.
      assert (Hlk : Catalog.lookup name (Forwarder.patterns self) = Some cfg)
        by (rewrite Hcat; apply catalog_lookup; exact Hin).
      destruct (forwarder_burst self name cfg (Catalog.threshold_or_5 cfg + 2)
                  Hlk Hs Hk w Hw) as (w' & E & _ & C).
      exists w'. split; [exact E|].
      rewrite !count_published in C. rewrite C.
      rewrite Nat2Z.inj_add, Z2Nat.id by lia. lia.
    + intros w Hw.
      destruct (forwarder_test_driver self Hcat w Hw) as (w' & E & _ & C).
      exists w'. split; [exact E|].
      rewrite !count_published in C. exact C.
Qed.

Lemma C4_witness :
  Generator.mode test_generator0 = "test" /\
  Generator.patterns test_generator0 = Catalog.patterns /\
  In ("redis_connection_refused", catalog_pattern "redis_connection_refused")
     Catalog.patterns /\
  (exists w',
      Generator.generate_pattern_burst test_generator0
        "redis_connection_refused" None world0 = Ok tt w' /\
      List.length (stdout_lines (trace w'))
      = (List.length (stdout_lines (trace world0)) + 2)%nat) /\
  Forwarder.patterns forwarder0 = Catalog.patterns /\
  producer world0 = true /\
  (exists w',
      Forwarder.test_all_patterns forwarder0 world0 = Ok tt w' /\
      List.length (published (trace w'))
      = (List.length (published (trace world0)) + 136)%nat).
Proof.
  assert (Hin : In ("redis_connection_refused",
                    catalog_pattern "redis_connection_refused")
                   Catalog.patterns)
    by (do 13 right; left; reflexivity).
  split; [reflexivity|]. split; [reflexivity|]. split; [exact Hin|].
  split.
  - exact (proj1 (proj1 C4_test_burst_counts test_generator0 eq_refl eq_refl)
                 "redis_connection_refused"
                 (catalog_pattern "redis_connection_refused") world0 Hin).
  - split; [reflexivity|]. split; [reflexivity|].
    exact (proj2 (proj2 C4_test_burst_counts forwarder0 eq_refl)
                 world0 eq_refl).
Defined.

(* ================================================================== *)
(** ** The continuous loop of the stdout generator *)
(* ================================================================== *)

Section GeneratorLoop.

Import Generator.

Variable self : MockLogGenerator.

Lemma keeps_generator_base_log (service level : string) :
  keeps (generate_base_log self service level).
Proof. unfold generate_base_log. keeps_walk. Qed.

Lemma keeps_add_raw (log : pydict) : keeps (add_raw log).
Proof. unfold add_raw. keeps_walk. Qed.

Lemma keeps_generator_pattern_log (name : string) (cfg : Catalog.pattern) :
  keeps (generate_pattern_log self name cfg).
Proof.
  unfold generate_pattern_log, test_messages, production_messages.
  keeps_walk; first [apply keeps_generator_base_log | apply keeps_add_raw].
Qed.

Lemma keeps_generator_normal_log : keeps (generate_normal_log self).
Proof.
  unfold generate_normal_log, normal_messages.
  keeps_walk; first [apply keeps_generator_base_log | apply keeps_add_raw].
Qed.

Lemma keeps_output_log (log : pydict) : keeps (output_log log).
Proof. unfold output_log. keeps_walk. Qed.

Lemma keeps_generator_burst (name : string) (count : option Z) :
  keeps (generate_pattern_burst self name count).
Proof.
  unfold generate_pattern_burst.
  keeps_walk;
    first [apply keeps_generator_pattern_log | apply keeps_output_log].
Qed.

Lemma keeps_normal_logs (n : nat) : keeps (normal_logs n self).
Proof.
  induction n as [|n IH]; simpl; [apply keeps_ret|].
  keeps_walk;
    first [apply keeps_generator_normal_log | apply keeps_output_log
          | exact IH].
Qed.

Lemma keeps_burst_check (c : Z) : keeps (burst_check self c).
Proof.
  unfold burst_check.
  keeps_walk; apply keeps_generator_burst.
Qed.

(** The handler of a cycle: the error is logged and ten seconds pass. *)
Lemma on_cycle_error_run (e : exc) (w : world) :
  on_cycle_error e w = Ok tt (backed_off e w).
Proof.
  unfold on_cycle_error. rewrite (sleep_accepts 10000) by lia.
  unfold log_error, emit, bind, backed_off.
  cbn [trace rnd clock str_hash running producer broker_up].
  rewrite <- app_assoc. reflexivity.
Qed.

(** One turn of the loop, in each of the three ways the [try] block can
    end. *)
Lemma loop_turn_first_raises (fuel : nat) (c : Z) (w w1 : world) (e : exc) :
  running w = true ->
  normal_logs 5 self w = Raise e w1 ->
  continuous_loop (S fuel) self c w
  = continuous_loop fuel self c (backed_off e w1).
Proof.
  intros Hr H1.
  change (continuous_loop (S fuel) self c w)
    with (bind get_running
            (fun r => if negb r then ret (Done tt)
                      else
                        bind (try_except
                                (bind (normal_logs 5 self) (fun _ => ret true))
                                (fun e => bind (on_cycle_error e)
                                               (fun _ => ret false)))
                             (fun first_ok : bool =>
                                if first_ok
                                then bind (try_except
                                             (burst_check self (c + 1))
                                             on_cycle_error)
                                          (fun _ => continuous_loop fuel self
                                                                    (c + 1))
                                else continuous_loop fuel self c)) w).
  unfold bind at 1. unfold get_running. rewrite Hr. cbn [negb].
  unfold bind at 1. unfold try_except at 1. unfold bind at 1.
  rewrite H1. unfold bind at 1. rewrite on_cycle_error_run. reflexivity.
Qed.

Lemma loop_turn_second_raises (fuel : nat) (c : Z) (w w1 w2 : world)
      (e : exc) :
  running w = true ->
  normal_logs 5 self w = Ok tt w1 ->
  burst_check self (c + 1) w1 = Raise e w2 ->
  continuous_loop (S fuel) self c w
  = continuous_loop fuel self (c + 1) (backed_off e w2).
Proof.
  intros Hr H1 H2.
  change (continuous_loop (S fuel) self c w)
    with (bind get_running
            (fun r => if negb r then ret (Done tt)
                      else
                        bind (try_except
                                (bind (normal_logs 5 self) (fun _ => ret true))
                                (fun e => bind (on_cycle_error e)
                                               (fun _ => ret false)))
                             (fun first_ok : bool =>
                                if first_ok
                                then bind (try_except
                                             (burst_check self (c + 1))
                                             on_cycle_error)
                                          (fun _ => continuous_loop fuel self
                                                                    (c + 1))
                                else continuous_loop fuel self c)) w).
  unfold bind at 1. unfold get_running. rewrite Hr. cbn [negb].
  unfold bind at 1. unfold try_except at 1. unfold bind at 1.
  rewrite H1. unfold ret at 1.
  unfold bind at 1. unfold try_except at 1. rewrite H2.
  rewrite on_cycle_error_run. reflexivity.
Qed.

Lemma loop_turn_no_exception (fuel : nat) (c : Z) (w w1 w2 : world) :
  running w = true ->
  normal_logs 5 self w = Ok tt w1 ->
  burst_check self (c + 1) w1 = Ok tt w2 ->
  continuous_loop (S fuel) self c w = continuous_loop fuel self (c + 1) w2.
Proof.
  intros Hr H1 H2.
  change (continuous_loop (S fuel) self c w)
    with (bind get_running
            (fun r => if negb r then ret (Done tt)
                      else
                        bind (try_except
                                (bind (normal_logs 5 self) (fun _ => ret true))
                                (fun e => bind (on_cycle_error e)
                                               (fun _ => ret false)))
                             (fun first_ok : bool =>
                                if first_ok
                                then bind (try_except
                                             (burst_check self (c + 1))
                                             on_cycle_error)
                                          (fun _ => continuous_loop fuel self
                                                                    (c + 1))
                                else continuous_loop fuel self c)) w).
  unfold bind at 1. unfold get_running. rewrite Hr. cbn [negb].
  unfold bind at 1. unfold try_except at 1. unfold bind at 1.
  rewrite H1. unfold ret at 1.
  unfold bind at 1. unfold try_except at 1. rewrite H2.
  reflexivity.
Qed.

Lemma loop_stops_when_cleared (fuel : nat) (c : Z) (w : world) :
  running w = false ->
  continuous_loop (S fuel) self c w = Ok (Done tt) w.
Proof.
  intros Hr. simpl. unfold bind, get_running. rewrite Hr. reflexivity.
Qed.

(** However many turns are granted, the loop is still turning. *)
Lemma loop_never_leaves (fuel : nat) :
  forall (c : Z) (w : world),
    running w = true ->
    exists w', continuous_loop fuel self c w = Ok Looping w' /\
               running w' = true.
Proof.
  induction fuel as [|fuel IH]; intros c w Hr.
  - exists w. split; [reflexivity | exact Hr].
  - pose proof (keeps_normal_logs 5 w) as K1.
    destruct (normal_logs 5 self w) as [[] w1|e w1] eqn:E1; simpl in K1.
    + pose proof (keeps_burst_check (c + 1) w1) as K2.
      destruct (burst_check self (c + 1) w1) as [[] w2|e w2] eqn:E2;
        simpl in K2.
      * rewrite (loop_turn_no_exception fuel c w w1 w2 Hr E1 E2).
        apply IH. congruence.
      * rewrite (loop_turn_second_raises fuel c w w1 w2 e Hr E1 E2).
        apply IH. unfold backed_off. simpl. congruence.
    + rewrite (loop_turn_first_raises fuel c w w1 e Hr E1).
      apply IH. unfold backed_off. simpl. congruence.
Qed.

End GeneratorLoop.

(* ================================================================== *)
(** ** The continuous loop of the broker forwarder *)
(* ================================================================== *)

Section ForwarderLoop.

Import Forwarder.

Lemma safe_ret {A} (a : A) : safe (ret a).
Proof. intros w. exists a, w. auto. Qed.

Lemma safe_bind {A B} (m : M A) (f : A -> M B) :
  safe m -> (forall a, safe (f a)) -> safe (bind m f).
Proof.
  intros Hm Hf w. destruct (Hm w) as (a & w1 & E1 & R1).
  destruct (Hf a w1) as (b & w2 & E2 & R2).
  exists b, w2. unfold bind. rewrite E1. split; [exact E2 | congruence].
Qed.

Lemma safe_gen_bind {A B} (m : M A) (f : A -> M B) (P : A -> Prop) :
  gen m P -> (forall a, P a -> safe (f a)) -> safe (bind m f).
Proof.
  intros Hm Hf w. destruct (Hm w) as (a & w1 & E1 & (_ & R1 & _) & Pa).
  destruct (Hf a Pa w1) as (b & w2 & E2 & R2).
  exists b, w2. unfold bind. rewrite E1. split; [exact E2 | congruence].
Qed.

Lemma safe_emit (e : event) : safe (emit e).
Proof. intros w. eexists _, _. split; reflexivity. Qed.

Lemma safe_sleep (ms : Z) : 0 <= ms <= 9223372036854 -> safe (sleep ms).
Proof. intros H. rewrite (sleep_accepts ms H). apply safe_emit. Qed.

Lemma safe_repeat_n (n : nat) (body : M unit) :
  safe body -> safe (repeat_n n body).
Proof.
  intros Hb. induction n as [|n IH]; simpl; [apply safe_ret|].
  apply safe_bind; auto.
Qed.

(** [send_log] catches whatever goes wrong inside it. *)
Lemma safe_send_log (self : MockLogForwarder) (log : pydict) :
  safe (send_log self log).
Proof.
  intros w.
  unfold send_log, try_except, transformed_log, get_default, producer_send,
    getitem, bind, utcnow_str, get_producer, log_error, log_debug, emit.
  destruct (dict_get "level" log) as [[level|d]|];
    destruct (dict_get "service" log) as [service|];
    cbn [lower_of ret raise producer trace rnd clock str_hash running
         broker_up];
    try (eexists _, _; split; reflexivity).
  destruct (producer w);
    [destruct (dict_get "message" log) as [[m|dm]|] |];
    cbn [first_100 ret raise trace running];
    eexists _, _; split; reflexivity.
Qed.

Variable kafka_broker topic : string.

Lemma safe_forwarder_normal_logs (n : nat) :
  safe (normal_logs n (init kafka_broker topic)).
Proof.
  induction n as [|n IH]; simpl; [apply safe_ret|].
  intros w. unfold bind at 1. unfold get_running.
  destruct (running w) eqn:Hr; cbn [negb].
  - revert w Hr.
    assert (Hs : safe
                   (log <- generate_normal_log (init kafka_broker topic) ;;
                    send_log (init kafka_broker topic) log ;;;
                    pause <- uniform_ms 500 2000 ;;
                    sleep pause ;;;
                    normal_logs n (init kafka_broker topic))).
    { eapply (safe_gen_bind _ _ _
                (forwarder_normal_log_spec (init kafka_broker topic)
                   ltac:(discriminate))).
      intros log _. apply safe_bind; [apply safe_send_log|]. intros _.
      eapply safe_gen_bind; [apply (gen_uniform_ms 500 2000); lia|].
      intros pause Hp. cbv beta in Hp.
      apply safe_bind; [apply safe_sleep; lia | intros _; exact IH]. }
    intros w Hr. destruct (Hs w) as (a & w' & E & R).
    exists a, w'. split; [exact E | congruence].
  - exists tt, w. auto.
Qed.

Lemma safe_forwarder_burst (name : string) (cfg : Catalog.pattern)
      (count : Z) :
  In (name, cfg) Catalog.patterns ->
  safe (generate_pattern_burst (init kafka_broker topic) name count).
Proof.
  intros Hin. destruct (catalog_lists_nonempty name cfg Hin) as [Hs Hk].
  unfold generate_pattern_burst. cbn [patterns init].
  rewrite (catalog_lookup name cfg Hin).
  eapply safe_gen_bind;
    [apply (gen_ret cfg (fun c => c = cfg)); reflexivity | intros c ->].
  apply safe_bind; [apply safe_emit | intros _].
  apply safe_repeat_n.
  eapply safe_gen_bind;
    [apply (forwarder_pattern_log_spec (init kafka_broker topic) name cfg
              Hs Hk) |].
  intros log _. apply safe_bind; [apply safe_send_log | intros _].
  apply safe_sleep. lia.
Qed.

Lemma safe_continuous_burst : safe (continuous_burst (init kafka_broker topic)).
Proof.
  unfold continuous_burst. cbn [patterns init].
  eapply safe_gen_bind;
    [apply (gen_choice (map fst Catalog.patterns)); discriminate|].
  intros name Hname. cbv beta in Hname.
  apply in_map_iff in Hname. destruct Hname as ([n cfg] & <- & Hin).
  cbn [fst]. rewrite (catalog_lookup n cfg Hin).
  eapply safe_gen_bind;
    [apply (gen_ret cfg (fun c => c = cfg)); reflexivity | intros c ->].
  eapply safe_gen_bind; [apply (gen_randint 1 5); lia | intros r _].
  apply safe_bind; [apply (safe_forwarder_burst n cfg); exact Hin | intros _].
  apply safe_sleep. lia.
Qed.

(** With the objects [__init__] builds, nothing in a cycle raises, and
    the loop is still turning however many turns are granted. *)
Lemma forwarder_loop_never_leaves (fuel : nat) :
  forall (c : Z) (w : world),
    running w = true ->
    exists w', continuous_loop fuel (init kafka_broker topic) c w
               = Ok Looping w' /\ running w' = true.
Proof.
  induction fuel as [|fuel IH]; intros c w Hr.
  - exists w. split; [reflexivity | exact Hr].
  - cbn [continuous_loop].
    unfold bind at 1. unfold get_running. rewrite Hr. cbn [negb].
    destruct (safe_forwarder_normal_logs 5 w) as ([] & w1 & E1 & R1).
    unfold bind at 1. rewrite E1.
    assert (Hb : safe (if (c + 1) mod 10 =? 0
                       then continuous_burst (init kafka_broker topic)
                       else ret tt)).
    { destruct ((c + 1) mod 10 =? 0);
        [apply safe_continuous_burst | apply safe_ret]. }
    destruct (Hb w1) as ([] & w2 & E2 & R2).
    unfold bind at 1. rewrite E2.
    apply IH. congruence.
Qed.

End ForwarderLoop.

(* ================================================================== *)
(** ** C8: exceptions inside a continuous cycle *)
(* ================================================================== *)

(** The loop of the broker forwarder has no handler of its own.  On an
    object whose services were emptied by hand (no run builds one) the
    first normal record raises [IndexError], which leaves
    [continuous_generation] and [start]. *)
Lemma forwarder_loop_has_no_handler :
  match Forwarder.continuous_generation 3 forwarder_without_services world0
  with
  | Raise (IndexError _) w' =>
      trace w' = [LogInfo "Starting continuous log generation..."]
  | _ => False
  end /\
  match Forwarder.start 3 forwarder_without_services "continuous" world0 with
  | Raise (IndexError _) w' =>
      trace w' = [ LogInfo "Connected to Kafka at localhost:9094";
                   LogInfo "Starting continuous log generation..." ]
  | _ => False
  end.
Proof. split; vm_compute; reflexivity. Qed.

(** The same fault in the stdout generator: every cycle logs the error,
    waits ten seconds, and the loop goes on. *)
Example generator_survives_empty_services :
  match Generator.continuous_generation 2 generator_without_services world0
  with
  | Ok Looping w' =>
      trace w'
      = [ LogInfo "Starting continuous log generation (interval: 1.0s, burst_interval: 10)";
          LogError "Error in continuous generation: Cannot choose from an empty sequence";
          Sleep 10000;
          LogError "Error in continuous generation: Cannot choose from an empty sequence";
          Sleep 10000 ]
  | _ => False
  end.
Proof. vm_compute. reflexivity. Qed.



(* ================================================================== *)
(** ** C9: the exit status on a failed start *)
(* ================================================================== *)

Section Starts.

Lemma generator_start_unknown_mode (self : Generator.MockLogGenerator)
      (fuel : nat) (w : world) :
  Generator.mode self <> "test" -> Generator.mode self <> "continuous" ->
  exists w',
    Generator.start fuel self w = Ok (Done false) w' /\ running w' = false.
Proof.
  intros Ht Hc.
  apply String.eqb_neq in Ht. apply String.eqb_neq in Hc.
  unfold Generator.start, Generator.start_body, Generator.stop.
  rewrite Ht, Hc.
  cbv beta iota delta [bind ret emit try_except log_info log_error
                       set_running rnd clock str_hash running producer
                       broker_up trace].
  eexists. split; reflexivity.
Qed.

Lemma forwarder_start_broker_down (self : Forwarder.MockLogForwarder)
      (mode : string) (fuel : nat) (w : world) :
  broker_up w = false ->
  exists w',
    Forwarder.start fuel self mode w = Ok (Done false) w' /\
    producer w' = producer w /\
    trace w'
    = (trace w
       ++ [LogError "Failed to connect to Kafka: NoBrokersAvailable"])%list.
Proof.
  intros Hb.
  unfold Forwarder.start, Forwarder.connect_kafka, try_except, bind,
    get_broker_up, log_error, emit.
  rewrite Hb.
  cbv beta iota delta [raise ret negb rnd clock str_hash running producer
                       broker_up trace].
  eexists. split; [reflexivity|]. split; reflexivity.
Qed.

End Starts.

(** A mode passed with [--mode] that is not one of the two choices: the
    argument parser ends the process with status 2 before any object is
    made, so [start] does not run and nothing is logged or emitted. *)
Lemma C9_counterexample :
  Generator.main 5 env0 (Some "demo") world0 = (Done 2, world0) /\
  Forwarder.main 5 None None (Some "demo") world0 = (Done 2, world0) /\
  "demo" <> "test" /\ "demo" <> "continuous" /\
  (Done 2 : outcome Z) <> Done 1.
Proof.
  split; [reflexivity|]. split; [reflexivity|].
  repeat split; discriminate.
Qed.

(** C9, amended.  When the mode of the stdout generator comes from
    [LOG_MODE], no [--mode] being given, and is neither ["test"] nor
    ["continuous"], [start] returns [False] with the
    running flag cleared, and the process exits with status 1; when
    [__init__] itself raises there is no object to start, and the
    process exits with status 1 all the same.  A [--mode]
    that is neither is refused by the argument parser of either script:
    status 2, with nothing run.  When no broker answers, [start] of the
    broker forwarder returns [False] whatever the mode, and the process,
    started with an accepted mode, exits with status 1. *)
Theorem C9_failed_start_exit_status :
  (forall (env : Generator.environ) (m : string) (fuel : nat) (w : world),
      Generator.LOG_MODE env = Some m ->
      m <> "test" -> m <> "continuous" ->
      (Generator.init_error env = None ->
       exists w',
         Generator.start fuel (Generator.init env) w = Ok (Done false) w' /\
         running w' = false /\
         Generator.main fuel env None w = (Done 1, w')) /\
      (forall e,
          Generator.init_error env = Some e ->
          Generator.main fuel env None w = (Done 1, w))) /\
  (forall (env : Generator.environ) (m : string) (fuel : nat) (w : world),
      m <> "test" -> m <> "continuous" ->
      Generator.main fuel env (Some m) w = (Done 2, w)) /\
  (forall (kafka_broker topic : option string) (m : string) (fuel : nat)
          (w : world),
      m <> "test" -> m <> "continuous" ->
      Forwarder.main fuel kafka_broker topic (Some m) w = (Done 2, w)) /\
  (forall (kafka_broker topic : option string) (args_mode : option string)
          (fuel : nat) (w : world),
      broker_up w = false ->
      args_mode = None \/ args_mode = Some "test"
      \/ args_mode = Some "continuous" ->
      (forall (self : Forwarder.MockLogForwarder) (mode : string),
          exists w', Forwarder.start fuel self mode w = Ok (Done false) w') /\
      fst (Forwarder.main fuel kafka_broker topic args_mode w) = Done 1).
Proof.
  split; [|split; [|split]].
  - intros env m fuel w Hm Ht Hc.
    assert (Hmode : Generator.mode (Generator.init env) = m)
      by (unfold Generator.init; cbn [Generator.mode]; rewrite Hm; reflexivity).
    destruct (generator_start_unknown_mode (Generator.init env) fuel w)
      as (w' & E & Hr); [rewrite Hmode; exact Ht | rewrite Hmode; exact Hc |].
    split.
    + intros Hi. exists w'. split; [exact E|]. split; [exact Hr|].
      unfold Generator.main, Generator.run. rewrite Hi, E. reflexivity.
    + intros e Hi.
      unfold Generator.main, Generator.run. rewrite Hi. reflexivity.
  - intros env m fuel w Ht Hc.
    apply String.eqb_neq in Ht. apply String.eqb_neq in Hc.
    unfold Generator.main. rewrite Ht, Hc. reflexivity.
  - intros broker topic m fuel w Ht Hc.
    apply String.eqb_neq in Ht. apply String.eqb_neq in Hc.
    unfold Forwarder.main. cbv zeta. rewrite Ht, Hc. reflexivity.
  - intros broker topic args_mode fuel w Hb Hmode. split.
    + intros self mode.
      destruct (forwarder_start_broker_down self mode fuel w Hb)
        as (w' & E & _).
      exists w'. exact E.
    + unfold Forwarder.main.
      set (b := match broker with Some b => b | None => "localhost:9094" end).
      set (t := match topic with Some t => t | None => "application-logs" end).
      set (mode := match args_mode with Some m => m | None => "continuous" end).
      assert (Hvalid : negb (String.eqb mode "continuous"
                             || String.eqb mode "test") = false)
        by (unfold mode; destruct Hmode as [->|[->| ->]]; reflexivity).
      rewrite Hvalid.
      set (banner := if String.eqb mode "test"
                     then emit (Stdout "Running pattern tests...")
                     else emit (Stdout "Running in continuous mode. Press Ctrl+C to stop.")).
      assert (Hbanner : forall w0, exists w1,
                 banner w0 = Ok tt w1 /\ broker_up w1 = broker_up w0).
      { intros w0. unfold banner. destruct (String.eqb mode "test");
          eexists; split; reflexivity. }
      unfold bind at 1. unfold emit at 1.
      unfold bind at 1. unfold emit at 1.
      unfold bind at 1. unfold emit at 1.
      unfold bind at 1. unfold emit at 1.
      unfold bind at 1. unfold emit at 1.
      unfold bind at 1.
      match goal with
      | |- context [banner ?w0] =>
          destruct (Hbanner w0) as (w1 & E1 & B1); rewrite E1
      end.
      cbn [broker_up] in B1.
      assert (Hb1 : broker_up w1 = false) by congruence.
      destruct (forwarder_start_broker_down (Forwarder.init b t) mode fuel
                  w1 Hb1) as (w2 & E2 & _).
      rewrite E2. reflexivity.
Qed.

Lemma C9_witness :
  Generator.LOG_MODE env_unknown_mode = Some "demo" /\
  "demo" <> "test" /\ "demo" <> "continuous" /\
  broker_up world_broker_down = false /\
  Generator.init_error env_unknown_mode = None /\
  (exists w',
      Generator.start 5 (Generator.init env_unknown_mode) world0
      = Ok (Done false) w' /\
      running w' = false /\
      Generator.main 5 env_unknown_mode None world0 = (Done 1, w')) /\
  Generator.main 5 env_unknown_mode (Some "demo") world0 = (Done 2, world0) /\
  ((forall (self : Forwarder.MockLogForwarder) (mode : string),
       exists w',
         Forwarder.start 5 self mode world_broker_down = Ok (Done false) w') /\
   fst (Forwarder.main 5 None None (Some "test") world_broker_down) = Done 1).
Proof.
  split; [reflexivity|]. split; [discriminate|]. split; [discriminate|].
  split; [reflexivity|]. split; [reflexivity|]. split; [|split].
  - exact (proj1 (proj1 C9_failed_start_exit_status env_unknown_mode "demo"
                        5%nat world0 eq_refl ltac:(discriminate)
                        ltac:(discriminate))
                 eq_refl).
  - exact (proj1 (proj2 C9_failed_start_exit_status) env_unknown_mode "demo"
                 5%nat world0 ltac:(discriminate) ltac:(discriminate)).
  - exact (proj2 (proj2 (proj2 C9_failed_start_exit_status)) None None
                 (Some "test") 5%nat world_broker_down eq_refl
                 (or_intror (or_introl eq_refl))).
Defined.

(* ================================================================== *)
(** ** C10: normal texts and the keywords of the catalog *)
(* ================================================================== *)

Section NormalTexts.

Lemma append_nil_r (s : string) : s ++ EmptyString = s.
Proof. induction s; simpl; congruence. Qed.

Lemma contains_in_empty (k : string) :
  k <> EmptyString -> Py.contains k EmptyString = false.
Proof. destruct k; [contradiction | reflexivity]. Qed.

(** A phrase without digits found in a text that ends with digits lies
    before them. *)
Lemma contains_before_digits (k pre ds : string) :
  k <> EmptyString -> digit_free k = true ->
  all_digits ds = true -> ds <> EmptyString ->
  Py.contains k (pre ++ ds) = true -> Py.contains k pre = true.
Proof.
  intros Hne Hk Hds Hd H.
  rewrite <- (append_nil_r ds) in H.
  destruct (contains_around_digits k pre ds EmptyString Hne Hk Hds Hd H)
    as [H1|H1]; [exact H1|].
  rewrite (contains_in_empty k Hne) in H1. discriminate.
Qed.

(** Every candidate phrase of the catalog is clear of the fixed pieces. *)
Lemma catalog_keywords_clear :
  forallb clear_of_pieces catalog_keywords = true.
Proof. vm_compute. reflexivity. Qed.

Lemma clear_parts (k : string) :
  clear_of_pieces k = true ->
  k <> EmptyString /\ digit_free k = true /\
  forall t, In t normal_pieces -> Py.contains k t = false.
Proof.
  unfold clear_of_pieces. intros H.
  apply andb_true_iff in H. destruct H as [H Hp].
  apply andb_true_iff in H. destruct H as [H _].
  apply andb_true_iff in H. destruct H as [Hne Hd].
  split; [|split; [exact Hd|]].
  - intros ->. discriminate Hne.
  - intros t Ht. rewrite forallb_forall in Hp. specialize (Hp t Ht).
    apply negb_true_iff in Hp. exact Hp.
Qed.

Lemma fixed_piece (t : string) :
  In t [ "Request processed successfully for user ";
         "Database query completed in "; "ms";
         "Cache hit for key user:";
         "Processing batch job with "; " items";
         "User session created for user ";
         "Configuration loaded successfully";
         "Metrics published to monitoring system";
         "Background task completed successfully" ] ->
  In t normal_pieces.
Proof. intros H. unfold normal_pieces. apply in_or_app. left. exact H. Qed.

Lemma started_piece (service : string) :
  In service Catalog.all_services ->
  In ("Service " ++ service ++ " started successfully") normal_pieces.
Proof.
  intros H. unfold normal_pieces. apply in_or_app. right.
  apply in_or_app. left.
  apply (in_map (fun s => "Service " ++ s ++ " started successfully")).
  exact H.
Qed.

Lemma health_piece (service : string) :
  In service Catalog.all_services ->
  In ("Health check passed for " ++ service) normal_pieces.
Proof.
  intros H. unfold normal_pieces. apply in_or_app. right.
  apply in_or_app. right.
  apply (in_map (fun s => "Health check passed for " ++ s)). exact H.
Qed.

(** A text that ends with the digits of a number. *)
Lemma number_last_clear (k pre : string) (n : Z) :
  clear_of_pieces k = true -> In pre normal_pieces -> 0 <= n ->
  Py.contains k (pre ++ Py.str_of_int n) = false.
Proof.
  intros Hk Hpre Hn. destruct (clear_parts k Hk) as (Hne & Hd & Hp).
  destruct (str_of_int_digits n Hn) as [Hds Hnn].
  destruct (Py.contains k (pre ++ Py.str_of_int n)) eqn:E; [|reflexivity].
  apply contains_before_digits in E; auto.
  rewrite (Hp pre Hpre) in E. discriminate.
Qed.

(** A text with the digits of a number in the middle. *)
Lemma number_inside_clear (k pre suf : string) (n : Z) :
  clear_of_pieces k = true -> In pre normal_pieces -> In suf normal_pieces ->
  0 <= n ->
  Py.contains k (pre ++ Py.str_of_int n ++ suf) = false.
Proof.
  intros Hk Hpre Hsuf Hn. destruct (clear_parts k Hk) as (Hne & Hd & Hp).
  destruct (str_of_int_digits n Hn) as [Hds Hnn].
  destruct (Py.contains k (pre ++ Py.str_of_int n ++ suf)) eqn:E;
    [|reflexivity].
  apply contains_around_digits in E; auto.
  destruct E as [E|E];
    [rewrite (Hp pre Hpre) in E | rewrite (Hp suf Hsuf) in E]; discriminate.
Qed.

(** None of the ten normal texts holds a candidate phrase of the
    catalog, for any service of the scripts and any fillers. *)
Lemma normal_text_clear (service msg k : string) (u1 ms u2 n u3 : Z) :
  In service Catalog.all_services ->
  0 <= u1 -> 0 <= ms -> 0 <= u2 -> 0 <= n -> 0 <= u3 ->
  In msg (normal_texts service u1 ms u2 n u3) ->
  In k catalog_keywords ->
  Py.contains k msg = false.
Proof.
  intros Hs H1 H2 H3 H4 H5 Hmsg Hk.
  assert (Hc : clear_of_pieces k = true).
  { pose proof catalog_keywords_clear as Hall.
    rewrite forallb_forall in Hall. apply Hall. exact Hk. }
  destruct (clear_parts k Hc) as (Hne & Hd & Hp).
  unfold normal_texts in Hmsg. in_cases Hmsg; subst msg.
  - apply number_last_clear; auto. apply fixed_piece. simpl. auto.
  - apply Hp. apply started_piece. exact Hs.
  - apply number_inside_clear; auto; apply fixed_piece; simpl; auto.
  - apply number_last_clear; auto. apply fixed_piece. simpl. auto.
  - apply Hp. apply health_piece. exact Hs.
  - apply number_inside_clear; auto; apply fixed_piece; simpl; auto 10.
  - apply number_last_clear; auto. apply fixed_piece. simpl. auto 10.
  - apply Hp. apply fixed_piece. simpl. auto 10.
  - apply Hp. apply fixed_piece. simpl. auto 10.
  - apply Hp. apply fixed_piece. simpl. auto 12.
Qed.

Lemma keyword_of_pattern (name k : string) (cfg : Catalog.pattern) :
  In (name, cfg) Catalog.patterns -> In k (Catalog.keywords cfg) ->
  In k catalog_keywords.
Proof.
  intros Hin Hk. unfold catalog_keywords. apply in_flat_map.
  exists (name, cfg). split; [exact Hin | exact Hk].
Qed.

End NormalTexts.

Section ConditionKeywords.

(** A phrase without digits that is in neither side of a number is not
    in the text around it. *)
Lemma number_last_free (k pre : string) (n : Z) :
  k <> EmptyString -> digit_free k = true ->
  Py.contains k pre = false -> 0 <= n ->
  Py.contains k (pre ++ Py.str_of_int n) = false.
Proof.
  intros Hne Hd Hpre Hn.
  destruct (str_of_int_digits n Hn) as [Hds Hnn].
  destruct (Py.contains k (pre ++ Py.str_of_int n)) eqn:E; [|reflexivity].
  apply contains_before_digits in E; auto.
  rewrite Hpre in E. discriminate.
Qed.

Lemma number_inside_free (k pre suf : string) (n : Z) :
  k <> EmptyString -> digit_free k = true ->
  Py.contains k pre = false -> Py.contains k suf = false -> 0 <= n ->
  Py.contains k (pre ++ Py.str_of_int n ++ suf) = false.
Proof.
  intros Hne Hd Hpre Hsuf Hn.
  destruct (str_of_int_digits n Hn) as [Hds Hnn].
  destruct (Py.contains k (pre ++ Py.str_of_int n ++ suf)) eqn:E;
    [|reflexivity].
  apply contains_around_digits in E; auto.
  destruct E as [E|E]; [rewrite Hpre in E | rewrite Hsuf in E];
    discriminate.
Qed.

(** The ten normal texts and a phrase that is clear of their pieces. *)
Lemma normal_text_avoids (service msg k : string) (u1 ms u2 n u3 : Z) :
  In service Catalog.all_services ->
  0 <= u1 -> 0 <= ms -> 0 <= u2 -> 0 <= n -> 0 <= u3 ->
  In msg (normal_texts service u1 ms u2 n u3) ->
  clear_of_pieces k = true ->
  Py.contains k msg = false.
Proof.
  intros Hs H1 H2 H3 H4 H5 Hmsg Hc.
  destruct (clear_parts k Hc) as (Hne & Hd & Hp).
  unfold normal_texts in Hmsg. in_cases Hmsg; subst msg.
  - apply number_last_clear; auto. apply fixed_piece. simpl. auto.
  - apply Hp. apply started_piece. exact Hs.
  - apply number_inside_clear; auto; apply fixed_piece; simpl; auto.
  - apply number_last_clear; auto. apply fixed_piece. simpl. auto.
  - apply Hp. apply health_piece. exact Hs.
  - apply number_inside_clear; auto; apply fixed_piece; simpl; auto 10.
  - apply number_last_clear; auto. apply fixed_piece. simpl. auto 10.
  - apply Hp. apply fixed_piece. simpl. auto 10.
  - apply Hp. apply fixed_piece. simpl. auto 10.
  - apply Hp. apply fixed_piece. simpl. auto 12.
Qed.

(** The word [audit] is in a normal text only through the name of the
    service [audit-service]. *)
Lemma audit_in_normal_text (service msg : string) (u1 ms u2 n u3 : Z) :
  In service Catalog.all_services ->
  0 <= u1 -> 0 <= ms -> 0 <= u2 -> 0 <= n -> 0 <= u3 ->
  In msg (normal_texts service u1 ms u2 n u3) ->
  Py.contains "audit" msg = true ->
  service = "audit-service" /\
  (msg = "Service audit-service started successfully"
   \/ msg = "Health check passed for audit-service").
Proof.
  intros Hs H1 H2 H3 H4 H5 Hmsg Hc.
  assert (Hne : "audit" <> EmptyString) by discriminate.
  assert (Hd : digit_free "audit" = true) by reflexivity.
  unfold normal_texts in Hmsg. in_cases Hmsg; subst msg.
  - rewrite number_last_free in Hc; auto; discriminate.
  - unfold Catalog.all_services in Hs. in_cases Hs; subst service;
      try (vm_compute in Hc; discriminate Hc).
    split; [reflexivity | left; reflexivity].
  - rewrite number_inside_free in Hc; auto; discriminate.
  - rewrite number_last_free in Hc; auto; discriminate.
  - unfold Catalog.all_services in Hs. in_cases Hs; subst service;
      try (vm_compute in Hc; discriminate Hc).
    split; [reflexivity | right; reflexivity].
  - rewrite number_inside_free in Hc; auto; discriminate.
  - rewrite number_last_free in Hc; auto; discriminate.
  - vm_compute in Hc. discriminate Hc.
  - vm_compute in Hc. discriminate Hc.
  - vm_compute in Hc. discriminate Hc.
Qed.

(** A keyword of the conditions of a catalog pattern that occurs in a
    normal text is [audit], in a text of [audit-service]. *)
Lemma condition_keyword_in_normal_text (service msg k : string)
      (u1 ms u2 n u3 : Z) :
  In service Catalog.all_services ->
  0 <= u1 -> 0 <= ms -> 0 <= u2 -> 0 <= n -> 0 <= u3 ->
  In msg (normal_texts service u1 ms u2 n u3) ->
  In k condition_keywords ->
  Py.contains k msg = true ->
  k = "audit" /\ service = "audit-service" /\
  (msg = "Service audit-service started successfully"
   \/ msg = "Health check passed for audit-service").
Proof.
  intros Hs H1 H2 H3 H4 H5 Hmsg Hk Hc.
  assert (Hcases : k = "audit" \/ clear_of_pieces k = true).
  { vm_compute in Hk. in_cases Hk; subst k;
      first [left; reflexivity | right; vm_compute; reflexivity]. }
  destruct Hcases as [-> | Hclear].
  - split; [reflexivity|].
    apply (audit_in_normal_text service msg u1 ms u2 n u3); assumption.
  - rewrite (normal_text_avoids service msg k u1 ms u2 n u3) in Hc;
      auto; discriminate.
Qed.

Lemma condition_keyword_of_pattern (name k : string) (cfg : Catalog.pattern)
      (ks : list string) :
  In (name, cfg) Catalog.patterns ->
  Catalog.cond_keywords (Catalog.pat_conditions cfg) = Some ks ->
  In k ks -> In k condition_keywords.
Proof.
  intros Hin Hks Hk. unfold condition_keywords. apply in_flat_map.
  exists (name, cfg). split; [exact Hin|]. cbn [snd]. rewrite Hks. exact Hk.
Qed.

End ConditionKeywords.

(** C10.  A normal record can match the conditions of an alert.  The
    stdout generator and the broker forwarder, on the draws given, each
    return a normal record of the service [audit-service] whose message
    is ["Service audit-service started successfully"]; the conditions of
    the pattern [audit_issues] ask for that service and the keyword
    ["audit"], which the message contains.  This is the only way: a
    keyword of the conditions of a catalog pattern found in a normal
    message is ["audit"], in one of the two messages that name the
    service [audit-service]; and no phrase of the [keywords] list of a
    pattern is ever found in a normal message. *)
Theorem C10_normal_record_matches_audit :
  (match Generator.generate_normal_log generator0
           (world_with [9; 0; 0; 0; 0; 0; 0; 0; 0; 0; 0; 0; 0; 0;
                        0; 0; 0; 0; 0; 1]) with
   | Ok log _ =>
       dict_get "service" log = Some (PStr "audit-service") /\
       dict_get "level" log = Some (PStr "INFO") /\
       dict_get "message" log
       = Some (PStr "Service audit-service started successfully")
   | Raise _ _ => False
   end) /\
  (match Forwarder.generate_normal_log forwarder0
           (world_with [9; 0; 0; 0; 0; 0; 0; 0; 0; 0; 0; 0; 0; 0;
                        0; 0; 1]) with
   | Ok log _ =>
       dict_get "service" log = Some (PStr "audit-service") /\
       dict_get "level" log = Some (PStr "INFO") /\
       dict_get "message" log
       = Some (PStr "Service audit-service started successfully")
   | Raise _ _ => False
   end) /\
  Catalog.pat_conditions (catalog_pattern "audit_issues")
  = Catalog.Conditions None (Some "audit-service") (Some ["audit"]) None
                       (Some 5) None /\
  In ("audit_issues", catalog_pattern "audit_issues") Catalog.patterns /\
  Py.contains "audit" "Service audit-service started successfully" = true /\
  (forall (env : Generator.environ) (w : world),
      exists log w' service msg,
        Generator.generate_normal_log (Generator.init env) w = Ok log w' /\
        dict_get "service" log = Some (PStr service) /\
        dict_get "message" log = Some (PStr msg) /\
        forall (name : string) (cfg : Catalog.pattern) (k : string),
          In (name, cfg) Catalog.patterns ->
          (In k (Catalog.keywords cfg) -> Py.contains k msg = false) /\
          (forall ks,
              Catalog.cond_keywords (Catalog.pat_conditions cfg) = Some ks ->
              In k ks -> Py.contains k msg = true ->
              k = "audit" /\ service = "audit-service" /\
              (msg = "Service audit-service started successfully"
               \/ msg = "Health check passed for audit-service"))) /\
  (forall (kafka_broker topic : string) (w : world),
      exists log w' service msg,
        Forwarder.generate_normal_log (Forwarder.init kafka_broker topic) w
        = Ok log w' /\
        dict_get "service" log = Some (PStr service) /\
        dict_get "message" log = Some (PStr msg) /\
        forall (name : string) (cfg : Catalog.pattern) (k : string),
          In (name, cfg) Catalog.patterns ->
          (In k (Catalog.keywords cfg) -> Py.contains k msg = false) /\
          (forall ks,
              Catalog.cond_keywords (Catalog.pat_conditions cfg) = Some ks ->
              In k ks -> Py.contains k msg = true ->
              k = "audit" /\ service = "audit-service" /\
              (msg = "Service audit-service started successfully"
               \/ msg = "Health check passed for audit-service"))).
Proof.
  split; [vm_compute; repeat split; reflexivity|].
  split; [vm_compute; repeat split; reflexivity|].
  split; [reflexivity|].
  split; [vm_compute; auto 30|].
  split; [reflexivity|].
  split.
  - intros env w.
    destruct (generator_normal_log_spec (Generator.init env)
                ltac:(discriminate) w)
      as (log & w' & E & _ & sv & lv & ts & msg & u1 & ms & u2 & n & u3 &
          Hsv & _ & G1 & G2 & G3 & G4 & G5 & Hmsg & _ & _ & Hm & Hs & _).
    exists log, w', sv, msg. split; [exact E|]. split; [exact Hs|].
    split; [exact Hm|].
    intros name cfg k Hin. split.
    + intros Hk.
      apply (normal_text_clear sv msg k u1 ms u2 n u3); auto.
      apply (keyword_of_pattern name k cfg); assumption.
    + intros ks Hks Hk Hc.
      apply (condition_keyword_in_normal_text sv msg k u1 ms u2 n u3); auto.
      apply (condition_keyword_of_pattern name k cfg ks); assumption.
  - intros broker topic w.
    destruct (forwarder_normal_log_spec (Forwarder.init broker topic)
                ltac:(discriminate) w)
      as (log & w' & E & _ & sv & lv & msg & u1 & ms & u2 & n & u3 &
          Hsv & _ & G1 & G2 & G3 & G4 & G5 & Hmsg & _ & Hm & Hs & _).
    exists log, w', sv, msg. split; [exact E|]. split; [exact Hs|].
    split; [exact Hm|].
    intros name cfg k Hin. split.
    + intros Hk.
      apply (normal_text_clear sv msg k u1 ms u2 n u3); auto.
      apply (keyword_of_pattern name k cfg); assumption.
    + intros ks Hks Hk Hc.
      apply (condition_keyword_in_normal_text sv msg k u1 ms u2 n u3); auto.
      apply (condition_keyword_of_pattern name k cfg ks); assumption.
Qed.

(* ================================================================== *)
(** ** Decoding any encoded value *)
(* ================================================================== *)

Section JsonValues.

Import Json.

Lemma dumps_with_dict (i k : string) (items : list (string * pyval)) :
  dumps_with i k (PDict items) = String "{" (members_text i k items ++ "}").
Proof.
  cbn [dumps_with]. change ("{" ++ ?x) with (String "{" x).
  do 2 f_equal.
  induction items as [|[key x] tl IH]; [reflexivity|].
  cbn [members_text]. rewrite <- IH. destruct tl; reflexivity.
Qed.

Lemma string_length_app (s t : string) :
  String.length (s ++ t) = (String.length s + String.length t)%nat.
Proof. induction s; simpl; congruence. Qed.

Lemma skip_ws_pad (pad s : string) :
  all_ws pad = true -> skip_ws (pad ++ s) = skip_ws s.
Proof.
  induction pad as [|c pad IH]; simpl; [reflexivity|].
  intros H. apply andb_true_iff in H. destruct H as [Hc Hp].
  rewrite Hc. auto.
Qed.

Lemma parse_value_pad (fuel : nat) (pad s : string) :
  all_ws pad = true -> parse_value fuel (pad ++ s) = parse_value fuel s.
Proof.
  intros H. destruct fuel as [|fuel]; [reflexivity|].
  cbn [parse_value]. rewrite (skip_ws_pad pad s H). reflexivity.
Qed.

(** One member of an object, up to the value. *)
Lemma parse_members_member (pv : string -> option (pyval * string))
      (n : nat) (acc : pydict) (k kpad s : string) :
  all_ws kpad = true ->
  parse_members pv (S n) acc (quote k ++ (":" ++ kpad) ++ s)
  = match pv (kpad ++ s) with
    | None => None
    | Some (v, r3) =>
        match skip_ws r3 with
        | String "," r4 => parse_members pv n (dict_set k v acc) (skip_ws r4)
        | String "}" r4 => Some (PDict (dict_set k v acc), r4)
        | _ => None
        end
    end.
Proof.
  intros Hk. rewrite quote_app.
  cbn [parse_members Ascii.eqb Bool.eqb Py.dquote negb].
  rewrite scanstring_escape.
  change (skip_ws ((":" ++ kpad) ++ s)) with (String ":" (kpad ++ s)).
  reflexivity.
Qed.

Lemma dict_set_new (k : string) (v : pyval) (d : pydict) :
  existsb (String.eqb k) (map fst d) = false ->
  dict_set k v d = (d ++ [(k, v)])%list.
Proof.
  induction d as [|[k' v'] d IH]; simpl; [reflexivity|].
  intros H. apply orb_false_iff in H. destruct H as [H1 H2].
  rewrite String.eqb_sym in H1. rewrite H1. rewrite IH by exact H2.
  reflexivity.
Qed.

Lemma existsb_app_false (k : string) (a b : list string) :
  existsb (String.eqb k) a = false -> existsb (String.eqb k) b = false ->
  existsb (String.eqb k) (a ++ b) = false.
Proof. intros Ha Hb. rewrite existsb_app, Ha, Hb. reflexivity. Qed.

Lemma depth_member (k : string) (x : pyval) (items : list (string * pyval)) :
  In (k, x) items -> (depth x < depth (PDict items))%nat.
Proof.
  intros Hin. cbn [depth]. apply Nat.lt_succ_r.
  induction items as [|[k' x'] items IH]; [destruct Hin|].
  destruct Hin as [E|Hin].
  - injection E as -> ->. apply Nat.le_max_l.
  - etransitivity; [apply IH; exact Hin | apply Nat.le_max_r].
Qed.

Lemma well_keyed_dict (items : list (string * pyval)) :
  well_keyed (PDict items) = true ->
  distinct (map fst items) = true /\
  forall k x, In (k, x) items -> well_keyed x = true.
Proof.
  cbn [well_keyed]. intros H. apply andb_true_iff in H.
  destruct H as [Hd He]. split; [exact Hd|].
  induction items as [|[k' x'] items IH]; intros k x Hin; [destruct Hin|].
  apply andb_true_iff in He. destruct He as [Hx He].
  cbn [map fst distinct] in Hd. apply andb_true_iff in Hd.
  destruct Hd as [_ Hd].
  destruct Hin as [E|Hin].
  - injection E as -> ->. exact Hx.
  - apply (IH Hd He k x Hin).
Qed.

Variable item_pad key_pad : string.
Hypothesis item_pad_ws : all_ws item_pad = true.
Hypothesis key_pad_ws : all_ws key_pad = true.

Let isep : string := "," ++ item_pad.
Let ksep : string := ":" ++ key_pad.

Lemma members_text_starts (items : list (string * pyval)) :
  items <> [] ->
  exists r, members_text isep ksep items = String Py.dquote r.
Proof.
  destruct items as [|[k x] tl]; [contradiction|]. intros _.
  cbn [members_text]. rewrite quote_app. eauto.
Qed.

(** The member loop reads back the members the encoder wrote, given that
    the values are read back. *)
Lemma parse_members_text (pv : string -> option (pyval * string))
      (items : list (string * pyval)) :
  (forall k x rest, In (k, x) items ->
                    pv (dumps_with isep ksep x ++ rest) = Some (x, rest)) ->
  (forall pad s, all_ws pad = true -> pv (pad ++ s) = pv s) ->
  items <> [] ->
  forall (n : nat) (acc : pydict) (rest : string),
    (List.length items <= n)%nat ->
    distinct (map fst acc ++ map fst items) = true ->
    parse_members pv n acc (members_text isep ksep items ++ "}" ++ rest)
    = Some (PDict (acc ++ items), rest).
Proof.
  intros Hpv Hpad.
  induction items as [|[k x] tl IH]; intros Hne n acc rest Hn Hd;
    [contradiction|].
  destruct n as [|n]; [simpl in Hn; lia|].
  assert (Hfresh : existsb (String.eqb k) (map fst acc) = false).
  { clear -Hd. induction acc as [|[a v] acc IHa]; [reflexivity|].
    cbn [map fst app distinct] in Hd. apply andb_true_iff in Hd.
    destruct Hd as [Ha Hd]. apply negb_true_iff in Ha.
    rewrite existsb_app in Ha. apply orb_false_iff in Ha.
    destruct Ha as [_ Ha]. cbn [map fst existsb] in Ha.
    apply orb_false_iff in Ha. destruct Ha as [Ha _].
    cbn [map fst existsb]. rewrite String.eqb_sym, Ha. cbn [orb].
    apply IHa. exact Hd. }
  assert (Hd' : distinct (map fst (acc ++ [(k, x)]) ++ map fst tl) = true).
  { rewrite map_app. cbn [map fst]. rewrite <- app_assoc. exact Hd. }
  cbn [members_text]. unfold ksep at 1.
  rewrite !append_assoc.
  rewrite <- (append_assoc ":" key_pad).
  rewrite (parse_members_member pv n acc k key_pad _ key_pad_ws).
  rewrite (Hpad key_pad _ key_pad_ws).
  destruct tl as [|[k2 x2] tl2].
  - change (dumps_with isep ksep x ++ EmptyString ++ "}" ++ rest)
      with (dumps_with isep ksep x ++ String "}" rest).
    rewrite (Hpv k x (String "}" rest)) by (left; reflexivity).
    change (skip_ws (String "}" rest)) with (String "}" rest). cbv iota beta.
    rewrite (dict_set_new k x acc Hfresh). reflexivity.
  - unfold isep at 2. rewrite !append_assoc.
    change (dumps_with isep ksep x ++ "," ++ ?t)
      with (dumps_with isep ksep x ++ String "," t).
    rewrite (Hpv k x _) by (left; reflexivity).
    change (skip_ws (String "," ?t)) with (String "," t). cbv iota beta.
    rewrite (dict_set_new k x acc Hfresh).
    rewrite skip_ws_pad by exact item_pad_ws.
    destruct (members_text_starts ((k2, x2) :: tl2) ltac:(discriminate))
      as [r Hr].
    assert (Hskip : skip_ws (members_text isep ksep ((k2, x2) :: tl2)
                               ++ "}" ++ rest)
                    = members_text isep ksep ((k2, x2) :: tl2) ++ "}" ++ rest).
    { rewrite Hr. reflexivity. }
    rewrite Hskip.
    rewrite (IH ltac:(intros; apply (Hpv k0 x0); right; assumption)
                ltac:(discriminate) n (acc ++ [(k, x)])%list rest
                ltac:(simpl in Hn |- *; lia) Hd').
    rewrite <- app_assoc. reflexivity.
Qed.

Lemma members_text_length (items : list (string * pyval)) :
  (List.length items <= String.length (members_text isep ksep items))%nat.
Proof.
  induction items as [|[k x] tl IH]; [simpl; lia|].
  cbn [members_text List.length]. rewrite quote_app. cbn [String.length].
  rewrite string_length_app. cbn [String.length].
  rewrite !string_length_app.
  destruct tl as [|p tl']; [cbn [List.length]; lia|].
  rewrite string_length_app. lia.
Qed.

(** Any well-keyed value, encoded with these separators and followed by
    more text, is read back, the text that follows being left. *)
Lemma parse_value_dumps (fuel : nat) :
  forall (v : pyval) (rest : string),
    well_keyed v = true -> (depth v < fuel)%nat ->
    parse_value fuel (dumps_with isep ksep v ++ rest) = Some (v, rest).
Proof.
  induction fuel as [|fuel IH]; intros v rest Hwk Hdepth; [lia|].
  destruct v as [s|items].
  - apply parse_value_quote.
  - rewrite dumps_with_dict.
    destruct (well_keyed_dict items Hwk) as [Hd Hx].
    destruct items as [|[k x] tl].
    + reflexivity.
    + destruct (members_text_starts ((k, x) :: tl) ltac:(discriminate))
        as [r Hr].
      change (String "{" (members_text isep ksep ((k, x) :: tl) ++ "}") ++ rest)
        with (String "{" ((members_text isep ksep ((k, x) :: tl) ++ "}") ++ rest)).
      rewrite append_assoc.
      set (body := members_text isep ksep ((k, x) :: tl) ++ "}" ++ rest).
      assert (Hb : exists r', body = String Py.dquote r').
      { unfold body. rewrite Hr. cbn [append]. eauto. }
      destruct Hb as [r' Hr'].
      rewrite Hr'. rewrite parse_value_object. rewrite <- Hr'. unfold body.
      apply (parse_members_text (parse_value fuel) ((k, x) :: tl)).
      * intros k0 x0 rest0 Hin. apply IH.
        -- apply (Hx k0 x0 Hin).
        -- pose proof (depth_member k0 x0 _ Hin). lia.
      * intros pad s Hp. apply parse_value_pad. exact Hp.
      * discriminate.
      * rewrite string_length_app.
        pose proof (members_text_length ((k, x) :: tl)). lia.
      * exact Hd.
Qed.

Lemma depth_le_length (n : nat) :
  forall v, (depth v <= n)%nat ->
            (depth v <= String.length (dumps_with isep ksep v))%nat.
Proof.
  induction n as [|n IH]; intros v Hn.
  - lia.
  - destruct v as [s|items]; [simpl; lia|].
    rewrite dumps_with_dict. cbn [String.length].
    rewrite string_length_app. cbn [depth] in *.
    apply le_n_S. apply le_S_n in Hn.
    transitivity (String.length (members_text isep ksep items)); [|lia].
    clear -IH Hn. induction items as [|[k x] tl IHt]; [simpl; lia|].
    cbn [members_text]. rewrite !string_length_app.
    apply Nat.max_lub.
    + specialize (IH x ltac:(lia)). lia.
    + assert (Htl : ((fix deepest (l : list (string * pyval)) : nat :=
                        match l with
                        | [] => O
                        | (_, x0) :: tl0 => Nat.max (depth x0) (deepest tl0)
                        end) tl <= n)%nat) by lia.
      specialize (IHt Htl).
      destruct tl as [|p tl']; [simpl in *; lia|].
      rewrite string_length_app. lia.
Qed.

(** [loads] reads back what [dumps_with] wrote. *)
Lemma loads_dumps_with (v : pyval) :
  well_keyed v = true -> loads (dumps_with isep ksep v) = Some v.
Proof.
  intros Hwk. unfold loads.
  rewrite <- (append_nil_r (dumps_with isep ksep v)) at 2.
  rewrite parse_value_dumps; [reflexivity | exact Hwk |].
  pose proof (depth_le_length (depth v) v (le_n _)). lia.
Qed.

End JsonValues.

Lemma loads_dumps (v : pyval) :
  well_keyed v = true -> Json.loads (Json.dumps v) = Some v.
Proof. apply (loads_dumps_with " " " "); reflexivity. Qed.

Lemma loads_dumps_compact (v : pyval) :
  well_keyed v = true -> Json.loads (Json.dumps_compact v) = Some v.
Proof. apply (loads_dumps_with EmptyString EmptyString); reflexivity. Qed.

(* ================================================================== *)
(** ** Records, entry by entry *)
(* ================================================================== *)

Section RecordShapes.

Lemma get_or_absent (name : string) (d : list (string * string))
      (default : string) :
  existsb (String.eqb name) (map fst d) = false ->
  get_or name d default = default.
Proof.
  induction d as [|[k v] d IH]; simpl; [reflexivity|].
  intros H. apply orb_false_iff in H. destruct H as [H1 H2].
  rewrite String.eqb_sym in H1. rewrite H1. auto.
Qed.

Variable gself : Generator.MockLogGenerator.

Lemma generator_base_log_full (service level : string) :
  gen (Generator.generate_base_log gself service level)
      (fun log => exists ns pod_n pod_s cid ts ats v1 v2 v3 rev ip1 ip2 ip3
                         owner,
           In ns [Generator.namespace gself; "production"; "staging";
                  "development"] /\
           log = generator_base gself service level ns pod_n pod_s cid ts ats
                                v1 v2 v3 rev ip1 ip2 ip3 owner).
Proof.
  unfold Generator.generate_base_log.
  eapply gen_bind; [apply gen_choice; discriminate | intros ns Hns].
  eapply gen_bind; [gen_any | intros pod_n _].
  eapply gen_bind; [gen_any | intros pod_s _].
  eapply gen_bind; [gen_any | intros cid _].
  eapply gen_bind; [gen_any | intros ts _].
  eapply gen_bind; [gen_any | intros ats _].
  eapply gen_bind; [gen_any | intros v1 _].
  eapply gen_bind; [gen_any | intros v2 _].
  eapply gen_bind; [gen_any | intros v3 _].
  eapply gen_bind; [gen_any | intros rev _].
  eapply gen_bind; [gen_any | intros ip1 _].
  eapply gen_bind; [gen_any | intros ip2 _].
  eapply gen_bind; [gen_any | intros ip3 _].
  eapply gen_bind; [gen_any | intros owner _].
  apply gen_ret.
  exists ns, pod_n, pod_s, cid, ts, ats, v1, v2, v3, rev, ip1, ip2, ip3, owner.
  split; [exact Hns | reflexivity].
Qed.

Lemma add_raw_base (service level ns : string) (pod_n : Z) (pod_s : string)
      (cid : list N) (ts ats : string) (v1 v2 v3 rev ip1 ip2 ip3 : Z)
      (owner : list N) (msg : string) :
  Generator.add_raw
    (dict_set "message" (PStr msg)
       (generator_base gself service level ns pod_n pod_s cid ts ats
                       v1 v2 v3 rev ip1 ip2 ip3 owner))
  = ret (generator_record
           (generator_base gself service level ns pod_n pod_s cid ts ats
                           v1 v2 v3 rev ip1 ip2 ip3 owner)
           ts level msg service).
Proof. reflexivity. Qed.

Lemma test_messages_names (keyword : string) :
  gen (Generator.test_messages keyword)
      (fun msgs => map fst msgs = test_template_names /\
                   Forall (fun kv => Py.contains keyword (snd kv) = true) msgs).
Proof.
  unfold Generator.test_messages. do 4 gen_skip. apply gen_ret.
  split; [reflexivity|].
  repeat constructor; cbv beta iota delta [snd]; find_piece.
Qed.

Lemma production_messages_names (service keyword : string) :
  gen (Generator.production_messages service keyword)
      (fun msgs => map fst msgs = production_template_names /\
                   Forall (fun kv => Py.contains keyword (snd kv) = true) msgs).
Proof.
  unfold Generator.production_messages. do 6 gen_skip. apply gen_ret.
  split; [reflexivity|].
  repeat constructor; cbv beta iota delta [snd]; find_piece.
Qed.

(** A pattern record of the stdout generator, in full. *)
Lemma generator_pattern_log_full (name : string) (cfg : Catalog.pattern) :
  Catalog.services cfg <> [] -> Catalog.keywords cfg <> [] ->
  gen (Generator.generate_pattern_log gself name cfg)
      (fun log => exists service0 level0 keyword msgs ns pod_n pod_s cid ts
                         ats v1 v2 v3 rev ip1 ip2 ip3 owner,
           In service0 (Catalog.services cfg) /\
           level_choice cfg level0 /\
           In keyword (Catalog.keywords cfg) /\
           map fst msgs = template_names gself /\
           In ns [Generator.namespace gself; "production"; "staging";
                  "development"] /\
           let level := fst (Generator.apply_overrides gself name level0
                                                       service0) in
           let service := snd (Generator.apply_overrides gself name level0
                                                         service0) in
           let msg := get_or name msgs ("Service log: " ++ keyword) in
           log = generator_record
                   (generator_base gself service level ns pod_n pod_s cid ts
                                   ats v1 v2 v3 rev ip1 ip2 ip3 owner)
                   ts level msg service).
Proof.
  intros Hs Hk. unfold Generator.generate_pattern_log.
  eapply gen_bind; [apply gen_choice; exact Hs | intros service0 Hs0].
  eapply gen_bind with (P := level_choice cfg).
  { unfold level_choice.
    destruct (Catalog.log_level (Catalog.pat_conditions cfg)).
    - apply gen_ret. reflexivity.
    - apply gen_choice. discriminate. }
  intros level0 Hl0.
  destruct (Generator.apply_overrides gself name level0 service0)
    as [lv sv] eqn:Eo.
  eapply gen_bind; [apply generator_base_log_full|].
  intros log0 (ns & pod_n & pod_s & cid & ts & ats & v1 & v2 & v3 & rev &
               ip1 & ip2 & ip3 & owner & Hns & ->).
  eapply gen_bind; [apply gen_choice; exact Hk | intros keyword Hkw].
  eapply gen_bind with
    (P := fun msgs => map fst msgs = template_names gself).
  { unfold template_names.
    destruct (String.eqb (Generator.mode gself) "test").
    - eapply gen_weaken; [apply test_messages_names | intros m [H _]; exact H].
    - eapply gen_weaken; [apply production_messages_names
                         | intros m [H _]; exact H]. }
  intros msgs Hmsgs.
  rewrite add_raw_base. apply gen_ret.
  exists service0, level0, keyword, msgs, ns, pod_n, pod_s, cid, ts, ats,
         v1, v2, v3, rev, ip1, ip2, ip3, owner.
  cbv zeta. rewrite Eo. cbv beta iota delta [fst snd].
  repeat split; assumption.
Qed.

(** A normal record of the stdout generator, in full. *)
Lemma generator_normal_log_full :
  Generator.services gself <> [] ->
  gen (Generator.generate_normal_log gself)
      (fun log => exists service level msg ns pod_n pod_s cid ts ats v1 v2 v3
                         rev ip1 ip2 ip3 owner u1 ms u2 n u3,
           In service (Generator.services gself) /\
           In level ["INFO"; "DEBUG"] /\
           In msg (normal_texts service u1 ms u2 n u3) /\
           In ns [Generator.namespace gself; "production"; "staging";
                  "development"] /\
           log = generator_record
                   (generator_base gself service level ns pod_n pod_s cid ts
                                   ats v1 v2 v3 rev ip1 ip2 ip3 owner)
                   ts level msg service).
Proof.
  intros Hs. unfold Generator.generate_normal_log.
  eapply gen_bind; [apply gen_choice; exact Hs | intros service Hsv].
  eapply gen_bind; [apply gen_choice; discriminate | intros level Hlv].
  eapply gen_bind; [apply generator_base_log_full|].
  intros log0 (ns & pod_n & pod_s & cid & ts & ats & v1 & v2 & v3 & rev &
               ip1 & ip2 & ip3 & owner & Hns & ->).
  eapply gen_bind; [apply generator_normal_messages_spec|].
  intros msgs (u1 & ms & u2 & n & u3 & _ & _ & _ & _ & _ & ->).
  eapply gen_bind; [apply gen_choice; discriminate | intros msg Hmsg].
  rewrite add_raw_base. apply gen_ret.
  exists service, level, msg, ns, pod_n, pod_s, cid, ts, ats, v1, v2, v3,
         rev, ip1, ip2, ip3, owner, u1, ms, u2, n, u3.
  repeat split; assumption.
Qed.

Variable fself : Forwarder.MockLogForwarder.

Lemma forwarder_base_log_full (service level : string) :
  gen (Forwarder.generate_base_log fself service level)
      (fun log => exists ns pod_n pod_s ts ats node thread trace_n v1 v2 v3,
           In ns ["production"; "staging"; "development"] /\
           log = forwarder_base service level ns pod_n pod_s ts ats node
                                thread trace_n v1 v2 v3).
Proof.
  unfold Forwarder.generate_base_log.
  eapply gen_bind; [apply gen_choice; discriminate | intros ns Hns].
  eapply gen_bind; [gen_any | intros pod_n _].
  eapply gen_bind; [gen_any | intros pod_s _].
  eapply gen_bind; [gen_any | intros ts _].
  eapply gen_bind; [gen_any | intros ats _].
  eapply gen_bind; [gen_any | intros node _].
  eapply gen_bind; [gen_any | intros thread _].
  eapply gen_bind; [gen_any | intros trace_n _].
  eapply gen_bind; [gen_any | intros v1 _].
  eapply gen_bind; [gen_any | intros v2 _].
  eapply gen_bind; [gen_any | intros v3 _].
  apply gen_ret.
  exists ns, pod_n, pod_s, ts, ats, node, thread, trace_n, v1, v2, v3.
  split; [exact Hns | reflexivity].
Qed.

Lemma forwarder_messages_names (service keyword : string) :
  gen (Forwarder.messages service keyword)
      (fun msgs => map fst msgs = production_template_names).
Proof.
  unfold Forwarder.messages. do 6 gen_skip. apply gen_ret. reflexivity.
Qed.

(** A pattern record of the broker forwarder, in full. *)
Lemma forwarder_pattern_log_full (name : string) (cfg : Catalog.pattern) :
  Catalog.services cfg <> [] -> Catalog.keywords cfg <> [] ->
  gen (Forwarder.generate_pattern_log fself name cfg)
      (fun log => exists service level keyword msgs ns pod_n pod_s ts ats node
                         thread trace_n v1 v2 v3 rq us se,
           In service (Catalog.services cfg) /\
           level_choice cfg level /\
           In keyword (Catalog.keywords cfg) /\
           map fst msgs = production_template_names /\
           In ns ["production"; "staging"; "development"] /\
           log = forwarder_pattern_record service level ns pod_n pod_s ts ats
                   node thread trace_n v1 v2 v3
                   (get_or name msgs ("Service log: " ++ keyword)) rq us se).
Proof.
  intros Hs Hk. unfold Forwarder.generate_pattern_log.
  eapply gen_bind; [apply gen_choice; exact Hs | intros service Hs0].
  eapply gen_bind with (P := level_choice cfg).
  { unfold level_choice.
    destruct (Catalog.log_level (Catalog.pat_conditions cfg)).
    - apply gen_ret. reflexivity.
    - apply gen_choice. discriminate. }
  intros level Hl0.
  eapply gen_bind; [apply forwarder_base_log_full|].
  intros log0 (ns & pod_n & pod_s & ts & ats & node & thread & trace_n &
               v1 & v2 & v3 & Hns & ->).
  eapply gen_bind; [apply gen_choice; exact Hk | intros keyword Hkw].
  eapply gen_bind; [apply forwarder_messages_names | intros msgs Hmsgs].
  eapply gen_bind; [gen_any | intros rq _].
  eapply gen_bind; [gen_any | intros us _].
  eapply gen_bind; [gen_any | intros se _].
  apply gen_ret.
  exists service, level, keyword, msgs, ns, pod_n, pod_s, ts, ats, node,
         thread, trace_n, v1, v2, v3, rq, us, se.
  repeat split; try assumption.
Qed.

(** A normal record of the broker forwarder, in full. *)
Lemma forwarder_normal_log_full :
  Forwarder.services fself <> [] ->
  gen (Forwarder.generate_normal_log fself)
      (fun log => exists service level msg ns pod_n pod_s ts ats node thread
                         trace_n v1 v2 v3 u1 ms u2 n u3 rq,
           In service (Forwarder.services fself) /\
           In level ["INFO"; "DEBUG"] /\
           In msg (normal_texts service u1 ms u2 n u3) /\
           In ns ["production"; "staging"; "development"] /\
           log = forwarder_normal_record
                   (forwarder_base service level ns pod_n pod_s ts ats node
                                   thread trace_n v1 v2 v3) msg rq).
Proof.
  intros Hs. unfold Forwarder.generate_normal_log.
  eapply gen_bind; [apply gen_choice; exact Hs | intros service Hsv].
  eapply gen_bind; [apply gen_choice; discriminate | intros level Hlv].
  eapply gen_bind; [apply forwarder_base_log_full|].
  intros log0 (ns & pod_n & pod_s & ts & ats & node & thread & trace_n &
               v1 & v2 & v3 & Hns & ->).
  eapply gen_bind; [apply forwarder_normal_messages_spec|].
  intros msgs (u1 & ms & u2 & n & u3 & _ & _ & _ & _ & _ & ->).
  eapply gen_bind; [apply gen_choice; discriminate | intros msg Hmsg].
  eapply gen_bind; [gen_any | intros rq _].
  apply gen_ret.
  exists service, level, msg, ns, pod_n, pod_s, ts, ats, node, thread,
         trace_n, v1, v2, v3, u1, ms, u2, n, u3, rq.
  repeat split; assumption.
Qed.

End RecordShapes.

(* ================================================================== *)
(** ** Running a computation step by step *)
(* ================================================================== *)

Section Runs.

Lemma bind_ok {A B} (m : M A) (f : A -> M B) (w w1 : world) (a : A) :
  m w = Ok a w1 -> bind m f w = f a w1.
Proof. intros E. unfold bind. rewrite E. reflexivity. Qed.

Lemma bind_raise {A B} (m : M A) (f : A -> M B) (w w1 : world) (e : exc) :
  m w = Raise e w1 -> bind m f w = Raise e w1.
Proof. intros E. unfold bind. rewrite E. reflexivity. Qed.

Lemma try_except_ok {A} (m : M A) (h : exc -> M A) (w w1 : world) (a : A) :
  m w = Ok a w1 -> try_except m h w = Ok a w1.
Proof. intros E. unfold try_except. rewrite E. reflexivity. Qed.

Lemma try_except_raise {A} (m : M A) (h : exc -> M A) (w w1 : world)
      (e : exc) :
  m w = Raise e w1 -> try_except m h w = h e w1.
Proof. intros E. unfold try_except. rewrite E. reflexivity. Qed.

Lemma sleep_run (ms : Z) (w : world) :
  0 <= ms <= 9223372036854 -> sleep ms w = Ok tt (logged [Sleep ms] w).
Proof. intros H. rewrite (sleep_accepts ms H). reflexivity. Qed.

Lemma stdout_lines_logged_other (events : list event) (w : world) :
  stdout_lines events = [] ->
  stdout_lines (trace (logged events w)) = stdout_lines (trace w).
Proof.
  intros H. cbn [logged trace]. rewrite stdout_lines_app, H.
  apply app_nil_r.
Qed.

End Runs.


(* ================================================================== *)
(** ** Lines and envelopes decode to the record *)
(* ================================================================== *)

Section Decoding.

Lemma generator_base_well_keyed (self : Generator.MockLogGenerator)
      (service level ns : string) (pod_n : Z) (pod_s : string)
      (cid : list N) (ts ats : string) (v1 v2 v3 rev ip1 ip2 ip3 : Z)
      (owner : list N) (msg : string) :
  well_keyed
    (PDict (generator_record
              (generator_base self service level ns pod_n pod_s cid ts ats
                              v1 v2 v3 rev ip1 ip2 ip3 owner)
              ts level msg service)) = true.
Proof. reflexivity. Qed.

Lemma forwarder_pattern_well_keyed (service level ns : string) (pod_n : Z)
      (pod_s ts ats : string) (node thread trace_n v1 v2 v3 : Z)
      (msg : string) (rq us se : Z) :
  well_keyed
    (PDict (forwarder_pattern_record service level ns pod_n pod_s ts ats node
              thread trace_n v1 v2 v3 msg rq us se)) = true.
Proof. reflexivity. Qed.

Lemma forwarder_normal_well_keyed (service level ns : string) (pod_n : Z)
      (pod_s ts ats : string) (node thread trace_n v1 v2 v3 : Z)
      (msg : string) (rq : Z) :
  well_keyed
    (PDict (forwarder_normal_record
              (forwarder_base service level ns pod_n pod_s ts ats node
                              thread trace_n v1 v2 v3) msg rq)) = true.
Proof. reflexivity. Qed.

Lemma output_log_run (log : pydict) (w : world) :
  Generator.output_log log w = Ok tt (printed (Json.dumps (PDict log)) w).
Proof. reflexivity. Qed.

Lemma send_log_run (self : Forwarder.MockLogForwarder) (log : pydict)
      (service level : string) (w : world) :
  dict_get "service" log = Some (PStr service) ->
  dict_get "level" log = Some (PStr level) ->
  producer w = true ->
  exists report,
    Forwarder.send_log self log w
    = Ok tt (after_reading
               [ KafkaSend (Forwarder.topic self) (service ++ "-" ++ level)
                   (PDict (envelope_of log level
                             (Forwarder.get_default "@timestamp" log
                                (PStr (hd "1970-01-01T00:00:00.000000Z"
                                          (clock w))))
                             (Forwarder.get_default "kubernetes" log
                                                    (PDict []))
                             (Forwarder.get_default "host" log
                                                    (PStr "unknown"))));
                 report ] w) /\
    match dict_get "message" log with
    | Some (PStr m) =>
        report = LogDebug ("Sent transformed log: " ++ service ++ " - "
                             ++ level ++ " - " ++ Py.take 100 m ++ "...")
    | Some (PDict _) =>
        report = LogError "Failed to send log to Kafka: unhashable type: 'slice'"
    | None => report = LogError "Failed to send log to Kafka: 'message'"
    end.
Proof.
  intros Hs Hl Hp.
  unfold Forwarder.send_log, try_except, Forwarder.transformed_log,
    Forwarder.get_default, Forwarder.producer_send, getitem, bind,
    utcnow_str, get_producer, log_error, log_debug, emit, after_reading.
  rewrite Hs, Hl.
  cbn [Forwarder.lower_of ret raise producer trace rnd clock str_hash
       running broker_up].
  rewrite Hp.
  destruct (dict_get "message" log) as [[m|dm]|];
    cbn [Forwarder.first_100 ret raise trace rnd clock str_hash running
         producer broker_up exc_str py_str];
    eexists; (split; [|reflexivity]);
    unfold after_reading, envelope_of, Forwarder.get_default;
    rewrite <- app_assoc; reflexivity.
Qed.

End Decoding.

(** X1.  Whatever record [generate_pattern_log] or [generate_normal_log]
    of the stdout generator returns, [output_log] prints it as exactly one
    line, and decoding that line as JSON gives the record back, key for
    key and in the same order. *)
Theorem stdout_line_decodes (self : Generator.MockLogGenerator) :
  (forall (name : string) (cfg : Catalog.pattern) (w : world),
      Catalog.services cfg <> [] -> Catalog.keywords cfg <> [] ->
      exists log w1 line,
        Generator.generate_pattern_log self name cfg w = Ok log w1 /\
        Generator.output_log log w1 = Ok tt (printed line w1) /\
        trace (printed line w1) = (trace w ++ [Stdout line])%list /\
        Json.loads line = Some (PDict log)) /\
  (forall (w : world),
      Generator.services self <> [] ->
      exists log w1 line,
        Generator.generate_normal_log self w = Ok log w1 /\
        Generator.output_log log w1 = Ok tt (printed line w1) /\
        trace (printed line w1) = (trace w ++ [Stdout line])%list /\
        Json.loads line = Some (PDict log)).
Proof.
  split.
  - intros name cfg w Hs Hk.
    destruct (generator_pattern_log_full self name cfg Hs Hk w)
      as (log & w1 & E & (_ & _ & _ & _ & Ht) & H).
    destruct H as (s0 & l0 & k & msgs & ns & pod_n & pod_s & cid & ts & ats &
                   v1 & v2 & v3 & rev & ip1 & ip2 & ip3 & owner &
                   _ & _ & _ & _ & _ & H).
    cbv zeta in H.
    exists log, w1, (Json.dumps (PDict log)).
    split; [exact E|]. split; [apply output_log_run|].
    split; [cbn [printed trace]; rewrite Ht; reflexivity|].
    apply loads_dumps. rewrite H. apply generator_base_well_keyed.
  - intros w Hs.
    destruct (generator_normal_log_full self Hs w)
      as (log & w1 & E & (_ & _ & _ & _ & Ht) & H).
    destruct H as (sv & lv & msg & ns & pod_n & pod_s & cid & ts & ats &
                   v1 & v2 & v3 & rev & ip1 & ip2 & ip3 & owner &
                   u1 & ms & u2 & n & u3 & _ & _ & _ & _ & H).
    exists log, w1, (Json.dumps (PDict log)).
    split; [exact E|]. split; [apply output_log_run|].
    split; [cbn [printed trace]; rewrite Ht; reflexivity|].
    apply loads_dumps. rewrite H. apply generator_base_well_keyed.
Qed.

Lemma stdout_line_decodes_witness :
  Generator.services generator0 <> [] /\
  exists log w1 line,
    Generator.generate_normal_log generator0 world0 = Ok log w1 /\
    Generator.output_log log w1 = Ok tt (printed line w1) /\
    trace (printed line w1) = (trace world0 ++ [Stdout line])%list /\
    Json.loads line = Some (PDict log).
Proof.
  assert (H : Generator.services generator0 <> []) by discriminate.
  exact (conj H (proj2 (stdout_line_decodes generator0) world0 H)).
Defined.

Section ForwarderSends.

Import Forwarder.

Variable self : MockLogForwarder.

(** What a record must be for [send_log] to publish it whole: published
    once, under the topic of the object, in an envelope whose [message]
    decodes to the record and that carries the record's own
    [@timestamp], [kubernetes] and [host]. *)
Lemma sent_whole (log : pydict) (service level msg : string)
      (ats kube host : pyval) (w : world) :
  dict_get "service" log = Some (PStr service) ->
  dict_get "level" log = Some (PStr level) ->
  dict_get "message" log = Some (PStr msg) ->
  dict_get "@timestamp" log = Some ats ->
  dict_get "kubernetes" log = Some kube ->
  dict_get "host" log = Some host ->
  well_keyed (PDict log) = true ->
  producer w = true ->
  exists w2 key envelope text,
    send_log self log w = Ok tt w2 /\
    running w2 = running w /\ producer w2 = true /\
    published (trace w2)
    = (published (trace w) ++ [(topic self, key, PDict envelope)])%list /\
    dict_get "message" envelope = Some (PStr text) /\
    Json.loads text = Some (PDict log) /\
    dict_get "@timestamp" envelope = dict_get "@timestamp" log /\
    dict_get "kubernetes" envelope = dict_get "kubernetes" log /\
    dict_get "host" envelope = dict_get "host" log.
Proof.
  intros Hs Hl Hm Ha Hk Hh Hw Hp.
  destruct (send_log_run self log service level w Hs Hl Hp)
    as (report & E & Hr).
  rewrite Hm in Hr.
  eexists _, _, _, _. split; [exact E|].
  split; [reflexivity|]. split; [exact Hp|].
  split.
  { cbn [after_reading trace]. rewrite published_app, Hr. reflexivity. }
  split; [reflexivity|].
  split; [apply loads_dumps; exact Hw|].
  unfold get_default. rewrite Ha, Hk, Hh. repeat split; reflexivity.
Qed.

Lemma forwarder_pattern_sent (name : string) (cfg : Catalog.pattern)
      (w : world) :
  Catalog.services cfg <> [] -> Catalog.keywords cfg <> [] ->
  producer w = true ->
  exists log w1 w2 key envelope text,
    generate_pattern_log self name cfg w = Ok log w1 /\
    send_log self log w1 = Ok tt w2 /\
    running w2 = running w /\ producer w2 = true /\
    published (trace w2)
    = (published (trace w) ++ [(topic self, key, PDict envelope)])%list /\
    dict_get "message" envelope = Some (PStr text) /\
    Json.loads text = Some (PDict log) /\
    dict_get "@timestamp" envelope = dict_get "@timestamp" log /\
    dict_get "kubernetes" envelope = dict_get "kubernetes" log /\
    dict_get "host" envelope = dict_get "host" log /\
    dict_get "@timestamp" log <> None /\
    dict_get "kubernetes" log <> None /\
    dict_get "host" log <> None.
Proof.
  intros Hs Hk Hp.
  destruct (forwarder_pattern_log_full self name cfg Hs Hk w)
    as (log & w1 & E & (_ & Hr1 & Hp1 & _ & Ht) & H).
  destruct H as (sv & lv & k & msgs & ns & pod_n & pod_s & ts & ats & node &
                 thread & trace_n & v1 & v2 & v3 & rq & us & se &
                 _ & _ & _ & _ & _ & H).
  assert (Hp' : producer w1 = true) by congruence.
  destruct (sent_whole log sv lv
              (get_or name msgs ("Service log: " ++ k))
              (PStr ats)
              (PDict
                 [ ("namespace", PStr ns);
                   ("pod", PStr (sv ++ "-" ++ Py.str_of_int pod_n ++ "-"
                                    ++ pod_s));
                   ("container", PStr sv);
                   ("labels", PDict
                      [ ("app", PStr sv);
                        ("version", PStr ("v" ++ Py.str_of_int v1 ++ "."
                                              ++ Py.str_of_int v2 ++ "."
                                              ++ Py.str_of_int v3));
                        ("environment", PStr ns);
                        ("component", PStr (component_of sv)) ]);
                   ("namespace_name", PStr ns) ])
              (PStr ("worker-node-" ++ Py.str_of_int node)) w1)
    as (w2 & key & envelope & text & Es & R & P & Hpub & rest);
    try (rewrite H; reflexivity); try exact Hp'.
  exists log, w1, w2, key, envelope, text.
  split; [exact E|]. split; [exact Es|].
  split; [congruence|]. split; [exact P|].
  split; [rewrite Hpub, Ht; reflexivity|].
  destruct rest as (A & B & C & D & F).
  repeat split; try assumption; rewrite H; discriminate.
Qed.

Lemma forwarder_normal_sent (w : world) :
  services self <> [] ->
  producer w = true ->
  exists log w1 w2 key envelope text,
    generate_normal_log self w = Ok log w1 /\
    send_log self log w1 = Ok tt w2 /\
    running w2 = running w /\ producer w2 = true /\
    published (trace w2)
    = (published (trace w) ++ [(topic self, key, PDict envelope)])%list /\
    dict_get "message" envelope = Some (PStr text) /\
    Json.loads text = Some (PDict log) /\
    dict_get "@timestamp" envelope = dict_get "@timestamp" log /\
    dict_get "kubernetes" envelope = dict_get "kubernetes" log /\
    dict_get "host" envelope = dict_get "host" log /\
    dict_get "@timestamp" log <> None /\
    dict_get "kubernetes" log <> None /\
    dict_get "host" log <> None.
Proof.
  intros Hs Hp.
  destruct (forwarder_normal_log_full self Hs w)
    as (log & w1 & E & (_ & Hr1 & Hp1 & _ & Ht) & H).
  destruct H as (sv & lv & msg & ns & pod_n & pod_s & ts & ats & node &
                 thread & trace_n & v1 & v2 & v3 & u1 & ms & u2 & n & u3 &
                 rq & _ & _ & _ & _ & H).
  assert (Hp' : producer w1 = true) by congruence.
  destruct (sent_whole log sv lv msg (PStr ats)
              (PDict
                 [ ("namespace", PStr ns);
                   ("pod", PStr (sv ++ "-" ++ Py.str_of_int pod_n ++ "-"
                                    ++ pod_s));
                   ("container", PStr sv);
                   ("labels", PDict
                      [ ("app", PStr sv);
                        ("version", PStr ("v" ++ Py.str_of_int v1 ++ "."
                                              ++ Py.str_of_int v2 ++ "."
                                              ++ Py.str_of_int v3));
                        ("environment", PStr ns);
                        ("component", PStr (component_of sv)) ]) ])
              (PStr ("worker-node-" ++ Py.str_of_int node)) w1)
    as (w2 & key & envelope & text & Es & R & P & Hpub & rest);
    try (rewrite H; reflexivity); try exact Hp'.
  exists log, w1, w2, key, envelope, text.
  split; [exact E|]. split; [exact Es|].
  split; [congruence|]. split; [exact P|].
  split; [rewrite Hpub, Ht; reflexivity|].
  destruct rest as (A & B & C & D & F).
  repeat split; try assumption; rewrite H; discriminate.
Qed.

End ForwarderSends.

(** X2.  With a connected producer, the record [generate_pattern_log] or
    [generate_normal_log] of the broker forwarder returns is published by
    [send_log] as exactly one message whose envelope can be undone:
    decoding the envelope's [message] as JSON gives the record back, and
    the envelope's [@timestamp], [kubernetes] and [host] are the record's
    own (none of the three defaults is used). *)
Theorem envelope_message_decodes (self : Forwarder.MockLogForwarder) :
  (forall (name : string) (cfg : Catalog.pattern) (w : world),
      Catalog.services cfg <> [] -> Catalog.keywords cfg <> [] ->
      producer w = true ->
      exists log w1 w2 key envelope text,
        Forwarder.generate_pattern_log self name cfg w = Ok log w1 /\
        Forwarder.send_log self log w1 = Ok tt w2 /\
        published (trace w2)
        = (published (trace w)
           ++ [(Forwarder.topic self, key, PDict envelope)])%list /\
        dict_get "message" envelope = Some (PStr text) /\
        Json.loads text = Some (PDict log) /\
        dict_get "@timestamp" envelope = dict_get "@timestamp" log /\
        dict_get "kubernetes" envelope = dict_get "kubernetes" log /\
        dict_get "host" envelope = dict_get "host" log /\
        dict_get "@timestamp" log <> None /\
        dict_get "kubernetes" log <> None /\
        dict_get "host" log <> None) /\
  (forall (w : world),
      Forwarder.services self <> [] ->
      producer w = true ->
      exists log w1 w2 key envelope text,
        Forwarder.generate_normal_log self w = Ok log w1 /\
        Forwarder.send_log self log w1 = Ok tt w2 /\
        published (trace w2)
        = (published (trace w)
           ++ [(Forwarder.topic self, key, PDict envelope)])%list /\
        dict_get "message" envelope = Some (PStr text) /\
        Json.loads text = Some (PDict log) /\
        dict_get "@timestamp" envelope = dict_get "@timestamp" log /\
        dict_get "kubernetes" envelope = dict_get "kubernetes" log /\
        dict_get "host" envelope = dict_get "host" log /\
        dict_get "@timestamp" log <> None /\
        dict_get "kubernetes" log <> None /\
        dict_get "host" log <> None).
Proof.
  split.
  - intros name cfg w Hs Hk Hp.
    destruct (forwarder_pattern_sent self name cfg w Hs Hk Hp)
      as (log & w1 & w2 & key & envelope & text & E & Es & _ & _ & rest).
    exists log, w1, w2, key, envelope, text.
    split; [exact E|]. split; [exact Es|]. exact rest.
  - intros w Hs Hp.
    destruct (forwarder_normal_sent self w Hs Hp)
      as (log & w1 & w2 & key & envelope & text & E & Es & _ & _ & rest).
    exists log, w1, w2, key, envelope, text.
    split; [exact E|]. split; [exact Es|]. exact rest.
Qed.

Lemma envelope_message_decodes_witness :
  Forwarder.services forwarder0 <> [] /\
  producer world0 = true /\
  exists log w1 w2 key envelope text,
    Forwarder.generate_normal_log forwarder0 world0 = Ok log w1 /\
    Forwarder.send_log forwarder0 log w1 = Ok tt w2 /\
    published (trace w2)
    = (published (trace world0)
       ++ [(Forwarder.topic forwarder0, key, PDict envelope)])%list /\
    dict_get "message" envelope = Some (PStr text) /\
    Json.loads text = Some (PDict log) /\
    dict_get "@timestamp" envelope = dict_get "@timestamp" log /\
    dict_get "kubernetes" envelope = dict_get "kubernetes" log /\
    dict_get "host" envelope = dict_get "host" log /\
    dict_get "@timestamp" log <> None /\
    dict_get "kubernetes" log <> None /\
    dict_get "host" log <> None.
Proof.
  assert (H : Forwarder.services forwarder0 <> []) by discriminate.
  exact (conj H (conj eq_refl
                      (proj2 (envelope_message_decodes forwarder0) world0 H
                             eq_refl))).
Defined.

(* ================================================================== *)
(** ** What every record carries *)
(* ================================================================== *)

Section RecordFields.

Lemma split_head_no_char (c : ascii) (s : string) :
  Py.has_char c (Py.split_head c s) = false.
Proof.
  induction s as [|a s IH]; cbn [Py.split_head]; [reflexivity|].
  destruct (Ascii.eqb a c) eqn:E; [reflexivity|].
  cbn [Py.has_char]. rewrite E. exact IH.
Qed.

Lemma split_head_prefix (c : ascii) (s : string) :
  String.prefix (Py.split_head c s) s = true.
Proof.
  induction s as [|a s IH]; cbn [Py.split_head]; [reflexivity|].
  destruct (Ascii.eqb a c); [reflexivity|].
  cbn [String.prefix]. destruct (ascii_dec a a); [exact IH | contradiction].
Qed.

Lemma split_head_then_char (c : ascii) (s : string) :
  Py.has_char c s = true ->
  String.prefix (Py.split_head c s ++ String c EmptyString) s = true.
Proof.
  induction s as [|a s IH]; cbn [Py.has_char Py.split_head];
    [discriminate|].
  destruct (Ascii.eqb a c) eqn:E; cbn [orb].
  - intros _. apply Ascii.eqb_eq in E. subst a.
    cbn [append String.prefix].
    destruct (ascii_dec c c); [apply prefix_nil | contradiction].
  - intros H. cbn [append String.prefix].
    destruct (ascii_dec a a); [exact (IH H) | contradiction].
Qed.

Lemma prefix_self (s : string) : String.prefix s s = true.
Proof.
  induction s as [|a s IH]; [reflexivity|].
  cbn [String.prefix]. destruct (ascii_dec a a); [exact IH | contradiction].
Qed.

Lemma component_of_spec (service : string) :
  Py.has_char "-" (component_of service) = false /\
  String.prefix (component_of service) service = true /\
  (Py.has_char "-" service = false -> component_of service = service) /\
  (Py.has_char "-" service = true ->
   String.prefix (component_of service ++ "-") service = true).
Proof.
  unfold component_of.
  destruct (Py.has_char "-" service) eqn:E.
  - split; [apply split_head_no_char|].
    split; [apply split_head_prefix|].
    split; [discriminate|]. intros _. apply split_head_then_char. exact E.
  - split; [exact E|]. split; [apply prefix_self|].
    split; [reflexivity | discriminate].
Qed.

Lemma generator_record_fields (self : Generator.MockLogGenerator)
      (service level ns : string) (pod_n : Z) (pod_s : string)
      (cid : list N) (ts ats : string) (v1 v2 v3 rev ip1 ip2 ip3 : Z)
      (owner : list N) (msg : string) :
  let log := generator_record
               (generator_base self service level ns pod_n pod_s cid ts ats
                               v1 v2 v3 rev ip1 ip2 ip3 owner)
               ts level msg service in
  kubernetes_agrees true true log /\ component_label log /\
  service_is service log /\
  dict_get "level" log = Some (PStr level) /\
  dict_get "service" log = Some (PStr service) /\
  dict_get "namespace" log = Some (PStr ns) /\
  dict_get "message" log = Some (PStr msg).
Proof.
  cbv zeta. split; [|split; [|split]].
  - eexists _, _, _, _. repeat split; discriminate.
  - destruct (component_of_spec service) as (A & B & C & D).
    eexists _, _, _, _. repeat split; assumption.
  - eexists _, _. repeat split.
  - repeat split.
Qed.

Lemma forwarder_pattern_record_fields (service level ns : string) (pod_n : Z)
      (pod_s ts ats : string) (node thread trace_n v1 v2 v3 : Z)
      (msg : string) (rq us se : Z) :
  let log := forwarder_pattern_record service level ns pod_n pod_s ts ats
               node thread trace_n v1 v2 v3 msg rq us se in
  kubernetes_agrees true false log /\ component_label log /\
  service_is service log /\
  dict_get "level" log = Some (PStr level) /\
  dict_get "service" log = Some (PStr service) /\
  dict_get "namespace" log = Some (PStr ns) /\
  dict_get "message" log = Some (PStr msg).
Proof.
  cbv zeta. split; [|split; [|split]].
  - eexists _, _, _, _. repeat split; discriminate.
  - destruct (component_of_spec service) as (A & B & C & D).
    eexists _, _, _, _. repeat split; assumption.
  - eexists _, _. repeat split.
  - repeat split.
Qed.

Lemma forwarder_normal_record_fields (service level ns : string) (pod_n : Z)
      (pod_s ts ats : string) (node thread trace_n v1 v2 v3 : Z)
      (msg : string) (rq : Z) :
  let log := forwarder_normal_record
               (forwarder_base service level ns pod_n pod_s ts ats node
                               thread trace_n v1 v2 v3) msg rq in
  kubernetes_agrees false false log /\ component_label log /\
  service_is service log /\
  dict_get "level" log = Some (PStr level) /\
  dict_get "service" log = Some (PStr service) /\
  dict_get "namespace" log = Some (PStr ns) /\
  dict_get "message" log = Some (PStr msg).
Proof.
  cbv zeta. split; [|split; [|split]].
  - eexists _, _, _, _. repeat split; discriminate.
  - destruct (component_of_spec service) as (A & B & C & D).
    eexists _, _, _, _. repeat split; assumption.
  - eexists _, _. repeat split.
  - repeat split.
Qed.

End RecordFields.

Section RecordsOfTheScripts.

Variable gself : Generator.MockLogGenerator.
Variable fself : Forwarder.MockLogForwarder.

Lemma generator_pattern_log_fields (name : string) (cfg : Catalog.pattern) :
  Catalog.services cfg <> [] -> Catalog.keywords cfg <> [] ->
  gen (Generator.generate_pattern_log gself name cfg)
      (fun log => exists service0 level0 keyword msgs ns,
           In service0 (Catalog.services cfg) /\
           level_choice cfg level0 /\
           In keyword (Catalog.keywords cfg) /\
           map fst msgs = template_names gself /\
           In ns [Generator.namespace gself; "production"; "staging";
                  "development"] /\
           kubernetes_agrees true true log /\ component_label log /\
           service_is (snd (Generator.apply_overrides gself name level0
                                                      service0)) log /\
           dict_get "level" log
           = Some (PStr (fst (Generator.apply_overrides gself name level0
                                                        service0))) /\
           dict_get "service" log
           = Some (PStr (snd (Generator.apply_overrides gself name level0
                                                        service0))) /\
           dict_get "namespace" log = Some (PStr ns) /\
           dict_get "message" log
           = Some (PStr (get_or name msgs ("Service log: " ++ keyword)))).
Proof.
  intros Hs Hk.
  eapply gen_weaken; [apply (generator_pattern_log_full gself name cfg Hs Hk)|].
  intros log (s0 & l0 & k & msgs & ns & pod_n & pod_s & cid & ts & ats &
              v1 & v2 & v3 & rev & ip1 & ip2 & ip3 & owner &
              H1 & H2 & H3 & H4 & H5 & H).
  cbv zeta in H. exists s0, l0, k, msgs, ns.
  do 5 (split; [assumption|]). rewrite H.
  apply generator_record_fields.
Qed.

Lemma generator_normal_log_fields :
  Generator.services gself <> [] ->
  gen (Generator.generate_normal_log gself)
      (fun log => exists service level msg ns u1 ms u2 n u3,
           In service (Generator.services gself) /\
           In level ["INFO"; "DEBUG"] /\
           In msg (normal_texts service u1 ms u2 n u3) /\
           In ns [Generator.namespace gself; "production"; "staging";
                  "development"] /\
           kubernetes_agrees true true log /\ component_label log /\
           service_is service log /\
           dict_get "level" log = Some (PStr level) /\
           dict_get "service" log = Some (PStr service) /\
           dict_get "namespace" log = Some (PStr ns) /\
           dict_get "message" log = Some (PStr msg)).
Proof.
  intros Hs.
  eapply gen_weaken; [apply (generator_normal_log_full gself Hs)|].
  intros log (sv & lv & msg & ns & pod_n & pod_s & cid & ts & ats &
              v1 & v2 & v3 & rev & ip1 & ip2 & ip3 & owner &
              u1 & ms & u2 & n & u3 & H1 & H2 & H3 & H4 & H).
  exists sv, lv, msg, ns, u1, ms, u2, n, u3.
  do 4 (split; [assumption|]). rewrite H.
  apply generator_record_fields.
Qed.

Lemma forwarder_pattern_log_fields (name : string) (cfg : Catalog.pattern) :
  Catalog.services cfg <> [] -> Catalog.keywords cfg <> [] ->
  gen (Forwarder.generate_pattern_log fself name cfg)
      (fun log => exists service level keyword msgs ns,
           In service (Catalog.services cfg) /\
           level_choice cfg level /\
           In keyword (Catalog.keywords cfg) /\
           map fst msgs = production_template_names /\
           In ns ["production"; "staging"; "development"] /\
           kubernetes_agrees true false log /\ component_label log /\
           service_is service log /\
           dict_get "level" log = Some (PStr level) /\
           dict_get "service" log = Some (PStr service) /\
           dict_get "namespace" log = Some (PStr ns) /\
           dict_get "message" log
           = Some (PStr (get_or name msgs ("Service log: " ++ keyword)))).
Proof.
  intros Hs Hk.
  eapply gen_weaken; [apply (forwarder_pattern_log_full fself name cfg Hs Hk)|].
  intros log (sv & lv & k & msgs & ns & pod_n & pod_s & ts & ats & node &
              thread & trace_n & v1 & v2 & v3 & rq & us & se &
              H1 & H2 & H3 & H4 & H5 & H).
  exists sv, lv, k, msgs, ns.
  do 5 (split; [assumption|]). rewrite H.
  apply forwarder_pattern_record_fields.
Qed.

Lemma forwarder_normal_log_fields :
  Forwarder.services fself <> [] ->
  gen (Forwarder.generate_normal_log fself)
      (fun log => exists service level msg ns u1 ms u2 n u3,
           In service (Forwarder.services fself) /\
           In level ["INFO"; "DEBUG"] /\
           In msg (normal_texts service u1 ms u2 n u3) /\
           In ns ["production"; "staging"; "development"] /\
           kubernetes_agrees false false log /\ component_label log /\
           service_is service log /\
           dict_get "level" log = Some (PStr level) /\
           dict_get "service" log = Some (PStr service) /\
           dict_get "namespace" log = Some (PStr ns) /\
           dict_get "message" log = Some (PStr msg)).
Proof.
  intros Hs.
  eapply gen_weaken; [apply (forwarder_normal_log_full fself Hs)|].
  intros log (sv & lv & msg & ns & pod_n & pod_s & ts & ats & node &
              thread & trace_n & v1 & v2 & v3 & u1 & ms & u2 & n & u3 &
              rq & H1 & H2 & H3 & H4 & H).
  exists sv, lv, msg, ns, u1, ms, u2, n, u3.
  do 4 (split; [assumption|]). rewrite H.
  apply forwarder_normal_record_fields.
Qed.

End RecordsOfTheScripts.

Section CatalogDomains.

Lemma catalog_domains (name : string) (cfg : Catalog.pattern) :
  In (name, cfg) Catalog.patterns ->
  (forall s, In s (Catalog.services cfg) -> In s Catalog.all_services) /\
  (forall l, level_choice cfg l -> In l pattern_levels).
Proof.
  intros H. unfold Catalog.patterns in H. in_cases H;
    injection H as <- <-; (split; [intros s Hs | intros l Hl]);
    try (cbn in Hs; in_cases Hs; subst s; cbn; auto 20);
    unfold level_choice in Hl; cbn in Hl;
    try (subst l; cbn; auto 10);
    try (in_cases Hl; subst l; cbn; auto 10).
Qed.

Lemma apply_overrides_domain (self : Generator.MockLogGenerator)
      (name level service : string) :
  In level pattern_levels -> In service Catalog.all_services ->
  In (fst (Generator.apply_overrides self name level service)) pattern_levels /\
  In (snd (Generator.apply_overrides self name level service))
     Catalog.all_services.
Proof.
  intros Hl Hs. unfold Generator.apply_overrides.
  destruct (String.eqb (Generator.mode self) "test"); [|split; assumption].
  unfold Generator.e2e_overrides. cbn [Generator.assoc].
  repeat match goal with
         | |- context [String.eqb ?a name] => destruct (String.eqb a name)
         end;
    cbn; auto 20.
Qed.

Lemma catalog_service_condition (name : string) (cfg : Catalog.pattern)
      (s : string) :
  In (name, cfg) Catalog.patterns ->
  Catalog.service (Catalog.pat_conditions cfg) = Some s ->
  Catalog.services cfg = [s] /\
  forall (self : Generator.MockLogGenerator) (level : string),
    snd (Generator.apply_overrides self name level s) = s.
Proof.
  intros H. unfold Catalog.patterns in H. in_cases H;
    injection H as <- <-; cbn; intros E; try discriminate;
    injection E as <-; (split; [reflexivity|]);
    intros self level; unfold Generator.apply_overrides;
    destruct (String.eqb (Generator.mode self) "test"); reflexivity.
Qed.

End CatalogDomains.

(** X3.  In every record of either script the [kubernetes] block agrees
    with the top level: its [namespace] and the label [environment] are
    the record's namespace, its [container] and the label [app] are the
    record's service.  The records of the stdout generator repeat them
    under [namespace_name], [container_name] and [pod_name]; a pattern
    record of the broker forwarder has [namespace_name] only, and a
    normal record of the broker forwarder has none of the three. *)
Theorem kubernetes_block_agrees :
  (forall (self : Generator.MockLogGenerator) (name : string)
          (cfg : Catalog.pattern),
      Catalog.services cfg <> [] -> Catalog.keywords cfg <> [] ->
      gen (Generator.generate_pattern_log self name cfg)
          (kubernetes_agrees true true)) /\
  (forall (self : Generator.MockLogGenerator),
      Generator.services self <> [] ->
      gen (Generator.generate_normal_log self)
          (kubernetes_agrees true true)) /\
  (forall (self : Forwarder.MockLogForwarder) (name : string)
          (cfg : Catalog.pattern),
      Catalog.services cfg <> [] -> Catalog.keywords cfg <> [] ->
      gen (Forwarder.generate_pattern_log self name cfg)
          (kubernetes_agrees true false)) /\
  (forall (self : Forwarder.MockLogForwarder),
      Forwarder.services self <> [] ->
      gen (Forwarder.generate_normal_log self)
          (kubernetes_agrees false false)).
Proof.
  split; [|split; [|split]].
  - intros self name cfg Hs Hk.
    eapply gen_weaken; [apply (generator_pattern_log_fields self name cfg Hs Hk)|].
    intros log (s0 & l0 & k & msgs & ns & _ & _ & _ & _ & _ & H & _).
    exact H.
  - intros self Hs.
    eapply gen_weaken; [apply (generator_normal_log_fields self Hs)|].
    intros log (sv & lv & msg & ns & u1 & ms & u2 & n & u3 &
                _ & _ & _ & _ & H & _).
    exact H.
  - intros self name cfg Hs Hk.
    eapply gen_weaken; [apply (forwarder_pattern_log_fields self name cfg Hs Hk)|].
    intros log (s0 & l0 & k & msgs & ns & _ & _ & _ & _ & _ & H & _).
    exact H.
  - intros self Hs.
    eapply gen_weaken; [apply (forwarder_normal_log_fields self Hs)|].
    intros log (sv & lv & msg & ns & u1 & ms & u2 & n & u3 &
                _ & _ & _ & _ & H & _).
    exact H.
Qed.

Lemma kubernetes_block_agrees_witness :
  Forwarder.services forwarder0 <> [] /\
  gen (Forwarder.generate_normal_log forwarder0)
      (kubernetes_agrees false false).
Proof.
  assert (H : Forwarder.services forwarder0 <> []) by discriminate.
  exact (conj H (proj2 (proj2 (proj2 kubernetes_block_agrees)) forwarder0 H)).
Defined.

(** X4.  In every record of either script the label [component] is the
    service up to its first dash: it has no dash, it is a prefix of the
    service, it is the whole service when the service has no dash, and
    otherwise a dash follows it in the service. *)
Theorem component_is_service_head :
  (forall (self : Generator.MockLogGenerator) (name : string)
          (cfg : Catalog.pattern),
      Catalog.services cfg <> [] -> Catalog.keywords cfg <> [] ->
      gen (Generator.generate_pattern_log self name cfg) component_label) /\
  (forall (self : Generator.MockLogGenerator),
      Generator.services self <> [] ->
      gen (Generator.generate_normal_log self) component_label) /\
  (forall (self : Forwarder.MockLogForwarder) (name : string)
          (cfg : Catalog.pattern),
      Catalog.services cfg <> [] -> Catalog.keywords cfg <> [] ->
      gen (Forwarder.generate_pattern_log self name cfg) component_label) /\
  (forall (self : Forwarder.MockLogForwarder),
      Forwarder.services self <> [] ->
      gen (Forwarder.generate_normal_log self) component_label).
Proof.
  split; [|split; [|split]].
  - intros self name cfg Hs Hk.
    eapply gen_weaken; [apply (generator_pattern_log_fields self name cfg Hs Hk)|].
    intros log (s0 & l0 & k & msgs & ns & _ & _ & _ & _ & _ & _ & H & _).
    exact H.
  - intros self Hs.
    eapply gen_weaken; [apply (generator_normal_log_fields self Hs)|].
    intros log (sv & lv & msg & ns & u1 & ms & u2 & n & u3 &
                _ & _ & _ & _ & _ & H & _).
    exact H.
  - intros self name cfg Hs Hk.
    eapply gen_weaken; [apply (forwarder_pattern_log_fields self name cfg Hs Hk)|].
    intros log (s0 & l0 & k & msgs & ns & _ & _ & _ & _ & _ & _ & H & _).
    exact H.
  - intros self Hs.
    eapply gen_weaken; [apply (forwarder_normal_log_fields self Hs)|].
    intros log (sv & lv & msg & ns & u1 & ms & u2 & n & u3 &
                _ & _ & _ & _ & _ & H & _).
    exact H.
Qed.

Lemma component_is_service_head_witness :
  Generator.services generator0 <> [] /\
  gen (Generator.generate_normal_log generator0) component_label.
Proof.
  assert (H : Generator.services generator0 <> []) by discriminate.
  exact (conj H (proj1 (proj2 component_is_service_head) generator0 H)).
Defined.

(** X5.  A pattern name that has no text of its own in the [messages]
    dict gets the fallback text: the message is exactly
    ["Service log: "] followed by the drawn keyword.  The dict of the
    broker forwarder, and the one of the stdout generator outside test
    mode, have a text for each of the nineteen catalog patterns; the dict
    of test mode lacks seven of them. *)
Theorem fallback_message :
  (forall (self : Generator.MockLogGenerator) (name : string)
          (cfg : Catalog.pattern),
      Catalog.services cfg <> [] -> Catalog.keywords cfg <> [] ->
      existsb (String.eqb name) (template_names self) = false ->
      gen (Generator.generate_pattern_log self name cfg)
          (fallback_text (Catalog.keywords cfg))) /\
  (forall (self : Forwarder.MockLogForwarder) (name : string)
          (cfg : Catalog.pattern),
      Catalog.services cfg <> [] -> Catalog.keywords cfg <> [] ->
      existsb (String.eqb name) production_template_names = false ->
      gen (Forwarder.generate_pattern_log self name cfg)
          (fallback_text (Catalog.keywords cfg))) /\
  filter (fun name => negb (existsb (String.eqb name) test_template_names))
         (map fst Catalog.patterns)
  = [ "payment_failures"; "service_timeouts"; "critical_namespace_alerts";
      "inventory_warnings"; "notification_failures"; "audit_issues";
      "cross_service_errors" ] /\
  filter (fun name =>
            negb (existsb (String.eqb name) production_template_names))
         (map fst Catalog.patterns)
  = [].
Proof.
  split; [|split; [|split; reflexivity]].
  - intros self name cfg Hs Hk Hn.
    eapply gen_weaken; [apply (generator_pattern_log_fields self name cfg Hs Hk)|].
    intros log (s0 & l0 & k & msgs & ns & _ & _ & Hkw & Hm & _ & _ & _ & _ &
                _ & _ & _ & H).
    exists k. split; [exact Hkw|].
    rewrite H, get_or_absent; [reflexivity|]. rewrite Hm. exact Hn.
  - intros self name cfg Hs Hk Hn.
    eapply gen_weaken; [apply (forwarder_pattern_log_fields self name cfg Hs Hk)|].
    intros log (s0 & l0 & k & msgs & ns & _ & _ & Hkw & Hm & _ & _ & _ & _ &
                _ & _ & _ & H).
    exists k. split; [exact Hkw|].
    rewrite H, get_or_absent; [reflexivity|]. rewrite Hm. exact Hn.
Qed.

Lemma fallback_message_witness :
  Catalog.services (catalog_pattern "audit_issues") <> [] /\
  Catalog.keywords (catalog_pattern "audit_issues") <> [] /\
  existsb (String.eqb "audit_issues") (template_names test_generator0)
  = false /\
  gen (Generator.generate_pattern_log test_generator0 "audit_issues"
         (catalog_pattern "audit_issues"))
      (fallback_text (Catalog.keywords (catalog_pattern "audit_issues"))).
Proof.
  assert (H1 : Catalog.services (catalog_pattern "audit_issues") <> [])
    by discriminate.
  assert (H2 : Catalog.keywords (catalog_pattern "audit_issues") <> [])
    by discriminate.
  exact (conj H1 (conj H2 (conj eq_refl
           (proj1 fallback_message test_generator0 "audit_issues"
                  (catalog_pattern "audit_issues") H1 H2 eq_refl)))).
Defined.

(** X6.  The objects [__init__] builds emit records within fixed
    domains.  A record for a catalog pattern has one of five levels,
    never [DEBUG], and one of the fourteen services, the overrides of
    test mode included; a normal record has level [INFO] or [DEBUG].  The namespace is one of
    the three environments or, in the stdout generator, the namespace of
    the pod. *)
Theorem records_stay_in_domains :
  (forall (env : Generator.environ) (m : string) (name : string)
          (cfg : Catalog.pattern),
      In (name, cfg) Catalog.patterns ->
      gen (Generator.generate_pattern_log
             (Generator.with_mode m (Generator.init env)) name cfg)
          (in_domains pattern_levels Catalog.all_services
                      [ Generator.getenv (Generator.POD_NAMESPACE env)
                                         "mock-logs";
                        "production"; "staging"; "development" ])) /\
  (forall (env : Generator.environ) (m : string),
      gen (Generator.generate_normal_log
             (Generator.with_mode m (Generator.init env)))
          (in_domains ["INFO"; "DEBUG"] Catalog.all_services
                      [ Generator.getenv (Generator.POD_NAMESPACE env)
                                         "mock-logs";
                        "production"; "staging"; "development" ])) /\
  (forall (kafka_broker topic : string) (name : string)
          (cfg : Catalog.pattern),
      In (name, cfg) Catalog.patterns ->
      gen (Forwarder.generate_pattern_log
             (Forwarder.init kafka_broker topic) name cfg)
          (in_domains pattern_levels Catalog.all_services
                      ["production"; "staging"; "development"])) /\
  (forall (kafka_broker topic : string),
      gen (Forwarder.generate_normal_log (Forwarder.init kafka_broker topic))
          (in_domains ["INFO"; "DEBUG"] Catalog.all_services
                      ["production"; "staging"; "development"])).
Proof.
  split; [|split; [|split]].
  - intros env m name cfg Hin.
    destruct (catalog_lists_nonempty name cfg Hin) as [Hs Hk].
    destruct (catalog_domains name cfg Hin) as [Ds Dl].
    eapply gen_weaken;
      [apply (generator_pattern_log_fields _ name cfg Hs Hk)|].
    intros log (s0 & l0 & k & msgs & ns & Hs0 & Hl0 & _ & _ & Hns & _ & _ &
                _ & Hlv & Hsv & Hn & _).
    destruct (apply_overrides_domain
                (Generator.with_mode m (Generator.init env)) name l0 s0
                (Dl l0 Hl0) (Ds s0 Hs0)) as [A B].
    eexists _, _, _. split; [exact Hlv|]. split; [exact Hsv|].
    split; [exact Hn|]. split; [exact A|]. split; [exact B | exact Hns].
  - intros env m.
    eapply gen_weaken; [apply generator_normal_log_fields; discriminate|].
    intros log (sv & lv & msg & ns & u1 & ms & u2 & n & u3 &
                Hsv & Hlv & _ & Hns & _ & _ & _ & El & Es & En & _).
    eexists _, _, _. split; [exact El|]. split; [exact Es|].
    split; [exact En|]. split; [exact Hlv|]. split; [exact Hsv | exact Hns].
  - intros kafka_broker topic name cfg Hin.
    destruct (catalog_lists_nonempty name cfg Hin) as [Hs Hk].
    destruct (catalog_domains name cfg Hin) as [Ds Dl].
    eapply gen_weaken;
      [apply (forwarder_pattern_log_fields _ name cfg Hs Hk)|].
    intros log (s0 & l0 & k & msgs & ns & Hs0 & Hl0 & _ & _ & Hns & _ & _ &
                _ & Hlv & Hsv & Hn & _).
    eexists _, _, _. split; [exact Hlv|]. split; [exact Hsv|].
    split; [exact Hn|].
    split; [exact (Dl l0 Hl0) | split; [exact (Ds s0 Hs0) | exact Hns]].
  - intros kafka_broker topic.
    eapply gen_weaken; [apply forwarder_normal_log_fields; discriminate|].
    intros log (sv & lv & msg & ns & u1 & ms & u2 & n & u3 &
                Hsv & Hlv & _ & Hns & _ & _ & _ & El & Es & En & _).
    eexists _, _, _. split; [exact El|]. split; [exact Es|].
    split; [exact En|]. split; [exact Hlv|]. split; [exact Hsv | exact Hns].
Qed.

Lemma records_stay_in_domains_witness :
  In ("slow_query", catalog_pattern "slow_query") Catalog.patterns /\
  gen (Forwarder.generate_pattern_log forwarder0 "slow_query"
         (catalog_pattern "slow_query"))
      (in_domains pattern_levels Catalog.all_services
                  ["production"; "staging"; "development"]).
Proof.
  assert (H : In ("slow_query", catalog_pattern "slow_query")
                 Catalog.patterns) by (vm_compute; auto 30).
  exact (conj H (proj1 (proj2 (proj2 records_stay_in_domains))
                       "localhost:9094" "application-logs" "slow_query"
                       (catalog_pattern "slow_query") H)).
Defined.

(** X7.  When the conditions of a catalog pattern name a service, every
    record generated for the pattern is of that service, at the top level
    and under the label [app] of the [kubernetes] block; in both scripts
    and whatever the mode, the overrides of test mode included. *)
Theorem service_condition_met (name : string) (cfg : Catalog.pattern)
        (s : string) :
  In (name, cfg) Catalog.patterns ->
  Catalog.service (Catalog.pat_conditions cfg) = Some s ->
  (forall (self : Generator.MockLogGenerator),
      gen (Generator.generate_pattern_log self name cfg) (service_is s)) /\
  (forall (self : Forwarder.MockLogForwarder),
      gen (Forwarder.generate_pattern_log self name cfg) (service_is s)).
Proof.
  intros Hin Hc.
  destruct (catalog_lists_nonempty name cfg Hin) as [Hs Hk].
  destruct (catalog_service_condition name cfg s Hin Hc) as [Hone Hov].
  split.
  - intros self.
    eapply gen_weaken; [apply (generator_pattern_log_fields self name cfg Hs Hk)|].
    intros log (s0 & l0 & k & msgs & ns & Hs0 & _ & _ & _ & _ & _ & _ &
                H & _).
    rewrite Hone in Hs0. destruct Hs0 as [<- | []].
    rewrite Hov in H. exact H.
  - intros self.
    eapply gen_weaken; [apply (forwarder_pattern_log_fields self name cfg Hs Hk)|].
    intros log (s0 & l0 & k & msgs & ns & Hs0 & _ & _ & _ & _ & _ & _ &
                H & _).
    rewrite Hone in Hs0. destruct Hs0 as [<- | []]. exact H.
Qed.

Lemma service_condition_met_witness :
  In ("database_errors", catalog_pattern "database_errors")
     Catalog.patterns /\
  Catalog.service (Catalog.pat_conditions (catalog_pattern "database_errors"))
  = Some "database-service" /\
  gen (Generator.generate_pattern_log test_generator0 "database_errors"
         (catalog_pattern "database_errors"))
      (service_is "database-service").
Proof.
  assert (H : In ("database_errors", catalog_pattern "database_errors")
                 Catalog.patterns) by (vm_compute; auto 30).
  exact (conj H (conj eq_refl
           (proj1 (service_condition_met "database_errors"
                     (catalog_pattern "database_errors") "database-service"
                     H eq_refl) test_generator0))).
Defined.

(** X8.  A burst for a name the object's patterns do not have raises
    [KeyError] before anything is logged or emitted, and a burst whose
    count is zero or negative logs its headline and emits no record; in
    both scripts. *)
Theorem burst_edges :
  (forall (self : Generator.MockLogGenerator) (name : string)
          (count : option Z) (w : world),
      Catalog.lookup name (Generator.patterns self) = None ->
      Generator.generate_pattern_burst self name count w
      = Raise (KeyError name) w) /\
  (forall (self : Generator.MockLogGenerator) (name : string)
          (cfg : Catalog.pattern) (c : Z) (w : world),
      Catalog.lookup name (Generator.patterns self) = Some cfg ->
      c <= 0 ->
      Generator.generate_pattern_burst self name (Some c) w
      = Ok tt (logged [burst_headline c name] w)) /\
  (forall (self : Forwarder.MockLogForwarder) (name : string) (count : Z)
          (w : world),
      Catalog.lookup name (Forwarder.patterns self) = None ->
      Forwarder.generate_pattern_burst self name count w
      = Raise (KeyError name) w) /\
  (forall (self : Forwarder.MockLogForwarder) (name : string)
          (cfg : Catalog.pattern) (c : Z) (w : world),
      Catalog.lookup name (Forwarder.patterns self) = Some cfg ->
      c <= 0 ->
      Forwarder.generate_pattern_burst self name c w
      = Ok tt (logged [burst_headline c name] w)).
Proof.
  repeat split.
  - intros self name count w H.
    unfold Generator.generate_pattern_burst, bind. rewrite H. reflexivity.
  - intros self name cfg c w H Hc.
    unfold Generator.generate_pattern_burst, bind, log_info, emit, ret.
    rewrite H. replace (Z.to_nat c) with 0%nat by lia. reflexivity.
  - intros self name count w H.
    unfold Forwarder.generate_pattern_burst, bind. rewrite H. reflexivity.
  - intros self name cfg c w H Hc.
    unfold Forwarder.generate_pattern_burst, bind, log_info, emit, ret.
    rewrite H. replace (Z.to_nat c) with 0%nat by lia. reflexivity.
Qed.

Lemma burst_edges_witness :
  Generator.generate_pattern_burst generator0 "no_such_pattern" None world0
  = Raise (KeyError "no_such_pattern") world0 /\
  Forwarder.generate_pattern_burst forwarder0 "slow_query" (-1) world0
  = Ok tt (logged [burst_headline (-1) "slow_query"] world0).
Proof.
  split.
  - exact (proj1 burst_edges generator0 "no_such_pattern" None world0
                 eq_refl).
  - refine (proj2 (proj2 (proj2 burst_edges)) forwarder0 "slow_query"
                  (catalog_pattern "slow_query") (-1) world0 eq_refl _).
    lia.
Defined.

(** X9.  [send_log] never lets an exception out; what it logs tells the
    failure.  A record without a service, or whose level is not a text,
    is not published.  On an unconnected producer nothing is published
    either.  A record without a message is published all the same and
    the error is logged after the fact. *)
Theorem send_log_failures (self : Forwarder.MockLogForwarder)
        (log : pydict) (w : world) :
  (forall level,
      dict_get "level" log = Some (PStr level) ->
      dict_get "service" log = None ->
      Forwarder.send_log self log w
      = Ok tt (after_reading [send_failure (KeyError "service")] w)) /\
  (dict_get "level" log = None ->
   dict_get "service" log <> None ->
   Forwarder.send_log self log w
   = Ok tt (after_reading [send_failure (KeyError "level")] w)) /\
  (forall d,
      dict_get "level" log = Some (PDict d) ->
      Forwarder.send_log self log w
      = Ok tt (after_reading
                 [send_failure
                    (AttributeError "'dict' object has no attribute 'lower'")]
                 w)) /\
  (forall level service,
      dict_get "level" log = Some (PStr level) ->
      dict_get "service" log = Some service ->
      producer w = false ->
      Forwarder.send_log self log w
      = Ok tt (after_reading
                 [send_failure
                    (AttributeError
                       "'NoneType' object has no attribute 'send'")] w)) /\
  (forall level service,
      dict_get "level" log = Some (PStr level) ->
      dict_get "service" log = Some (PStr service) ->
      dict_get "message" log = None ->
      producer w = true ->
      exists envelope,
        Forwarder.send_log self log w
        = Ok tt (after_reading
                   [ KafkaSend (Forwarder.topic self)
                               (service ++ "-" ++ level) (PDict envelope);
                     send_failure (KeyError "message") ] w)).
Proof.
  repeat split.
  - intros level Hl Hs.
    unfold Forwarder.send_log, try_except, Forwarder.transformed_log,
      Forwarder.get_default, Forwarder.producer_send, getitem, bind,
      utcnow_str, get_producer, log_error, log_debug, emit, after_reading.
    rewrite Hs, Hl. reflexivity.
  - intros Hl Hs.
    unfold Forwarder.send_log, try_except, Forwarder.transformed_log,
      Forwarder.get_default, Forwarder.producer_send, getitem, bind,
      utcnow_str, get_producer, log_error, log_debug, emit, after_reading.
    rewrite Hl. destruct (dict_get "service" log); [reflexivity|].
    contradiction.
  - intros d Hl.
    unfold Forwarder.send_log, try_except, Forwarder.transformed_log,
      Forwarder.get_default, Forwarder.producer_send, getitem, bind,
      utcnow_str, get_producer, log_error, log_debug, emit, after_reading.
    rewrite Hl. reflexivity.
  - intros level service Hl Hs Hp.
    unfold Forwarder.send_log, try_except, Forwarder.transformed_log,
      Forwarder.get_default, Forwarder.producer_send, getitem, bind,
      utcnow_str, get_producer, log_error, log_debug, emit, after_reading.
    rewrite Hs, Hl.
    cbn [Forwarder.lower_of ret raise producer trace rnd clock str_hash
         running broker_up].
    rewrite Hp. reflexivity.
  - intros level service Hl Hs Hm Hp.
    destruct (send_log_run self log service level w Hs Hl Hp)
      as (report & E & Hr).
    rewrite Hm in Hr. subst report.
    eexists. exact E.
Qed.

Lemma send_log_failures_witness :
  dict_get "level" [("level", PStr "INFO")] = Some (PStr "INFO") /\
  dict_get "service" [("level", PStr "INFO")] = None /\
  Forwarder.send_log forwarder0 [("level", PStr "INFO")] world0
  = Ok tt (after_reading [send_failure (KeyError "service")] world0).
Proof.
  exact (conj eq_refl (conj eq_refl
           (proj1 (send_log_failures forwarder0 [("level", PStr "INFO")]
                                     world0) "INFO" eq_refl eq_refl))).
Defined.

(* ================================================================== *)
(** ** Cycles of the continuous loops *)
(* ================================================================== *)

Section GeneratorCycles.

Import Generator.

Variable self : MockLogGenerator.
Hypothesis has_services : services self <> [].

(** One turn of the inner loop up to its pause. *)
Lemma generator_normal_turn (w : world) :
  exists log w1,
    generate_normal_log self w = Ok log w1 /\
    running w1 = running w /\
    stdout_lines (trace w1) = stdout_lines (trace w).
Proof.
  destruct (generator_normal_log_full self has_services w)
    as (log & w1 & E & (_ & Hr & _ & _ & Ht) & _).
  exists log, w1. split; [exact E|]. split; [exact Hr|].
  rewrite Ht. reflexivity.
Qed.

Lemma sleep_float_run (x : pyfloat) (w : world) :
  takes_pause x = true ->
  exists ms, sleep_float x w = Ok tt (logged [Sleep ms] w).
Proof.
  unfold takes_pause, sleep_float. destruct (as_time x) as [ns| |];
    try discriminate.
  intros H. apply andb_true_iff in H. destruct H as [H1 H2].
  apply Z.leb_le in H1. apply Z.leb_le in H2.
  exists (ns / 1000000). unfold sleep_ns, sleep_error.
  replace (ns <? - 9223372036854775808) with false
    by (symmetry; apply Z.ltb_ge; lia).
  replace (9223372036854775808 <? ns) with false
    by (symmetry; apply Z.ltb_ge; lia).
  replace (ns <? 0) with false by (symmetry; apply Z.ltb_ge; lia).
  replace (ns =? 9223372036854775808) with false
    by (symmetry; apply Z.eqb_neq; lia).
  reflexivity.
Qed.

Lemma sleep_float_negative (x : pyfloat) (ns : Z) (w : world) :
  as_time x = Nanos ns -> ns < 0 ->
  sleep_float x w = Raise (negative_pause_error ns) w.
Proof.
  intros Hx Hn. unfold sleep_float, sleep_ns, sleep_error,
    negative_pause_error. rewrite Hx.
  destruct (ns <? - 9223372036854775808) eqn:E; [reflexivity|].
  replace (9223372036854775808 <? ns) with false
    by (symmetry; apply Z.ltb_ge; lia).
  replace (ns <? 0) with true by (symmetry; apply Z.ltb_lt; lia).
  reflexivity.
Qed.

Lemma generator_normal_logs_run (n : nat) :
  takes_pause (generation_interval self) = true ->
  forall w, running w = true ->
    exists w',
      normal_logs n self w = Ok tt w' /\
      running w' = true /\
      List.length (stdout_lines (trace w'))
      = (List.length (stdout_lines (trace w)) + n)%nat.
Proof.
  intros Hg. induction n as [|n IH]; intros w Hr.
  - exists w. split; [reflexivity|]. split; [exact Hr | lia].
  - cbn [normal_logs].
    unfold bind at 1. unfold get_running. rewrite Hr. cbn [negb].
    destruct (generator_normal_turn w) as (log & w1 & E1 & R1 & T1).
    rewrite (bind_ok _ _ _ _ _ E1).
    rewrite (bind_ok _ _ _ _ _ (output_log_run log w1)).
    destruct (sleep_float_run (generation_interval self)
                (printed (Json.dumps (PDict log)) w1) Hg) as (ms & Es).
    rewrite (bind_ok _ _ _ _ _ Es).
    destruct (IH (logged [Sleep ms]
                         (printed (Json.dumps (PDict log)) w1)))
      as (w' & E & R & T).
    { cbn [logged printed running]. congruence. }
    exists w'. split; [exact E|]. split; [exact R|].
    rewrite T. cbn [logged printed trace].
    rewrite !stdout_lines_app, !length_app, T1. cbn [stdout_lines length].
    lia.
Qed.

(** With a negative pause the first record of a cycle is printed and the
    pause after it raises. *)
Lemma generator_normal_logs_negative (n : nat) (ns : Z) (w : world) :
  as_time (generation_interval self) = Nanos ns -> ns < 0 ->
  running w = true ->
  exists w1,
    normal_logs (S n) self w = Raise (negative_pause_error ns) w1 /\
    running w1 = true /\
    List.length (stdout_lines (trace w1))
    = (List.length (stdout_lines (trace w)) + 1)%nat.
Proof.
  intros Hx Hg Hr. cbn [normal_logs].
  unfold bind at 1. unfold get_running. rewrite Hr. cbn [negb].
  destruct (generator_normal_turn w) as (log & w1 & E1 & R1 & T1).
  rewrite (bind_ok _ _ _ _ _ E1).
  rewrite (bind_ok _ _ _ _ _ (output_log_run log w1)).
  rewrite (bind_raise _ _ _ _ _ (sleep_float_negative _ ns _ Hx Hg)).
  eexists. split; [reflexivity|].
  split; [cbn [printed running]; congruence|].
  cbn [printed trace]. rewrite stdout_lines_app, length_app, T1.
  cbn [stdout_lines length]. lia.
Qed.

Lemma burst_check_quiet (c : Z) (w : world) :
  burst_interval self <> 0 -> c mod burst_interval self <> 0 ->
  burst_check self c w = Ok tt w.
Proof.
  intros Hb Hm. unfold burst_check, py_mod, bind.
  apply Z.eqb_neq in Hb. rewrite Hb. cbn [ret].
  apply Z.eqb_neq in Hm. rewrite Hm. reflexivity.
Qed.

Lemma burst_check_zero (c : Z) (w : world) :
  burst_interval self = 0 ->
  burst_check self c w
  = Raise (ZeroDivisionError "integer modulo by zero") w.
Proof.
  intros Hb. unfold burst_check, py_mod, bind. rewrite Hb. reflexivity.
Qed.

Lemma generator_quiet_turns (k : nat) :
  takes_pause (generation_interval self) = true ->
  forall (fuel : nat) (c : Z) (w : world),
    running w = true -> 0 <= c ->
    c + Z.of_nat k < burst_interval self ->
    exists w',
      continuous_loop (k + fuel) self c w
      = continuous_loop fuel self (c + Z.of_nat k) w' /\
      running w' = true /\
      List.length (stdout_lines (trace w'))
      = (List.length (stdout_lines (trace w)) + 5 * k)%nat.
Proof.
  intros Hg. induction k as [|k IH]; intros fuel c w Hr Hc Hk.
  - exists w. rewrite Z.add_0_r. split; [reflexivity|].
    split; [exact Hr | lia].
  - destruct (generator_normal_logs_run 5 Hg w Hr) as (w1 & E1 & R1 & T1).
    assert (E2 : burst_check self (c + 1) w1 = Ok tt w1).
    { apply burst_check_quiet; [lia|].
      rewrite Z.mod_small; lia. }
    change (S k + fuel)%nat with (S (k + fuel)).
    rewrite (loop_turn_no_exception self (k + fuel) c w w1 w1 Hr E1 E2).
    destruct (IH fuel (c + 1) w1 R1) as (w' & E & R & T); [lia | lia |].
    exists w'. replace (c + Z.of_nat (S k)) with (c + 1 + Z.of_nat k) by lia.
    split; [exact E|]. split; [exact R | lia].
Qed.

End GeneratorCycles.

(** X10.  The stdout generator, with services to draw from and a pause
    the platform takes (from 0 to 10^8 seconds), prints exactly five
    normal records in each of its first cycles and starts no burst before
    the cycle whose number is [BURST_INTERVAL]: after [k] cycles, [k]
    below the interval, the counter is [k] and [5 * k] lines were
    printed. *)
Theorem generator_quiet_cycles (self : Generator.MockLogGenerator)
        (k fuel : nat) (w : world) :
  Generator.services self <> [] ->
  takes_pause (Generator.generation_interval self) = true ->
  running w = true ->
  Z.of_nat k < Generator.burst_interval self ->
  exists w',
    Generator.continuous_loop (k + fuel) self 0 w
    = Generator.continuous_loop fuel self (Z.of_nat k) w' /\
    running w' = true /\
    List.length (stdout_lines (trace w'))
    = (List.length (stdout_lines (trace w)) + 5 * k)%nat.
Proof.
  intros Hs Hg Hr Hk.
  apply (generator_quiet_turns self Hs k Hg fuel 0 w Hr); lia.
Qed.

Lemma generator_quiet_cycles_witness :
  Generator.services generator0 <> [] /\
  takes_pause (Generator.generation_interval generator0) = true /\
  running world0 = true /\
  Z.of_nat 3 < Generator.burst_interval generator0 /\
  exists w',
    Generator.continuous_loop (3 + 2) generator0 0 world0
    = Generator.continuous_loop 2 generator0 (Z.of_nat 3) w' /\
    running w' = true /\
    List.length (stdout_lines (trace w'))
    = (List.length (stdout_lines (trace world0)) + 5 * 3)%nat.
Proof.
  assert (H1 : Generator.services generator0 <> []) by discriminate.
  assert (H3 : Z.of_nat 3 < Generator.burst_interval generator0)
    by reflexivity.
  exact (conj H1 (conj eq_refl (conj eq_refl (conj H3
           (generator_quiet_cycles generator0 3%nat 2%nat world0
                                   H1 eq_refl eq_refl H3))))).
Defined.

(** X11.  With a [LOG_GENERATION_INTERVAL] that is a negative number,
    every cycle of the stdout generator prints one record and fails in
    the pause that follows: [time.sleep] raises [ValueError], or
    [OverflowError] for a length below -2^63 nanoseconds.  The handler of
    the cycle logs the error and backs off; the cycle counter is not
    incremented, so no burst is ever started. *)
Theorem generator_negative_interval (self : Generator.MockLogGenerator)
        (ns : Z) (fuel : nat) (c : Z) (w : world) :
  Generator.services self <> [] ->
  as_time (Generator.generation_interval self) = Nanos ns ->
  ns < 0 ->
  running w = true ->
  exists w1,
    Generator.continuous_loop (S fuel) self c w
    = Generator.continuous_loop fuel self c
        (backed_off
           (if ns <? - 9223372036854775808
            then OverflowError "timestamp too large to convert to C _PyTime_t"
            else ValueError "sleep length must be non-negative") w1) /\
    running w1 = true /\
    List.length (stdout_lines (trace w1))
    = (List.length (stdout_lines (trace w)) + 1)%nat.
Proof.
  intros Hs Hx Hg Hr.
  destruct (generator_normal_logs_negative self Hs 4 ns w Hx Hg Hr)
    as (w1 & E & R & T).
  exists w1. split; [|split; assumption].
  apply (loop_turn_first_raises self fuel c w w1 _ Hr E).
Qed.

Lemma generator_negative_interval_witness :
  Generator.services (Generator.init env_negative_interval) <> [] /\
  as_time (Generator.generation_interval
             (Generator.init env_negative_interval))
  = Nanos (-500000000) /\
  -500000000 < 0 /\
  running world0 = true /\
  exists w1,
    Generator.continuous_loop 4 (Generator.init env_negative_interval) 0
                              world0
    = Generator.continuous_loop 3 (Generator.init env_negative_interval) 0
        (backed_off
           (if -500000000 <? - 9223372036854775808
            then OverflowError "timestamp too large to convert to C _PyTime_t"
            else ValueError "sleep length must be non-negative") w1) /\
    running w1 = true /\
    List.length (stdout_lines (trace w1))
    = (List.length (stdout_lines (trace world0)) + 1)%nat.
Proof.
  assert (H1 : Generator.services (Generator.init env_negative_interval)
               <> []) by discriminate.
  assert (H2 : -500000000 < 0) by reflexivity.
  exact (conj H1 (conj eq_refl (conj H2 (conj eq_refl
           (generator_negative_interval
              (Generator.init env_negative_interval) (-500000000) 3%nat 0
              world0 H1 eq_refl H2 eq_refl))))).
Defined.

(** X12.  With [BURST_INTERVAL] set to 0 and a pause the platform takes
    (from 0 to 10^8 seconds), every cycle of the stdout generator prints
    its five normal records, fails on the remainder of the counter, logs
    the error and backs off; the counter goes up but no burst is ever
    started. *)
Theorem generator_zero_burst_interval (self : Generator.MockLogGenerator)
        (fuel : nat) (c : Z) (w : world) :
  Generator.services self <> [] ->
  takes_pause (Generator.generation_interval self) = true ->
  Generator.burst_interval self = 0 ->
  running w = true ->
  exists w1,
    Generator.continuous_loop (S fuel) self c w
    = Generator.continuous_loop fuel self (c + 1)
        (backed_off (ZeroDivisionError "integer modulo by zero") w1) /\
    running w1 = true /\
    List.length (stdout_lines (trace w1))
    = (List.length (stdout_lines (trace w)) + 5)%nat.
Proof.
  intros Hs Hg Hb Hr.
  destruct (generator_normal_logs_run self Hs 5 Hg w Hr) as (w1 & E1 & R1 & T1).
  exists w1. split; [|split; assumption].
  apply (loop_turn_second_raises self fuel c w w1 w1 _ Hr E1).
  apply burst_check_zero. exact Hb.
Qed.

Lemma generator_zero_burst_interval_witness :
  Generator.services generator_zero_interval <> [] /\
  takes_pause (Generator.generation_interval generator_zero_interval)
  = true /\
  Generator.burst_interval generator_zero_interval = 0 /\
  running world0 = true /\
  exists w1,
    Generator.continuous_loop 2 generator_zero_interval 6 world0
    = Generator.continuous_loop 1 generator_zero_interval (6 + 1)
        (backed_off (ZeroDivisionError "integer modulo by zero") w1) /\
    running w1 = true /\
    List.length (stdout_lines (trace w1))
    = (List.length (stdout_lines (trace world0)) + 5)%nat.
Proof.
  assert (H1 : Generator.services generator_zero_interval <> [])
    by discriminate.
  exact (conj H1 (conj eq_refl (conj eq_refl (conj eq_refl
           (generator_zero_burst_interval generator_zero_interval 1%nat 6
                                          world0 H1 eq_refl eq_refl
                                          eq_refl))))).
Defined.

Section ForwarderCycles.

Import Forwarder.

Variable self : MockLogForwarder.
Hypothesis has_services : services self <> [].

Lemma forwarder_normal_logs_run (n : nat) :
  forall w, running w = true -> producer w = true ->
    exists w',
      normal_logs n self w = Ok tt w' /\
      running w' = true /\ producer w' = true /\
      List.length (published (trace w'))
      = (List.length (published (trace w)) + n)%nat.
Proof.
  induction n as [|n IH]; intros w Hr Hp.
  - exists w. split; [reflexivity|]. repeat split; try assumption. lia.
  - cbn [normal_logs].
    unfold bind at 1. unfold get_running. rewrite Hr. cbn [negb].
    destruct (forwarder_normal_sent self w has_services Hp)
      as (log & w1 & w2 & key & envelope & text & E1 & E2 & R2 & P2 & T2 & _).
    rewrite (bind_ok _ _ _ _ _ E1).
    rewrite (bind_ok _ _ _ _ _ E2).
    assert (Hu : 500 <= 2000) by lia.
    destruct (gen_uniform_ms 500 2000 Hu w2)
      as (pause & w3 & E3 & (_ & R3 & P3 & _ & T3) & Hpause).
    rewrite (bind_ok _ _ _ _ _ E3).
    assert (Hpos : 0 <= pause <= 9223372036854)
      by (cbv beta in Hpause; lia).
    rewrite (bind_ok _ _ _ _ _ (sleep_run pause w3 Hpos)).
    destruct (IH (logged [Sleep pause] w3)) as (w' & E & R & P & T).
    { cbn [logged running]. congruence. }
    { cbn [logged producer]. congruence. }
    exists w'. split; [exact E|]. split; [exact R|]. split; [exact P|].
    rewrite T. cbn [logged trace].
    rewrite published_app, T3, T2, !length_app. cbn [published length].
    lia.
Qed.

Lemma forwarder_quiet_turns (k : nat) :
  forall (fuel : nat) (c : Z) (w : world),
    running w = true -> producer w = true -> 0 <= c ->
    c + Z.of_nat k < 10 ->
    exists w',
      continuous_loop (k + fuel) self c w
      = continuous_loop fuel self (c + Z.of_nat k) w' /\
      running w' = true /\ producer w' = true /\
      List.length (published (trace w'))
      = (List.length (published (trace w)) + 5 * k)%nat.
Proof.
  induction k as [|k IH]; intros fuel c w Hr Hp Hc Hk.
  - exists w. rewrite Z.add_0_r. split; [reflexivity|].
    repeat split; try assumption. lia.
  - destruct (forwarder_normal_logs_run 5 w Hr Hp)
      as (w1 & E1 & R1 & P1 & T1).
    assert (Hm : ((c + 1) mod 10 =? 0) = false).
    { apply Z.eqb_neq. rewrite Z.mod_small; lia. }
    destruct (IH fuel (c + 1) w1 R1 P1) as (w' & E & R & P & T);
      [lia | lia |].
    exists w'. replace (c + Z.of_nat (S k)) with (c + 1 + Z.of_nat k) by lia.
    split; [|repeat split; try assumption; lia].
    rewrite <- E. change (S k + fuel)%nat with (S (k + fuel)).
    cbn [continuous_loop].
    unfold bind at 1. unfold get_running. rewrite Hr. cbn [negb].
    rewrite (bind_ok _ _ _ _ _ E1). rewrite Hm.
    reflexivity.
Qed.

End ForwarderCycles.

(** X13.  The broker forwarder, connected and with services to draw
    from, publishes exactly five normal records in each of its first nine
    cycles and starts no burst before the tenth: after [k] cycles, [k]
    below ten, the counter is [k] and [5 * k] messages were published. *)
Theorem forwarder_quiet_cycles (self : Forwarder.MockLogForwarder)
        (k fuel : nat) (w : world) :
  Forwarder.services self <> [] ->
  running w = true -> producer w = true ->
  (k < 10)%nat ->
  exists w',
    Forwarder.continuous_loop (k + fuel) self 0 w
    = Forwarder.continuous_loop fuel self (Z.of_nat k) w' /\
    running w' = true /\ producer w' = true /\
    List.length (published (trace w'))
    = (List.length (published (trace w)) + 5 * k)%nat.
Proof.
  intros Hs Hr Hp Hk.
  apply (forwarder_quiet_turns self Hs k fuel 0 w Hr Hp); lia.
Qed.

Lemma forwarder_quiet_cycles_witness :
  Forwarder.services forwarder0 <> [] /\
  running world0 = true /\ producer world0 = true /\
  (9 < 10)%nat /\
  exists w',
    Forwarder.continuous_loop (9 + 1) forwarder0 0 world0
    = Forwarder.continuous_loop 1 forwarder0 (Z.of_nat 9) w' /\
    running w' = true /\ producer w' = true /\
    List.length (published (trace w'))
    = (List.length (published (trace world0)) + 5 * 9)%nat.
Proof.
  assert (H1 : Forwarder.services forwarder0 <> []) by discriminate.
  assert (H2 : (9 < 10)%nat) by lia.
  exact (conj H1 (conj eq_refl (conj eq_refl (conj H2
           (forwarder_quiet_cycles forwarder0 9%nat 1%nat world0
                                   H1 eq_refl eq_refl H2))))).
Defined.

(* ================================================================== *)
(** ** Whole runs *)
(* ================================================================== *)

Section WholeRuns.

Lemma generator_start_test (self : Generator.MockLogGenerator)
      (fuel : nat) (w : world) :
  Generator.mode self = "test" ->
  Generator.patterns self = Catalog.patterns ->
  exists w',
    Generator.start fuel self w = Ok (Done true) w' /\
    running w' = false /\
    List.length (stdout_lines (trace w'))
    = (List.length (stdout_lines (trace w)) + 38)%nat.
Proof.
  intros Hm Hp. destruct w as [r c h ru p b t].
  unfold Generator.start, Generator.start_body, Generator.stop.
  rewrite Hm. cbn [String.eqb Ascii.eqb Bool.eqb].
  cbv beta iota delta [bind ret emit try_except log_info log_error
                       set_running rnd clock str_hash running producer
                       broker_up trace].
  match goal with
  | |- context [Generator.test_all_patterns self ?W] =>
      destruct (generator_test_driver self Hm Hp W I) as (w1 & E & _ & Hc);
      rewrite E
  end.
  destruct w1 as [r1 c1 h1 ru1 p1 b1 t1].
  eexists. split; [reflexivity|]. split; [reflexivity|].
  cbn [trace] in *.
  rewrite <- !count_stdout_lines.
  rewrite count_of_app, Hc, !count_of_app. cbn. lia.
Qed.

Lemma forwarder_start_test (self : Forwarder.MockLogForwarder)
      (fuel : nat) (w : world) :
  Forwarder.patterns self = Catalog.patterns ->
  broker_up w = true ->
  exists w' tr,
    Forwarder.start fuel self "test" w = Ok (Done true) w' /\
    running w' = false /\
    trace w' = (tr ++ producer_shutdown)%list /\
    List.length (published (trace w'))
    = (List.length (published (trace w)) + 136)%nat.
Proof.
  intros Hp Hb. destruct w as [r c h ru p b t]. cbn [broker_up] in Hb.
  subst b.
  unfold Forwarder.start, Forwarder.connect_kafka, Forwarder.stop.
  cbn [String.eqb Ascii.eqb Bool.eqb].
  unfold try_except at 1.
  cbv beta iota delta [bind ret emit try_except log_info log_error
                       set_running set_producer get_broker_up get_producer
                       rnd clock str_hash running producer
                       broker_up trace negb].
  match goal with
  | |- context [Forwarder.test_all_patterns self ?W] =>
      destruct (forwarder_test_driver self Hp W eq_refl)
        as (w1 & E & Hc1 & Hc);
      rewrite E
  end.
  destruct w1 as [r1 c1 h1 ru1 p1 b1 t1].
  unfold connected in Hc1. cbn [producer] in Hc1. subst p1.
  cbv beta iota.
  eexists. exists t1. split; [reflexivity|]. split; [reflexivity|].
  cbn [trace] in *.
  split.
  { unfold producer_shutdown. rewrite <- !app_assoc. reflexivity. }
  rewrite <- !count_published.
  rewrite !count_of_app, Hc, !count_of_app. cbn. lia.
Qed.

End WholeRuns.

Section ContinuousRuns.

Lemma generator_start_continuous (self : Generator.MockLogGenerator)
      (fuel : nat) (w : world) :
  Generator.mode self = "continuous" ->
  exists w', Generator.start fuel self w = Ok Looping w' /\ running w' = true.
Proof.
  intros Hm. destruct w as [r c h ru p b t].
  unfold Generator.start, Generator.start_body,
    Generator.continuous_generation.
  rewrite Hm. cbn [String.eqb Ascii.eqb Bool.eqb].
  cbv beta iota delta [bind ret emit try_except log_info log_error
                       set_running rnd clock str_hash running producer
                       broker_up trace].
  match goal with
  | |- context [Generator.continuous_loop fuel self 0 ?W] =>
      destruct (loop_never_leaves self fuel 0 W eq_refl) as (w1 & E & R);
      rewrite E
  end.
  exists w1. split; [reflexivity | exact R].
Qed.

Lemma forwarder_start_continuous (kafka_broker topic : string) (fuel : nat)
      (w : world) :
  broker_up w = true ->
  exists w',
    Forwarder.start fuel (Forwarder.init kafka_broker topic) "continuous" w
    = Ok Looping w' /\ running w' = true.
Proof.
  intros Hb. destruct w as [r c h ru p b t]. cbn [broker_up] in Hb. subst b.
  unfold Forwarder.start, Forwarder.connect_kafka,
    Forwarder.continuous_generation.
  cbn [String.eqb Ascii.eqb Bool.eqb].
  cbv beta iota delta [bind ret emit try_except log_info log_error
                       set_running set_producer get_broker_up get_producer
                       rnd clock str_hash running producer
                       broker_up trace negb].
  match goal with
  | |- context [Forwarder.continuous_loop fuel ?f 0 ?W] =>
      destruct (forwarder_loop_never_leaves kafka_broker topic fuel 0 W
                  eq_refl) as (w1 & E & R);
      rewrite E
  end.
  exists w1. split; [reflexivity | exact R].
Qed.

Lemma with_mode_init (m : string) (env : Generator.environ) :
  Generator.with_mode m (Generator.init env)
  = Generator.init (with_log_mode m env).
Proof. destruct env. reflexivity. Qed.

Lemma init_error_with_log_mode (m : string) (env : Generator.environ) :
  Generator.init_error (with_log_mode m env) = Generator.init_error env.
Proof. destruct env. reflexivity. Qed.

Lemma forwarder_main_run (fuel : nat) (broker_arg topic_arg : option string)
      (mode : string) (w : world) :
  mode = "test" \/ mode = "continuous" ->
  Forwarder.main fuel broker_arg topic_arg (Some mode) w
  = match Forwarder.start fuel
            (Forwarder.init (arg_or broker_arg "localhost:9094")
                            (arg_or topic_arg "application-logs"))
            mode
            (logged (forwarder_banner (arg_or broker_arg "localhost:9094")
                                      (arg_or topic_arg "application-logs")
                                      mode) w) with
    | Ok (Done true) w' => (Done 0, w')
    | Ok (Done false) w' => (Done 1, w')
    | Ok Looping w' => (Looping, w')
    | Raise _ w' => (Done 1, w')
    end.
Proof.
  intros Hm. destruct w as [r c h ru p b t].
  unfold Forwarder.main, arg_or, forwarder_banner.
  destruct Hm as [-> | ->];
    cbn [String.eqb Ascii.eqb Bool.eqb orb negb];
    cbv beta iota zeta delta [bind emit rnd clock str_hash running producer
                              broker_up trace logged];
    rewrite <- !app_assoc; reflexivity.
Qed.

End ContinuousRuns.

(** X14.  In test mode the stdout generator runs to the end: [start]
    returns [True] after the pass printed its 38 records and [stop]
    cleared [running], and the process exits with status 0; whether the
    mode comes from [--mode test] or from [LOG_MODE], for every
    environment [__init__] does not raise on.  When [__init__] raises,
    the process exits with status 1 and nothing was printed or logged. *)
Theorem generator_test_run :
  (forall (self : Generator.MockLogGenerator) (fuel : nat) (w : world),
      Generator.mode self = "test" ->
      Generator.patterns self = Catalog.patterns ->
      exists w',
        Generator.start fuel self w = Ok (Done true) w' /\
        running w' = false /\
        List.length (stdout_lines (trace w'))
        = (List.length (stdout_lines (trace w)) + 38)%nat) /\
  (forall (env : Generator.environ) (fuel : nat) (w : world),
      Generator.init_error env = None ->
      exists w',
        Generator.main fuel env (Some "test") w = (Done 0, w') /\
        running w' = false /\
        List.length (stdout_lines (trace w'))
        = (List.length (stdout_lines (trace w)) + 38)%nat) /\
  (forall (env : Generator.environ) (fuel : nat) (w : world),
      Generator.init_error env = None ->
      Generator.LOG_MODE env = Some "test" ->
      exists w',
        Generator.main fuel env None w = (Done 0, w') /\
        running w' = false /\
        List.length (stdout_lines (trace w'))
        = (List.length (stdout_lines (trace w)) + 38)%nat) /\
  (forall (env : Generator.environ) (e : exc) (fuel : nat) (w : world),
      Generator.init_error env = Some e ->
      Generator.main fuel env (Some "test") w = (Done 1, w) /\
      Generator.main fuel env (Some "continuous") w = (Done 1, w) /\
      Generator.main fuel env None w = (Done 1, w)).
Proof.
  split; [|split; [|split]].
  - intros self fuel w Hm Hp. apply generator_start_test; assumption.
  - intros env fuel w Hi.
    destruct (generator_start_test
                (Generator.with_mode "test" (Generator.init env)) fuel w
                eq_refl eq_refl) as (w' & E & R & T).
    exists w'. unfold Generator.main, Generator.run.
    cbn [String.eqb Ascii.eqb Bool.eqb orb negb].
    rewrite Hi, E. repeat split; assumption.
  - intros env fuel w Hi Hm.
    assert (Hmode : Generator.mode (Generator.init env) = "test").
    { unfold Generator.init, Generator.getenv. rewrite Hm. reflexivity. }
    destruct (generator_start_test (Generator.init env) fuel w Hmode eq_refl)
      as (w' & E & R & T).
    exists w'. unfold Generator.main, Generator.run. rewrite Hi, E.
    repeat split; assumption.
  - intros env e fuel w Hi. unfold Generator.main, Generator.run.
    cbn [String.eqb Ascii.eqb Bool.eqb orb negb]. rewrite Hi.
    repeat split.
Qed.

Lemma generator_test_run_witness :
  Generator.init_error env_unknown_mode = None /\
  (exists w',
      Generator.main 0 env_unknown_mode (Some "test") world0 = (Done 0, w') /\
      running w' = false /\
      List.length (stdout_lines (trace w'))
      = (List.length (stdout_lines (trace world0)) + 38)%nat) /\
  Generator.init_error env_bad_level
  = Some (ValueError "Unknown level: '%(levelname)s:%(name)s:%(message)s'") /\
  Generator.main 0 env_bad_level (Some "test") world0 = (Done 1, world0) /\
  Generator.main 0 env_bad_level (Some "continuous") world0
  = (Done 1, world0) /\
  Generator.main 0 env_bad_level None world0 = (Done 1, world0).
Proof.
  exact (conj eq_refl
           (conj (proj1 (proj2 generator_test_run) env_unknown_mode 0%nat
                        world0 eq_refl)
              (conj eq_refl
                 (proj2 (proj2 (proj2 generator_test_run)) env_bad_level _
                        0%nat world0 eq_refl)))).
Defined.

(** X15.  With a broker that answers, the broker forwarder in test mode
    runs to the end: [start] returns [True] after the pass published its
    136 records, [stop] cleared [running] and the producer was flushed
    and closed as the last thing; the process exits with status 0. *)
Theorem forwarder_test_run :
  (forall (self : Forwarder.MockLogForwarder) (fuel : nat) (w : world),
      Forwarder.patterns self = Catalog.patterns ->
      broker_up w = true ->
      exists w' tr,
        Forwarder.start fuel self "test" w = Ok (Done true) w' /\
        running w' = false /\
        trace w' = (tr ++ producer_shutdown)%list /\
        List.length (published (trace w'))
        = (List.length (published (trace w)) + 136)%nat) /\
  (forall (broker_arg topic_arg : option string) (fuel : nat) (w : world),
      broker_up w = true ->
      exists w' tr,
        Forwarder.main fuel broker_arg topic_arg (Some "test") w
        = (Done 0, w') /\
        running w' = false /\
        trace w' = (tr ++ producer_shutdown)%list /\
        List.length (published (trace w'))
        = (List.length (published (trace w)) + 136)%nat).
Proof.
  split.
  - intros self fuel w Hp Hb. apply forwarder_start_test; assumption.
  - intros broker_arg topic_arg fuel w Hb.
    rewrite (forwarder_main_run fuel broker_arg topic_arg "test" w
               (or_introl eq_refl)).
    destruct (forwarder_start_test
                (Forwarder.init (arg_or broker_arg "localhost:9094")
                                (arg_or topic_arg "application-logs")) fuel
                (logged (forwarder_banner
                           (arg_or broker_arg "localhost:9094")
                           (arg_or topic_arg "application-logs") "test") w)
                eq_refl Hb) as (w' & tr & E & R & Tr & T).
    exists w', tr. rewrite E. repeat split; try assumption.
    rewrite T. cbn [logged trace]. rewrite published_app.
    rewrite length_app. unfold forwarder_banner. cbn [published length].
    lia.
Qed.

Lemma forwarder_test_run_witness :
  broker_up world0 = true /\
  exists w' tr,
    Forwarder.main 0 None None (Some "test") world0 = (Done 0, w') /\
    running w' = false /\
    trace w' = (tr ++ producer_shutdown)%list /\
    List.length (published (trace w'))
    = (List.length (published (trace world0)) + 136)%nat.
Proof.
  exact (conj eq_refl
              (proj2 forwarder_test_run None None 0%nat world0 eq_refl)).
Defined.

(** X16.  [start] of the broker forwarder does not check its mode: with
    a broker that answers, a mode that is neither ["test"] nor
    ["continuous"] produces no record, the producer is flushed and closed
    at once, and [start] returns [True] (the stdout generator returns
    [False] there). *)
Theorem forwarder_start_other_mode (self : Forwarder.MockLogForwarder)
        (mode : string) (fuel : nat) (w : world) :
  mode <> "test" -> mode <> "continuous" ->
  broker_up w = true ->
  exists w',
    Forwarder.start fuel self mode w = Ok (Done true) w' /\
    running w' = false /\
    trace w'
    = (trace w
       ++ LogInfo ("Connected to Kafka at " ++ Forwarder.kafka_broker self)
       :: producer_shutdown)%list.
Proof.
  intros Ht Hc Hb. destruct w as [r c h ru p b t]. cbn [broker_up] in Hb.
  subst b.
  apply String.eqb_neq in Ht. apply String.eqb_neq in Hc.
  unfold Forwarder.start, Forwarder.connect_kafka, Forwarder.stop.
  rewrite Ht, Hc.
  cbv beta iota delta [bind ret emit try_except log_info log_error
                       set_running set_producer get_broker_up get_producer
                       rnd clock str_hash running producer
                       broker_up trace negb].
  eexists. split; [reflexivity|]. split; [reflexivity|].
  cbn [trace]. unfold producer_shutdown. rewrite <- !app_assoc.
  reflexivity.
Qed.

Lemma forwarder_start_other_mode_witness :
  exists w',
    Forwarder.start 0 forwarder0 "demo" world0 = Ok (Done true) w' /\
    running w' = false /\
    trace w'
    = (trace world0
       ++ LogInfo ("Connected to Kafka at "
                     ++ Forwarder.kafka_broker forwarder0)
       :: producer_shutdown)%list.
Proof.
  refine (forwarder_start_other_mode forwarder0 "demo" 0%nat world0 _ _
                                     eq_refl); discriminate.
Defined.

(** X17.  Passing [--mode m] to the stdout generator has the effect of
    setting [LOG_MODE] to [m]: the run is the one of the environment
    with that one variable replaced. *)
Theorem mode_flag_is_log_mode (env : Generator.environ) (m : string)
        (fuel : nat) (w : world) :
  m = "test" \/ m = "continuous" ->
  Generator.main fuel env (Some m) w
  = Generator.main fuel (with_log_mode m env) None w.
Proof.
  intros Hm. unfold Generator.main, Generator.run.
  rewrite with_mode_init, init_error_with_log_mode.
  destruct Hm as [-> | ->]; reflexivity.
Qed.

Lemma mode_flag_is_log_mode_witness :
  Generator.main 3 env_unknown_mode (Some "test") world0
  = Generator.main 3 (with_log_mode "test" env_unknown_mode) None world0.
Proof.
  exact (mode_flag_is_log_mode env_unknown_mode "test" 3%nat world0
                               (or_introl eq_refl)).
Defined.

(** X18.  In continuous mode neither script stops by itself: however
    many turns of the loop are granted, the run is still inside the
    loop, with [running] set.  For the stdout generator this holds for
    every environment that selects the mode and on which [__init__] does
    not raise (those with a pause [time.sleep] refuses or a zero burst
    interval included); for the broker forwarder, with a broker that
    answers. *)
Theorem continuous_run_never_returns :
  (forall (env : Generator.environ) (fuel : nat) (w : world),
      Generator.init_error env = None ->
      Generator.LOG_MODE env = None
      \/ Generator.LOG_MODE env = Some "continuous" ->
      exists w',
        Generator.main fuel env None w = (Looping, w') /\
        running w' = true) /\
  (forall (env : Generator.environ) (fuel : nat) (w : world),
      Generator.init_error env = None ->
      exists w',
        Generator.main fuel env (Some "continuous") w = (Looping, w') /\
        running w' = true) /\
  (forall (broker_arg topic_arg mode_arg : option string) (fuel : nat)
          (w : world),
      broker_up w = true ->
      mode_arg = None \/ mode_arg = Some "continuous" ->
      exists w',
        Forwarder.main fuel broker_arg topic_arg mode_arg w = (Looping, w') /\
        running w' = true).
Proof.
  split; [|split].
  - intros env fuel w Hi Hm.
    assert (Hmode : Generator.mode (Generator.init env) = "continuous").
    { unfold Generator.init, Generator.getenv.
      destruct Hm as [-> | ->]; reflexivity. }
    destruct (generator_start_continuous (Generator.init env) fuel w Hmode)
      as (w' & E & R).
    exists w'. unfold Generator.main, Generator.run. rewrite Hi, E.
    split; [reflexivity | exact R].
  - intros env fuel w Hi.
    destruct (generator_start_continuous
                (Generator.with_mode "continuous" (Generator.init env))
                fuel w eq_refl) as (w' & E & R).
    exists w'. unfold Generator.main, Generator.run.
    cbn [String.eqb Ascii.eqb Bool.eqb orb negb].
    rewrite Hi, E. split; [reflexivity | exact R].
  - intros broker_arg topic_arg mode_arg fuel w Hb Hm.
    assert (Hmain : Forwarder.main fuel broker_arg topic_arg mode_arg w
                    = Forwarder.main fuel broker_arg topic_arg
                                     (Some "continuous") w).
    { destruct Hm as [-> | ->]; reflexivity. }
    rewrite Hmain.
    rewrite (forwarder_main_run fuel broker_arg topic_arg "continuous" w
               (or_intror eq_refl)).
    destruct (forwarder_start_continuous
                (arg_or broker_arg "localhost:9094")
                (arg_or topic_arg "application-logs") fuel
                (logged (forwarder_banner
                           (arg_or broker_arg "localhost:9094")
                           (arg_or topic_arg "application-logs")
                           "continuous") w) Hb) as (w' & E & R).
    exists w'. rewrite E. split; [reflexivity | exact R].
Qed.

Lemma continuous_run_never_returns_witness :
  Generator.init_error env_negative_interval = None /\
  (exists w',
      Generator.main 7 env_negative_interval (Some "continuous") world0
      = (Looping, w') /\
      running w' = true) /\
  broker_up world0 = true /\
  exists w',
    Forwarder.main 7 None None None world0 = (Looping, w') /\
    running w' = true.
Proof.
  exact (conj eq_refl
           (conj (proj1 (proj2 continuous_run_never_returns)
                        env_negative_interval 7%nat world0 eq_refl)
              (conj eq_refl
                 (proj2 (proj2 continuous_run_never_returns) None None None
                        7%nat world0 eq_refl (or_introl eq_refl))))).
Defined.

(* ================================================================== *)
(** ** The order of the bursts in a test pass *)
(* ================================================================== *)

Section Saying.

Variable sel : event -> bool.

Lemma says_ret : says sel (ret tt) [].
Proof.
  intros w. exists w. split; [reflexivity|]. split; [reflexivity|].
  symmetry. apply app_nil_r.
Qed.

Lemma says_seq (m k : M unit) (a b : list event) :
  says sel m a -> says sel k b -> says sel (bind m (fun _ => k)) (a ++ b).
Proof.
  intros Hm Hk w. destruct (Hm w) as (w1 & E1 & S1 & T1).
  destruct (Hk w1) as (w2 & E2 & S2 & T2).
  exists w2. rewrite (bind_ok _ _ _ _ _ E1).
  split; [exact E2|]. split; [congruence|].
  rewrite T2, T1, app_assoc. reflexivity.
Qed.

Lemma says_gen {A} (m : M A) (f : A -> M unit) (P : A -> Prop)
      (l : list event) :
  gen m P -> (forall a, P a -> says sel (f a) l) -> says sel (bind m f) l.
Proof.
  intros Hm Hf w. destruct (Hm w) as (a & w1 & E1 & (S1 & _ & _ & _ & T1) & Pa).
  destruct (Hf a Pa w1) as (w2 & E2 & S2 & T2).
  exists w2. rewrite (bind_ok _ _ _ _ _ E1).
  split; [exact E2|]. split; [congruence|].
  rewrite T2, T1. reflexivity.
Qed.

Lemma says_emit (e : event) :
  says sel (emit e) (if sel e then [e] else []).
Proof.
  intros w. eexists. split; [reflexivity|]. split; [reflexivity|].
  cbn [trace]. rewrite filter_app. cbn [filter].
  destruct (sel e); reflexivity.
Qed.

Lemma says_quiet (e : event) : sel e = false -> says sel (emit e) [].
Proof.
  intros H. pose proof (says_emit e) as S. rewrite H in S. exact S.
Qed.

Lemma says_sleep (ms : Z) :
  0 <= ms <= 9223372036854 -> sel (Sleep ms) = false ->
  says sel (sleep ms) [].
Proof.
  intros H Hs. rewrite (sleep_accepts ms H). apply says_quiet. exact Hs.
Qed.

Lemma says_repeat_n (n : nat) (body : M unit) :
  says sel body [] -> says sel (repeat_n n body) [].
Proof.
  intros Hb. induction n as [|n IH]; cbn [repeat_n]; [apply says_ret|].
  apply (says_seq _ _ [] []); assumption.
Qed.

Lemma says_for_each {A} (xs : list A) (body : A -> M unit)
      (f : A -> list event) :
  (forall x, In x xs -> says sel (body x) (f x)) ->
  says sel (for_each xs body) (flat_map f xs).
Proof.
  induction xs as [|x xs IH]; intros H; cbn [for_each flat_map];
    [apply says_ret|].
  apply says_seq; [apply H; left; reflexivity|].
  apply IH. intros y Hy. apply H. right. exact Hy.
Qed.

Lemma flat_map_single {A B} (f : A -> B) (xs : list A) :
  flat_map (fun x => [f x]) xs = map f xs.
Proof.
  induction xs as [|x xs IH]; cbn; [reflexivity|]. rewrite IH. reflexivity.
Qed.

End Saying.

Section Headlines.

Lemma headline_is_headline (count : Z) (name : string) :
  is_headline (burst_headline count name) = true.
Proof. unfold burst_headline, is_headline. apply prefix_app. Qed.

Lemma output_log_says (log : pydict) :
  says is_headline (Generator.output_log log) [].
Proof.
  intros w. rewrite output_log_run. eexists. split; [reflexivity|].
  split; [reflexivity|]. cbn [printed trace]. rewrite filter_app.
  reflexivity.
Qed.

Lemma send_log_says (self : Forwarder.MockLogForwarder) (log : pydict) :
  says is_headline (Forwarder.send_log self log) [].
Proof.
  intros w.
  unfold Forwarder.send_log, try_except, Forwarder.transformed_log,
    Forwarder.get_default, Forwarder.producer_send, getitem, bind,
    utcnow_str, get_producer, log_error, log_debug, emit.
  destruct (dict_get "level" log) as [[level|d]|];
    destruct (dict_get "service" log) as [service|];
    cbn [Forwarder.lower_of ret raise producer trace rnd clock str_hash
         running broker_up];
    try (eexists; split; [reflexivity|]; split; [reflexivity|];
         cbn [trace]; rewrite filter_app; reflexivity).
  destruct (producer w);
    [destruct (dict_get "message" log) as [[m|dm]|];
     cbn [Forwarder.first_100 ret raise trace]|];
    (eexists; split; [reflexivity|]; split; [reflexivity|]);
    cbn [trace]; rewrite ?filter_app; cbn [filter is_headline];
    rewrite ?app_nil_r; reflexivity.
Qed.

Lemma generator_burst_says (self : Generator.MockLogGenerator)
      (name : string) :
  Generator.mode self = "test" ->
  Generator.patterns self = Catalog.patterns ->
  In name (map fst Catalog.patterns) ->
  says is_headline (Generator.generate_pattern_burst self name None)
       [burst_headline 2 name].
Proof.
  intros Hm Hp Hin. destruct (name_in_catalog name Hin) as [cfg Hc].
  destruct (catalog_lists_nonempty name cfg Hc) as [Hs Hk].
  unfold Generator.generate_pattern_burst.
  rewrite Hp, (catalog_lookup name cfg Hc), Hm.
  cbn [String.eqb Ascii.eqb Bool.eqb].
  intros w. unfold bind at 1. unfold ret at 1. unfold bind at 1.
  unfold ret at 1. revert w.
  apply (says_seq _ _ _ [burst_headline 2 name] []).
  - pose proof (says_emit is_headline (burst_headline 2 name)) as S.
    rewrite headline_is_headline in S. exact S.
  - apply says_repeat_n.
    eapply says_gen;
      [apply (generator_pattern_log_full self name cfg Hs Hk)|].
    intros log _.
    apply (says_seq _ _ _ [] []); [apply output_log_says|].
    apply says_sleep; [lia | reflexivity].
Qed.

Lemma forwarder_burst_says (self : Forwarder.MockLogForwarder)
      (name : string) (cfg : Catalog.pattern) (count : Z) :
  Forwarder.patterns self = Catalog.patterns ->
  In (name, cfg) Catalog.patterns ->
  says is_headline (Forwarder.generate_pattern_burst self name count)
       [burst_headline count name].
Proof.
  intros Hp Hc.
  destruct (catalog_lists_nonempty name cfg Hc) as [Hs Hk].
  unfold Forwarder.generate_pattern_burst.
  rewrite Hp, (catalog_lookup name cfg Hc).
  intros w. unfold bind at 1. unfold ret at 1. revert w.
  apply (says_seq _ _ _ [burst_headline count name] []).
  - pose proof (says_emit is_headline (burst_headline count name)) as S.
    rewrite headline_is_headline in S. exact S.
  - apply says_repeat_n.
    eapply says_gen;
      [apply (forwarder_pattern_log_full self name cfg Hs Hk)|].
    intros log _.
    apply (says_seq _ _ _ [] []); [apply send_log_says|].
    apply says_sleep; [lia | reflexivity].
Qed.

Lemma set_iter_has (h : string -> Z) (y : string) (xs : list string) :
  In y xs -> In y (set_iter h xs).
Proof.
  induction xs as [|x xs IH]; cbn [set_iter]; [auto|].
  intros [<- | H].
  - destruct (existsb (String.eqb x) (set_iter h xs)) eqn:E.
    + apply existsb_exists in E. destruct E as (z & Hz & Exz).
      apply String.eqb_eq in Exz. subst z. exact Hz.
    + apply insert_by_In. left. reflexivity.
  - destruct (existsb (String.eqb x) (set_iter h xs)).
    + auto.
    + apply insert_by_In. right. auto.
Qed.

Lemma insert_by_NoDup (h : string -> Z) (x : string) (l : list string) :
  ~ In x l -> NoDup l -> NoDup (insert_by h x l).
Proof.
  induction l as [|y l IH]; intros Hx Hnd; cbn [insert_by].
  - constructor; [auto | constructor].
  - destruct (h x <=? h y).
    + constructor; assumption.
    + inversion Hnd as [|? ? Hy Hl]; subst.
      constructor.
      * rewrite insert_by_In. intros [-> | H]; [|contradiction].
        apply Hx. left. reflexivity.
      * apply IH; [|exact Hl]. intros H. apply Hx. right. exact H.
Qed.

Lemma set_iter_NoDup (h : string -> Z) (xs : list string) :
  NoDup (set_iter h xs).
Proof.
  induction xs as [|x xs IH]; cbn [set_iter]; [constructor|].
  destruct (existsb (String.eqb x) (set_iter h xs)) eqn:E; [exact IH|].
  apply insert_by_NoDup; [|exact IH].
  intros H. assert (existsb (String.eqb x) (set_iter h xs) = true).
  { apply existsb_exists. exists x. split; [exact H|].
    apply String.eqb_refl. }
  congruence.
Qed.

End Headlines.

(** X19.  The test pass of the stdout generator starts one burst for each
    of the nineteen catalog patterns and no other: first the twelve names
    of its e2e list in the order of the list, then the seven remaining
    names in the order the set iterates them, each burst announced for 2
    records. *)
Theorem generator_test_pass_order (self : Generator.MockLogGenerator) :
  Generator.mode self = "test" ->
  Generator.patterns self = Catalog.patterns ->
  (forall (w : world),
      exists w',
        Generator.test_all_patterns self w = Ok tt w' /\
        filter is_headline (trace w')
        = (filter is_headline (trace w)
           ++ map (burst_headline 2)
                  (Generator.e2e_test_patterns
                   ++ set_iter (str_hash w) remaining_patterns))%list) /\
  (forall (h : string -> Z),
      NoDup (Generator.e2e_test_patterns ++ set_iter h remaining_patterns) /\
      List.length (Generator.e2e_test_patterns
                   ++ set_iter h remaining_patterns) = 19%nat /\
      forall name,
        In name (Generator.e2e_test_patterns
                 ++ set_iter h remaining_patterns)
        <-> In name (map fst Catalog.patterns)).
Proof.
  intros Hm Hp. split.
  - intros w. unfold Generator.test_all_patterns. rewrite Hp.
    assert (S1 : says is_headline
                   (for_each Generator.e2e_test_patterns
                      (fun pattern_name =>
                         if has_key pattern_name Catalog.patterns then
                           log_info ("Testing e2e pattern: " ++ pattern_name) ;;;
                           Generator.generate_pattern_burst self pattern_name
                                                            None ;;;
                           sleep 1000
                         else ret tt))
                   (map (burst_headline 2) Generator.e2e_test_patterns)).
    { rewrite <- flat_map_single. apply says_for_each.
      intros x Hx.
      assert (Hin : In x (map fst Catalog.patterns)).
      { unfold Generator.e2e_test_patterns in Hx. in_cases Hx; subst x;
          vm_compute; auto 30. }
      assert (Hk : has_key x Catalog.patterns = true).
      { unfold Generator.e2e_test_patterns in Hx. in_cases Hx; subst x;
          reflexivity. }
      rewrite Hk.
      apply (says_seq _ _ _ [] [burst_headline 2 x]);
        [apply says_quiet; reflexivity|].
      apply (says_seq _ _ _ [burst_headline 2 x] []);
        [apply generator_burst_says; assumption|].
      apply says_sleep; [lia | reflexivity]. }
    assert (S0 : says is_headline
                   (log_info ("Testing all "
                                ++ Py.str_of_int
                                     (Z.of_nat (List.length Catalog.patterns))
                                ++ " alert patterns...")) [])
      by (apply says_quiet; reflexivity).
    destruct (S0 w) as (w0 & E0 & H0 & T0).
    destruct (S1 w0) as (w1 & E1 & H1 & T1).
    assert (S2 : says is_headline
                   (for_each (set_iter (str_hash w1) remaining_patterns)
                      (fun pattern_name =>
                         log_info ("Testing additional pattern: "
                                     ++ pattern_name) ;;;
                         Generator.generate_pattern_burst self pattern_name
                                                          None ;;;
                         sleep 1000) ;;;
                    log_info "All pattern tests completed")
                   (map (burst_headline 2)
                        (set_iter (str_hash w1) remaining_patterns) ++ [])).
    { apply says_seq; [|apply says_quiet; reflexivity].
      rewrite <- flat_map_single. apply says_for_each.
      intros x Hx. apply set_iter_In in Hx.
      assert (Hin : In x (map fst Catalog.patterns)).
      { unfold remaining_patterns in Hx. apply filter_In in Hx.
        exact (proj1 Hx). }
      apply (says_seq _ _ _ [] [burst_headline 2 x]);
        [apply says_quiet; reflexivity|].
      apply (says_seq _ _ _ [burst_headline 2 x] []);
        [apply generator_burst_says; assumption|].
      apply says_sleep; [lia | reflexivity]. }
    destruct (S2 w1) as (w2 & E2 & H2 & T2).
    exists w2.
    rewrite (bind_ok _ _ _ _ _ E0), (bind_ok _ _ _ _ _ E1).
    unfold bind at 1. unfold get_str_hash.
    split; [exact E2|].
    rewrite T2, T1, T0, !app_nil_r, map_app, <- !app_assoc.
    replace (str_hash w1) with (str_hash w) by congruence.
    reflexivity.
  - intros h.
    assert (Hrest : remaining_patterns
                    = [ "payment_failures"; "service_timeouts";
                        "critical_namespace_alerts"; "inventory_warnings";
                        "notification_failures"; "audit_issues";
                        "cross_service_errors" ])
      by (vm_compute; reflexivity).
    assert (Hnd : NoDup remaining_patterns).
    { rewrite Hrest. repeat constructor; simpl; intuition discriminate. }
    assert (Hiff : forall name,
               In name (Generator.e2e_test_patterns
                        ++ set_iter h remaining_patterns)
               <-> In name (map fst Catalog.patterns)).
    { intros name. rewrite in_app_iff. split.
      - intros [H | H].
        + unfold Generator.e2e_test_patterns in H. in_cases H; subst name;
            vm_compute; auto 30.
        + apply set_iter_In in H. unfold remaining_patterns in H.
          apply filter_In in H. exact (proj1 H).
      - intros H.
        destruct (existsb (String.eqb name) Generator.e2e_test_patterns)
          eqn:E.
        + left. apply existsb_exists in E. destruct E as (y & Hy & Ey).
          apply String.eqb_eq in Ey. subst y. exact Hy.
        + right. apply set_iter_has. unfold remaining_patterns.
          apply filter_In. split; [exact H|]. rewrite E. reflexivity. }
    split; [|split; [|exact Hiff]].
    + apply NoDup_app.
      * unfold Generator.e2e_test_patterns.
        repeat constructor; simpl; intuition discriminate.
      * apply set_iter_NoDup.
      * intros x H1 H2. apply set_iter_In in H2.
        unfold remaining_patterns in H2. apply filter_In in H2.
        destruct H2 as [_ H2]. apply negb_true_iff in H2.
        assert (existsb (String.eqb x) Generator.e2e_test_patterns = true).
        { apply existsb_exists. exists x. split; [exact H1|].
          apply String.eqb_refl. }
        congruence.
    + rewrite length_app, (set_iter_length h _ Hnd), Hrest. reflexivity.
Qed.

Lemma generator_test_pass_order_witness :
  Generator.mode test_generator0 = "test" /\
  Generator.patterns test_generator0 = Catalog.patterns /\
  exists w',
    Generator.test_all_patterns test_generator0 world0 = Ok tt w' /\
    filter is_headline (trace w')
    = (filter is_headline (trace world0)
       ++ map (burst_headline 2)
              (Generator.e2e_test_patterns
               ++ set_iter (str_hash world0) remaining_patterns))%list.
Proof.
  exact (conj eq_refl (conj eq_refl
           (proj1 (generator_test_pass_order test_generator0 eq_refl eq_refl)
                  world0))).
Defined.

(** X20.  The test pass of the broker forwarder starts one burst for each
    catalog pattern, in the order of the catalog, each announced for the
    threshold of the pattern plus two records; it does so whether or not
    the producer is connected. *)
Theorem forwarder_test_pass_order (self : Forwarder.MockLogForwarder)
        (w : world) :
  Forwarder.patterns self = Catalog.patterns ->
  exists w',
    Forwarder.test_all_patterns self w = Ok tt w' /\
    filter is_headline (trace w')
    = (filter is_headline (trace w)
       ++ map forwarder_test_headline Catalog.patterns)%list.
Proof.
  intros Hp. unfold Forwarder.test_all_patterns. rewrite Hp.
  assert (S : says is_headline
                (log_info "Testing all 11 alert patterns..." ;;;
                 for_each Catalog.patterns
                   (fun item =>
                      let (pattern_name, pattern_config) :=
                        item : string * Catalog.pattern in
                      let threshold :=
                        Catalog.threshold_or_5 pattern_config in
                      let burst_count := threshold + 2 in
                      log_info ("Testing " ++ pattern_name ++ ": generating "
                                  ++ Py.str_of_int burst_count ++ " logs") ;;;
                      Forwarder.generate_pattern_burst self pattern_name
                                                       burst_count ;;;
                      sleep 2000) ;;;
                 log_info "All pattern tests completed")
                ([] ++ map forwarder_test_headline Catalog.patterns ++ [])).
  { apply says_seq; [apply says_quiet; reflexivity|].
    apply says_seq; [|apply says_quiet; reflexivity].
    rewrite <- flat_map_single. apply says_for_each.
    intros [name cfg] Hin. cbv zeta.
    apply (says_seq _ _ _ [] [forwarder_test_headline (name, cfg)]);
      [apply says_quiet; reflexivity|].
    apply (says_seq _ _ _ [forwarder_test_headline (name, cfg)] []);
      [apply (forwarder_burst_says self name cfg _ Hp Hin)|].
    apply says_sleep; [lia | reflexivity]. }
  destruct (S w) as (w' & E & _ & T).
  exists w'. split; [exact E|].
  rewrite T, app_nil_r. reflexivity.
Qed.

Lemma forwarder_test_pass_order_witness :
  Forwarder.patterns forwarder0 = Catalog.patterns /\
  exists w',
    Forwarder.test_all_patterns forwarder0 world_broker_down = Ok tt w' /\
    filter is_headline (trace w')
    = (filter is_headline (trace world_broker_down)
       ++ map forwarder_test_headline Catalog.patterns)%list.
Proof.
  exact (conj eq_refl
           (forwarder_test_pass_order forwarder0 world_broker_down eq_refl)).
Defined.

(* ================================================================== *)
(** ** C5: the size of a burst in continuous mode *)
(* ================================================================== *)

Section ContinuousBursts.

Lemma generator_burst_body_says (self : Generator.MockLogGenerator)
      (name : string) (cfg : Catalog.pattern) (count : Z) :
  Catalog.services cfg <> [] -> Catalog.keywords cfg <> [] ->
  says is_headline
       (log_info ("Generating " ++ Py.str_of_int count
                    ++ " logs for pattern: " ++ name) ;;;
        repeat_n (Z.to_nat count)
          (log <- Generator.generate_pattern_log self name cfg ;;
           Generator.output_log log ;;; sleep 100))
       [burst_headline count name].
Proof.
  intros Hs Hk.
  apply (says_seq _ _ _ [burst_headline count name] []).
  - pose proof (says_emit is_headline (burst_headline count name)) as S.
    rewrite headline_is_headline in S. exact S.
  - apply says_repeat_n.
    eapply says_gen;
      [apply (generator_pattern_log_full self name cfg Hs Hk)|].
    intros log _.
    apply (says_seq _ _ _ [] []); [apply output_log_says|].
    apply says_sleep; [lia | reflexivity].
Qed.

(** A burst of the stdout generator outside test mode, with no count:
    the draw decides the count, the headline announces it for the
    pattern, and that many records are printed. *)
Lemma generator_drawn_burst (self : Generator.MockLogGenerator)
      (name : string) (cfg : Catalog.pattern) (w : world) :
  Generator.mode self = "continuous" ->
  Generator.patterns self = Catalog.patterns ->
  In (name, cfg) Catalog.patterns ->
  exists r w1 w',
    randint 1 3 w = Ok r w1 /\ 1 <= r <= 3 /\
    Generator.generate_pattern_burst self name None w = Ok tt w' /\
    running w' = running w /\
    Z.of_nat (List.length (stdout_lines (trace w')))
    = Z.of_nat (List.length (stdout_lines (trace w)))
      + Catalog.threshold_or_5 cfg + r /\
    filter is_headline (trace w')
    = (filter is_headline (trace w)
       ++ [burst_headline (Catalog.threshold_or_5 cfg + r) name])%list.
Proof.
  intros Hm Hp Hin.
  destruct (catalog_lists_nonempty name cfg Hin) as [Hs Hk].
  pose proof (catalog_thresholds name cfg Hin) as Hth.
  assert (H13 : 1 <= 3) by lia.
  destruct (gen_randint 1 3 H13 w)
    as (r & w1 & E1 & (_ & R1 & _ & _ & T1) & Hr).
  cbv beta in Hr.
  pose proof (generator_burst_loop self name cfg
                (Catalog.threshold_or_5 cfg + r) Hs Hk w1 I) as A.
  destruct A as (w2 & E2 & _ & C2).
  destruct (generator_burst_body_says self name cfg
              (Catalog.threshold_or_5 cfg + r) Hs Hk w1)
    as (w2' & E2' & _ & T2).
  rewrite E2 in E2'. injection E2' as <-.
  exists r, w1, w2. split; [exact E1|]. split; [exact Hr|].
  split.
  { unfold Generator.generate_pattern_burst.
    rewrite Hp, (catalog_lookup name cfg Hin), Hm.
    cbn [String.eqb Ascii.eqb Bool.eqb].
    unfold bind at 1. unfold ret at 1.
    unfold bind at 1. unfold bind at 1. rewrite E1.
    unfold ret at 1. exact E2. }
  split.
  { pose proof (keeps_generator_burst self name None w) as K.
    assert (E : Generator.generate_pattern_burst self name None w = Ok tt w2).
    { unfold Generator.generate_pattern_burst.
      rewrite Hp, (catalog_lookup name cfg Hin), Hm.
      cbn [String.eqb Ascii.eqb Bool.eqb].
      unfold bind at 1. unfold ret at 1.
      unfold bind at 1. unfold bind at 1. rewrite E1.
      unfold ret at 1. exact E2. }
    rewrite E in K. exact K. }
  split.
  { rewrite !count_stdout_lines in C2. rewrite C2, T1.
    rewrite Nat2Z.inj_add, Z2Nat.id by lia. lia. }
  rewrite T2, T1. reflexivity.
Qed.

Lemma generator_drawn_burst_check (self : Generator.MockLogGenerator)
      (cycle_counter : Z) (w : world) :
  Generator.mode self = "continuous" ->
  Generator.patterns self = Catalog.patterns ->
  Generator.burst_interval self <> 0 ->
  cycle_counter mod Generator.burst_interval self = 0 ->
  exists name cfg w1 w' r,
    choice (map fst (Generator.patterns self)) w = Ok name w1 /\
    In (name, cfg) Catalog.patterns /\
    Generator.burst_check self cycle_counter w
    = (Generator.generate_pattern_burst self name None ;;; sleep 5000) w1 /\
    Generator.burst_check self cycle_counter w = Ok tt w' /\
    1 <= r <= 3 /\
    Z.of_nat (List.length (stdout_lines (trace w')))
    = Z.of_nat (List.length (stdout_lines (trace w)))
      + Catalog.threshold_or_5 cfg + r /\
    filter is_headline (trace w')
    = (filter is_headline (trace w)
       ++ [burst_headline (Catalog.threshold_or_5 cfg + r) name])%list.
Proof.
  intros Hm Hp Hb Hmod.
  assert (Hne : map fst (Generator.patterns self) <> [])
    by (rewrite Hp; discriminate).
  destruct (gen_choice (map fst (Generator.patterns self)) Hne w)
    as (name & w1 & E1 & (_ & _ & _ & _ & T1) & Hname).
  assert (Hname' : In name (map fst Catalog.patterns))
    by (rewrite <- Hp; exact Hname).
  destruct (name_in_catalog name Hname') as [cfg Hin].
  destruct (generator_drawn_burst self name cfg w1 Hm Hp Hin)
    as (r & w2 & w3 & _ & Hr & E3 & _ & C3 & H3).
  assert (Eq : Generator.burst_check self cycle_counter w
               = (Generator.generate_pattern_burst self name None ;;;
                  sleep 5000) w1).
  { unfold Generator.burst_check, py_mod.
    apply Z.eqb_neq in Hb. rewrite Hb.
    unfold bind at 1. unfold ret at 1. rewrite Hmod.
    change (0 =? 0) with true. cbv iota.
    unfold bind at 1. rewrite E1. reflexivity. }
  exists name, cfg, w1, (logged [Sleep 5000] w3), r.
  split; [exact E1|]. split; [exact Hin|]. split; [exact Eq|].
  split.
  { rewrite Eq. rewrite (bind_ok _ _ _ _ _ E3). apply sleep_run. lia. }
  split; [exact Hr|]. cbn [logged trace]. split.
  - rewrite stdout_lines_app. cbn [stdout_lines]. rewrite app_nil_r.
    rewrite C3, T1. reflexivity.
  - rewrite filter_app. cbn [filter is_headline]. rewrite app_nil_r.
    rewrite H3, T1. reflexivity.
Qed.

(** The burst of a cycle of the broker forwarder. *)
Lemma forwarder_drawn_burst (self : Forwarder.MockLogForwarder) (w : world) :
  Forwarder.patterns self = Catalog.patterns ->
  producer w = true ->
  exists name cfg w1 r w2 w',
    choice (map fst (Forwarder.patterns self)) w = Ok name w1 /\
    In (name, cfg) Catalog.patterns /\
    randint 1 5 w1 = Ok r w2 /\ 1 <= r <= 5 /\
    Forwarder.continuous_burst self w
    = (Forwarder.generate_pattern_burst self name
         (Catalog.threshold_or_5 cfg + r) ;;; sleep 5000) w2 /\
    Forwarder.continuous_burst self w = Ok tt w' /\
    Z.of_nat (List.length (published (trace w')))
    = Z.of_nat (List.length (published (trace w)))
      + Catalog.threshold_or_5 cfg + r /\
    filter is_headline (trace w')
    = (filter is_headline (trace w)
       ++ [burst_headline (Catalog.threshold_or_5 cfg + r) name])%list.
Proof.
  intros Hp Hw.
  assert (Hne : map fst (Forwarder.patterns self) <> [])
    by (rewrite Hp; discriminate).
  destruct (gen_choice (map fst (Forwarder.patterns self)) Hne w)
    as (name & w1 & E1 & (_ & _ & P1 & _ & T1) & Hname).
  assert (Hname' : In name (map fst Catalog.patterns))
    by (rewrite <- Hp; exact Hname).
  destruct (name_in_catalog name Hname') as [cfg Hin].
  destruct (catalog_lists_nonempty name cfg Hin) as [Hs Hk].
  pose proof (catalog_thresholds name cfg Hin) as Hth.
  assert (H15 : 1 <= 5) by lia.
  destruct (gen_randint 1 5 H15 w1)
    as (r & w2 & E2 & (_ & _ & P2 & _ & T2) & Hr).
  cbv beta in Hr.
  assert (Hlk : Catalog.lookup name (Forwarder.patterns self) = Some cfg)
    by (rewrite Hp; apply catalog_lookup; exact Hin).
  assert (Hp2 : connected (producer w2)) by (unfold connected; congruence).
  destruct (forwarder_burst self name cfg (Catalog.threshold_or_5 cfg + r)
              Hlk Hs Hk w2 Hp2) as (w3 & E3 & _ & C3).
  destruct (forwarder_burst_says self name cfg
              (Catalog.threshold_or_5 cfg + r) Hp Hin w2)
    as (w3' & E3' & _ & H3).
  rewrite E3 in E3'. injection E3' as <-.
  assert (Eq : Forwarder.continuous_burst self w
               = (Forwarder.generate_pattern_burst self name
                    (Catalog.threshold_or_5 cfg + r) ;;; sleep 5000) w2).
  { unfold Forwarder.continuous_burst.
    unfold bind at 1. rewrite E1. rewrite Hlk.
    unfold bind at 1. unfold ret at 1.
    unfold bind at 1. rewrite E2. reflexivity. }
  exists name, cfg, w1, r, w2, (logged [Sleep 5000] w3).
  split; [exact E1|]. split; [exact Hin|]. split; [exact E2|].
  split; [exact Hr|]. split; [exact Eq|].
  split.
  { rewrite Eq. rewrite (bind_ok _ _ _ _ _ E3). apply sleep_run. lia. }
  cbn [logged trace]. split.
  - rewrite published_app. cbn [published]. rewrite app_nil_r.
    rewrite !count_published in C3. rewrite C3, T2, T1.
    rewrite Nat2Z.inj_add, Z2Nat.id by lia. lia.
  - rewrite filter_app. cbn [filter is_headline]. rewrite app_nil_r.
    rewrite H3, T2, T1. reflexivity.
Qed.

End ContinuousBursts.

(** The continuous burst of the broker forwarder adds one to five
    records to the threshold: with the draws 0 (the first pattern,
    [high_error_rate], threshold 10) and 4 (the fifth of the five
    increments) it publishes 15 records, more than threshold + 3. *)
Lemma C5_counterexample :
  Catalog.threshold_or_5 (catalog_pattern "high_error_rate") = 10 /\
  match Forwarder.continuous_burst forwarder0 (world_with [0; 4]) with
  | Ok _ w' =>
      List.length (published (trace w')) = 15%nat /\
      nth_error (trace w') 0
      = Some (LogInfo "Generating 15 logs for pattern: high_error_rate")
  | Raise _ _ => False
  end.
Proof.
  split; [reflexivity|]. vm_compute. split; reflexivity.
Qed.

(** C5, amended.  In continuous mode, a burst of the stdout generator
    for a catalog pattern with no explicit count announces and prints the
    threshold of that pattern (5 if absent) plus 1 to 3 records.  The
    burst of a cycle of its continuous driver is such a burst, for the
    pattern whose name the driver drew from the keys of the catalog.  The
    burst of a cycle of the broker forwarder is for the pattern whose
    name it drew and announces and publishes, on a connected producer,
    the threshold of that pattern plus the 1 to 5 records of its second
    draw. *)
Theorem C5_continuous_burst_counts :
  (forall (self : Generator.MockLogGenerator),
      Generator.mode self = "continuous" ->
      Generator.patterns self = Catalog.patterns ->
      (forall (name : string) (cfg : Catalog.pattern) (w : world),
          In (name, cfg) Catalog.patterns ->
          exists w' r,
            Generator.generate_pattern_burst self name None w = Ok tt w' /\
            1 <= r <= 3 /\
            Z.of_nat (List.length (stdout_lines (trace w')))
            = Z.of_nat (List.length (stdout_lines (trace w)))
              + Catalog.threshold_or_5 cfg + r /\
            filter is_headline (trace w')
            = (filter is_headline (trace w)
               ++ [burst_headline (Catalog.threshold_or_5 cfg + r)
                                  name])%list) /\
      (forall (cycle_counter : Z) (w : world),
          Generator.burst_interval self <> 0 ->
          cycle_counter mod Generator.burst_interval self = 0 ->
          exists name cfg w1 w' r,
            choice (map fst (Generator.patterns self)) w = Ok name w1 /\
            In (name, cfg) Catalog.patterns /\
            Generator.burst_check self cycle_counter w
            = (Generator.generate_pattern_burst self name None ;;;
               sleep 5000) w1 /\
            Generator.burst_check self cycle_counter w = Ok tt w' /\
            1 <= r <= 3 /\
            Z.of_nat (List.length (stdout_lines (trace w')))
            = Z.of_nat (List.length (stdout_lines (trace w)))
              + Catalog.threshold_or_5 cfg + r /\
            filter is_headline (trace w')
            = (filter is_headline (trace w)
               ++ [burst_headline (Catalog.threshold_or_5 cfg + r)
                                  name])%list)) /\
  (forall (self : Forwarder.MockLogForwarder) (w : world),
      Forwarder.patterns self = Catalog.patterns ->
      producer w = true ->
      exists name cfg w1 r w2 w',
        choice (map fst (Forwarder.patterns self)) w = Ok name w1 /\
        In (name, cfg) Catalog.patterns /\
        randint 1 5 w1 = Ok r w2 /\ 1 <= r <= 5 /\
        Forwarder.continuous_burst self w
        = (Forwarder.generate_pattern_burst self name
             (Catalog.threshold_or_5 cfg + r) ;;; sleep 5000) w2 /\
        Forwarder.continuous_burst self w = Ok tt w' /\
        Z.of_nat (List.length (published (trace w')))
        = Z.of_nat (List.length (published (trace w)))
          + Catalog.threshold_or_5 cfg + r /\
        filter is_headline (trace w')
        = (filter is_headline (trace w)
           ++ [burst_headline (Catalog.threshold_or_5 cfg + r)
                              name])%list).
Proof.
  split.
  - intros self Hmode Hcat. split.
    + intros name cfg w Hin.
      destruct (generator_drawn_burst self name cfg w Hmode Hcat Hin)
        as (r & w1 & w' & _ & Hr & E & _ & C & H).
      exists w', r. repeat split; try assumption; lia.
    + intros c w Hb Hmod.
      apply (generator_drawn_burst_check self c w Hmode Hcat Hb Hmod).
  - intros self w Hcat Hw.
    apply (forwarder_drawn_burst self w Hcat Hw).
Qed.

Lemma C5_witness :
  Generator.mode generator0 = "continuous" /\
  Generator.patterns generator0 = Catalog.patterns /\
  In ("audit_issues", catalog_pattern "audit_issues") Catalog.patterns /\
  (exists w' r,
      Generator.generate_pattern_burst generator0 "audit_issues" None world0
      = Ok tt w' /\
      1 <= r <= 3 /\
      Z.of_nat (List.length (stdout_lines (trace w')))
      = Z.of_nat (List.length (stdout_lines (trace world0)))
        + Catalog.threshold_or_5 (catalog_pattern "audit_issues") + r /\
      filter is_headline (trace w')
      = (filter is_headline (trace world0)
         ++ [burst_headline
               (Catalog.threshold_or_5 (catalog_pattern "audit_issues") + r)
               "audit_issues"])%list) /\
  Generator.burst_interval generator0 <> 0 /\
  20 mod Generator.burst_interval generator0 = 0 /\
  (exists name cfg w1 w' r,
      choice (map fst (Generator.patterns generator0)) world0 = Ok name w1 /\
      In (name, cfg) Catalog.patterns /\
      Generator.burst_check generator0 20 world0
      = (Generator.generate_pattern_burst generator0 name None ;;;
         sleep 5000) w1 /\
      Generator.burst_check generator0 20 world0 = Ok tt w' /\
      1 <= r <= 3 /\
      Z.of_nat (List.length (stdout_lines (trace w')))
      = Z.of_nat (List.length (stdout_lines (trace world0)))
        + Catalog.threshold_or_5 cfg + r /\
      filter is_headline (trace w')
      = (filter is_headline (trace world0)
         ++ [burst_headline (Catalog.threshold_or_5 cfg + r) name])%list) /\
  Forwarder.patterns forwarder0 = Catalog.patterns /\
  producer world0 = true /\
  (exists name cfg w1 r w2 w',
      choice (map fst (Forwarder.patterns forwarder0)) world0 = Ok name w1 /\
      In (name, cfg) Catalog.patterns /\
      randint 1 5 w1 = Ok r w2 /\ 1 <= r <= 5 /\
      Forwarder.continuous_burst forwarder0 world0
      = (Forwarder.generate_pattern_burst forwarder0 name
           (Catalog.threshold_or_5 cfg + r) ;;; sleep 5000) w2 /\
      Forwarder.continuous_burst forwarder0 world0 = Ok tt w' /\
      Z.of_nat (List.length (published (trace w')))
      = Z.of_nat (List.length (published (trace world0)))
        + Catalog.threshold_or_5 cfg + r /\
      filter is_headline (trace w')
      = (filter is_headline (trace world0)
         ++ [burst_headline (Catalog.threshold_or_5 cfg + r) name])%list).
Proof.
  assert (Hin : In ("audit_issues", catalog_pattern "audit_issues")
                   Catalog.patterns)
    by (do 9 right; left; reflexivity).
  assert (Hb : Generator.burst_interval generator0 <> 0)
    by (vm_compute; discriminate).
  split; [reflexivity|]. split; [reflexivity|]. split; [exact Hin|].
  split.
  { exact (proj1 (proj1 C5_continuous_burst_counts generator0 eq_refl eq_refl)
                 "audit_issues" (catalog_pattern "audit_issues") world0 Hin). }
  split; [exact Hb|]. split; [reflexivity|].
  split.
  { exact (proj2 (proj1 C5_continuous_burst_counts generator0 eq_refl eq_refl)
                 20 world0 Hb eq_refl). }
  split; [reflexivity|]. split; [reflexivity|].
  exact (proj2 C5_continuous_burst_counts forwarder0 world0 eq_refl eq_refl).
Defined.
